(** * XrdCl message handling: MessageUtils and XRootDMsgHandler

    A shallow embedding of
      - [XrdCl::MessageUtils] (SendMessage, RewriteCGIAndPath, MergeCGI,
        CreateXAttrVec), and
      - the inline part of [XrdCl/XrdClXRootDMsgHandler.hh] (MsgHandlerRef,
        the constructor, destructor and setters of XRootDMsgHandler),
    together with the properties the specification states about them.

    Conventions.
      - A C++ unsigned integer of width w is a [Z] in [0, 2^w); every
        arithmetic operation writes its wrap-around out ([wrap16], [wrap32],
        [wrap64]).
      - Objects created with [new] live in a heap of finite maps from
        addresses to values; a pointer is an [option positive], [None] being
        the null pointer; [delete] removes the address from the map.
      - [std::map<std::string,std::string>] is a [gmap string string],
        [std::vector<T>] a [list T], [std::vector<char>] a [list ascii].
      - Collaborators whose code is not part of these two files (PostMaster,
        the byte-order marshalling of XRootDTransport, URL parsing, the
        protocol constants of XProtocol.hh) enter as explicit parameters. *)

From Stdlib Require Import ZArith Lia Ascii String.
From stdpp Require Import base gmap sets list strings.

Local Open Scope Z_scope.

(* ===================================================================== *)
(** * Part I: definitions                                                 *)
(* ===================================================================== *)

(** ** Machine integers *)

Definition wrap16 (z : Z) : Z := z mod 65536.
Definition wrap32 (z : Z) : Z := z mod 4294967296.
Definition wrap64 (z : Z) : Z := z mod 18446744073709551616.

(** Conversion of a [uint32_t] to [kXR_int32] (two's complement). *)
Definition to_int32 (z : Z) : Z :=
  let u := wrap32 z in if u <? 2147483648 then u else u - 4294967296.

(** A nullable pointer. *)
Abbreviation ptr := (option positive) (only parsing).

(** ** XrdCl::Status *)

Inductive StatusKind := stOK | stError | stFatal.

Inductive StatusCode :=
| errNone
| errUninitialized
| errInvalidArgs
| errRedirectLimit
| errOperationExpired
| errNoMoreFreeSIDs
| errOther (code : Z).

Record Status := { status : StatusKind; code : StatusCode }.

(** [Status()] *)
Definition Status_default : Status := {| status := stOK; code := errNone |}.

Definition IsOK (st : Status) : bool :=
  match status st with stOK => true | _ => false end.

Global Instance StatusKind_eq_dec : EqDecision StatusKind.
Proof. solve_decision. Defined.
Global Instance StatusCode_eq_dec : EqDecision StatusCode.
Proof. solve_decision. Defined.
Global Instance Status_eq_dec : EqDecision Status.
Proof. solve_decision. Defined.

(** ** MsgHandlerRef: counted reference to a handler (XrdClXRootDMsgHandler.hh) *)

Module MsgHandlerRef.

(** The cell.  [ref] is the [XRootDMsgHandler*], [count] the [uint16_t]
    reference count.  The mutex [mtx] is held for the whole body of every
    method, so each method is one atomic step on the cell. *)
Record cell := { ref : ptr; count : Z }.

(** [MsgHandlerRef( XRootDMsgHandler *handler )] *)
Definition make (handler : ptr) : cell := {| ref := handler; count := 1 |}.

(** [operator->] *)
Definition arrow (c : cell) : ptr := ref c.

(** [operator bool] *)
Definition to_bool (c : cell) : bool :=
  match ref c with Some _ => true | None => false end.

(** [Self()]: [++count; return *this;] *)
Definition Self (c : cell) : cell :=
  {| ref := ref c; count := wrap16 (count c + 1) |}.

(** [Invalidate()]: [ref = 0;] *)
Definition Invalidate (c : cell) : cell :=
  {| ref := None; count := count c |}.

(** [Free()]: [--count; if( count == 0 ) delete this;]
    [None] is the deleted cell. *)
Definition Free (c : cell) : option cell :=
  let c' := {| ref := ref c; count := wrap16 (count c - 1) |} in
  if count c' =? 0 then None else Some c'.

(** The life of one cell under a schedule of method calls.  A call on a
    cell that was already deleted is a use after free; it is counted in
    [faults] and leaves the state alone. *)
Inductive storage := Live (c : cell) | Freed.

Inductive op := OpSelf | OpInvalidate | OpFree | OpArrow.

Record life := {
  cellst   : storage;
  deletes  : nat;          (* how many times [delete this] ran *)
  observed : list ptr;     (* what [operator->] returned, latest first *)
  faults   : nat           (* calls on the deleted cell *)
}.

Definition born (handler : ptr) : life :=
  {| cellst := Live (make handler); deletes := 0%nat;
     observed := []; faults := 0%nat |}.

Definition step (l : life) (o : op) : life :=
  match cellst l with
  | Freed =>
      {| cellst := Freed; deletes := deletes l;
         observed := observed l; faults := S (faults l) |}
  | Live c =>
      match o with
      | OpSelf =>
          {| cellst := Live (Self c); deletes := deletes l;
             observed := observed l; faults := faults l |}
      | OpInvalidate =>
          {| cellst := Live (Invalidate c); deletes := deletes l;
             observed := observed l; faults := faults l |}
      | OpFree =>
          match Free c with
          | Some c' =>
              {| cellst := Live c'; deletes := deletes l;
                 observed := observed l; faults := faults l |}
          | None =>
              {| cellst := Freed; deletes := S (deletes l);
                 observed := observed l; faults := faults l |}
          end
      | OpArrow =>
          {| cellst := Live c; deletes := deletes l;
             observed := arrow c :: observed l; faults := faults l |}
      end
  end.

Definition run (l : life) (ops : list op) : life := fold_left step ops l.

(** The same call [n] times in a row. *)
Definition times (n : N) (o : op) (l : life) : life :=
  N.iter n (λ l', step l' o) l.

(** How many [Free] calls a schedule holds. *)
Fixpoint frees (ops : list op) : nat :=
  match ops with
  | [] => O
  | OpFree :: rest => S (frees rest)
  | _ :: rest => frees rest
  end.

(** A schedule of the holders of a cell: every holder may look through the
    cell ([operator->]) while it holds its reference and calls [Free] once,
    after which it does not touch the cell again.  With [n] holders the
    schedule has [n] calls of [Free], and the call that comes last in it is
    one of them. *)
Definition holders_schedule (n : nat) (ops : list op) : Prop :=
  Forall (λ o, o = OpFree ∨ o = OpArrow) ops
  ∧ frees ops = n
  ∧ ∃ before, ops = before ++ [OpFree].

End MsgHandlerRef.

(** ** URL, HostInfo, ChunkInfo *)

Abbreviation ParamsMap := (gmap string string) (only parsing).

(** Modelled from the spec: the URL class (XrdClURL.hh is not part of the
    sources) is a "parsed absolute location with path, host, port, parameter
    map (CGI)"; the protocol (scheme) is the part a redirect to a [file://]
    target is recognised by. *)
Record URL := {
  pProtocol : string;
  pHostName : string;
  pPort     : Z;
  pPath     : string;
  pParams   : gmap string string
}.

(** [HostInfo] and its constructor [HostInfo( url, lb = false )]. *)
Record HostInfo := {
  flags        : Z;
  protocol     : Z;
  loadBalancer : bool;
  hi_url       : URL           (* the member [url] *)
}.

Definition HostInfo_of (u : URL) (lb : bool) : HostInfo :=
  {| flags := 0; protocol := 0; loadBalancer := lb; hi_url := u |}.

Definition HostInfo_default : HostInfo :=
  HostInfo_of {| pProtocol := ""; pHostName := ""; pPort := 0; pPath := "";
                 pParams := ∅ |} false.

Abbreviation HostList := (list HostInfo) (only parsing).

(** [ChunkInfo]: the fields [offset], [length] and [buffer]. *)
Record ChunkInfo := {
  chunk_offset : Z;
  chunk_length : Z;
  chunk_buffer : ptr
}.

Abbreviation ChunkList := (list ChunkInfo) (only parsing).

(** ** Message: the request buffer *)

(** The first 24 bytes of the buffer, seen through [ClientRequestHdr]:
    [streamid] is the two-byte stream id read as one 16-bit number,
    [requestid] a [kXR_unt16], [body] the 16 request-specific bytes and
    [dlen] a [kXR_int32]. *)
Record ClientRequestHdr := {
  streamid  : Z;
  requestid : Z;
  body      : list ascii;
  dlen      : Z
}.

(** A [Message]: the header, the bytes that follow it in the buffer
    ([GetBuffer( 24 )] onwards, so the buffer holds [24 + length data] bytes),
    the description string and the session id. *)
Record Message := {
  header       : ClientRequestHdr;
  data         : list ascii;
  pDescription : string;
  pSessionId   : Z
}.

Definition GetSessionId (m : Message) : Z := pSessionId m.

(** ** XRootDMsgHandler: the object *)

(** [XRootDMsgHandler::ChunkStatus], with its default constructor. *)
Record ChunkStatus := { sizeError : bool; done : bool }.

Definition ChunkStatus_default : ChunkStatus :=
  {| sizeError := false; done := false |}.

Record RedirectEntry := {
  from      : URL;
  to        : URL;
  rstatus   : Status
}.

(** The cursor fields of the raw readers and of the raw writer. *)
Record RawState := {
  pAsyncOffset                : Z;
  pAsyncReadSize              : Z;
  pAsyncReadBuffer            : ptr;
  pAsyncMsgSize               : Z;
  pReadRawStarted             : bool;
  pReadRawCurrentOffset       : Z;
  pReadVRawMsgOffset          : Z;
  pReadVRawChunkHeaderDone    : bool;
  pReadVRawChunkHeaderStarted : bool;
  pReadVRawSizeError          : bool;
  pReadVRawChunkIndex         : Z;
  pReadVRawMsgDiscard         : bool;
  pOtherRawStarted            : bool
}.

Definition RawState_init : RawState :=
  {| pAsyncOffset := 0; pAsyncReadSize := 0; pAsyncReadBuffer := None;
     pAsyncMsgSize := 0; pReadRawStarted := false;
     pReadRawCurrentOffset := 0; pReadVRawMsgOffset := 0;
     pReadVRawChunkHeaderDone := false; pReadVRawChunkHeaderStarted := false;
     pReadVRawSizeError := false; pReadVRawChunkIndex := 0;
     pReadVRawMsgDiscard := false; pOtherRawStarted := false |}.

(** The data members of [XRootDMsgHandler].  [pPostMaster] (a pointer to the
    process-wide PostMaster) is the [PostMaster] parameter of the functions
    that use it.  [pReadVRawChunkHeader] and [pRdirEntry], scratch space of
    the vector reader and of the redirect trace-back, are read and written
    only by XrdClXRootDMsgHandler.cc and have no counterpart here. *)
Record XRootDMsgHandler := {
  pRequest            : positive;
  pResponse           : ptr;
  pPartialResps       : list positive;
  pResponseHandler    : ptr;
  pUrl                : URL;
  pSidMgr             : ptr;
  pLFileHandler       : ptr;
  pStatus             : Status;
  pLastError          : Status;
  pExpiration         : Z;
  pRedirectAsAnswer   : bool;
  pHosts              : ptr;
  pHasLoadBalancer    : bool;
  pLoadBalancer       : HostInfo;
  pHasSessionId       : bool;
  pRedirectUrl        : string;
  pChunkList          : option (list ChunkInfo);
  pChunkStatus        : list ChunkStatus;
  pRedirectCounter    : Z;
  pRaw                : RawState;
  pFollowMetalink     : bool;
  pStateful           : bool;
  pAggregatedWaitTime : Z;
  pRedirectTraceBack  : list RedirectEntry;
  pMsgInFly           : bool;
  pRef                : positive
}.

(** *** Field updates

    One function per data member that some method assigns; all other members
    are copied. *)

Definition set_pUrl (v : URL) (h : XRootDMsgHandler) : XRootDMsgHandler :=
  {| pRequest := pRequest h; pResponse := pResponse h;
     pPartialResps := pPartialResps h; pResponseHandler := pResponseHandler h;
     pUrl := v; pSidMgr := pSidMgr h; pLFileHandler := pLFileHandler h;
     pStatus := pStatus h; pLastError := pLastError h;
     pExpiration := pExpiration h; pRedirectAsAnswer := pRedirectAsAnswer h;
     pHosts := pHosts h; pHasLoadBalancer := pHasLoadBalancer h;
     pLoadBalancer := pLoadBalancer h; pHasSessionId := pHasSessionId h;
     pRedirectUrl := pRedirectUrl h; pChunkList := pChunkList h;
     pChunkStatus := pChunkStatus h; pRedirectCounter := pRedirectCounter h;
     pRaw := pRaw h; pFollowMetalink := pFollowMetalink h;
     pStateful := pStateful h; pAggregatedWaitTime := pAggregatedWaitTime h;
     pRedirectTraceBack := pRedirectTraceBack h; pMsgInFly := pMsgInFly h;
     pRef := pRef h |}.

Definition set_pStatus (v : Status) (h : XRootDMsgHandler) : XRootDMsgHandler :=
  {| pRequest := pRequest h; pResponse := pResponse h;
     pPartialResps := pPartialResps h; pResponseHandler := pResponseHandler h;
     pUrl := pUrl h; pSidMgr := pSidMgr h; pLFileHandler := pLFileHandler h;
     pStatus := v; pLastError := pLastError h; pExpiration := pExpiration h;
     pRedirectAsAnswer := pRedirectAsAnswer h; pHosts := pHosts h;
     pHasLoadBalancer := pHasLoadBalancer h; pLoadBalancer := pLoadBalancer h;
     pHasSessionId := pHasSessionId h; pRedirectUrl := pRedirectUrl h;
     pChunkList := pChunkList h; pChunkStatus := pChunkStatus h;
     pRedirectCounter := pRedirectCounter h; pRaw := pRaw h;
     pFollowMetalink := pFollowMetalink h; pStateful := pStateful h;
     pAggregatedWaitTime := pAggregatedWaitTime h;
     pRedirectTraceBack := pRedirectTraceBack h; pMsgInFly := pMsgInFly h;
     pRef := pRef h |}.

Definition set_pExpiration (v : Z) (h : XRootDMsgHandler) : XRootDMsgHandler :=
  {| pRequest := pRequest h; pResponse := pResponse h;
     pPartialResps := pPartialResps h; pResponseHandler := pResponseHandler h;
     pUrl := pUrl h; pSidMgr := pSidMgr h; pLFileHandler := pLFileHandler h;
     pStatus := pStatus h; pLastError := pLastError h; pExpiration := v;
     pRedirectAsAnswer := pRedirectAsAnswer h; pHosts := pHosts h;
     pHasLoadBalancer := pHasLoadBalancer h; pLoadBalancer := pLoadBalancer h;
     pHasSessionId := pHasSessionId h; pRedirectUrl := pRedirectUrl h;
     pChunkList := pChunkList h; pChunkStatus := pChunkStatus h;
     pRedirectCounter := pRedirectCounter h; pRaw := pRaw h;
     pFollowMetalink := pFollowMetalink h; pStateful := pStateful h;
     pAggregatedWaitTime := pAggregatedWaitTime h;
     pRedirectTraceBack := pRedirectTraceBack h; pMsgInFly := pMsgInFly h;
     pRef := pRef h |}.

Definition set_pRedirectAsAnswer (v : bool) (h : XRootDMsgHandler) : XRootDMsgHandler :=
  {| pRequest := pRequest h; pResponse := pResponse h;
     pPartialResps := pPartialResps h; pResponseHandler := pResponseHandler h;
     pUrl := pUrl h; pSidMgr := pSidMgr h; pLFileHandler := pLFileHandler h;
     pStatus := pStatus h; pLastError := pLastError h;
     pExpiration := pExpiration h; pRedirectAsAnswer := v; pHosts := pHosts h;
     pHasLoadBalancer := pHasLoadBalancer h; pLoadBalancer := pLoadBalancer h;
     pHasSessionId := pHasSessionId h; pRedirectUrl := pRedirectUrl h;
     pChunkList := pChunkList h; pChunkStatus := pChunkStatus h;
     pRedirectCounter := pRedirectCounter h; pRaw := pRaw h;
     pFollowMetalink := pFollowMetalink h; pStateful := pStateful h;
     pAggregatedWaitTime := pAggregatedWaitTime h;
     pRedirectTraceBack := pRedirectTraceBack h; pMsgInFly := pMsgInFly h;
     pRef := pRef h |}.

Definition set_pHosts (v : ptr) (h : XRootDMsgHandler) : XRootDMsgHandler :=
  {| pRequest := pRequest h; pResponse := pResponse h;
     pPartialResps := pPartialResps h; pResponseHandler := pResponseHandler h;
     pUrl := pUrl h; pSidMgr := pSidMgr h; pLFileHandler := pLFileHandler h;
     pStatus := pStatus h; pLastError := pLastError h;
     pExpiration := pExpiration h; pRedirectAsAnswer := pRedirectAsAnswer h;
     pHosts := v; pHasLoadBalancer := pHasLoadBalancer h;
     pLoadBalancer := pLoadBalancer h; pHasSessionId := pHasSessionId h;
     pRedirectUrl := pRedirectUrl h; pChunkList := pChunkList h;
     pChunkStatus := pChunkStatus h; pRedirectCounter := pRedirectCounter h;
     pRaw := pRaw h; pFollowMetalink := pFollowMetalink h;
     pStateful := pStateful h; pAggregatedWaitTime := pAggregatedWaitTime h;
     pRedirectTraceBack := pRedirectTraceBack h; pMsgInFly := pMsgInFly h;
     pRef := pRef h |}.

Definition set_pHasLoadBalancer (v : bool) (h : XRootDMsgHandler) : XRootDMsgHandler :=
  {| pRequest := pRequest h; pResponse := pResponse h;
     pPartialResps := pPartialResps h; pResponseHandler := pResponseHandler h;
     pUrl := pUrl h; pSidMgr := pSidMgr h; pLFileHandler := pLFileHandler h;
     pStatus := pStatus h; pLastError := pLastError h;
     pExpiration := pExpiration h; pRedirectAsAnswer := pRedirectAsAnswer h;
     pHosts := pHosts h; pHasLoadBalancer := v;
     pLoadBalancer := pLoadBalancer h; pHasSessionId := pHasSessionId h;
     pRedirectUrl := pRedirectUrl h; pChunkList := pChunkList h;
     pChunkStatus := pChunkStatus h; pRedirectCounter := pRedirectCounter h;
     pRaw := pRaw h; pFollowMetalink := pFollowMetalink h;
     pStateful := pStateful h; pAggregatedWaitTime := pAggregatedWaitTime h;
     pRedirectTraceBack := pRedirectTraceBack h; pMsgInFly := pMsgInFly h;
     pRef := pRef h |}.

Definition set_pLoadBalancer (v : HostInfo) (h : XRootDMsgHandler) : XRootDMsgHandler :=
  {| pRequest := pRequest h; pResponse := pResponse h;
     pPartialResps := pPartialResps h; pResponseHandler := pResponseHandler h;
     pUrl := pUrl h; pSidMgr := pSidMgr h; pLFileHandler := pLFileHandler h;
     pStatus := pStatus h; pLastError := pLastError h;
     pExpiration := pExpiration h; pRedirectAsAnswer := pRedirectAsAnswer h;
     pHosts := pHosts h; pHasLoadBalancer := pHasLoadBalancer h;
     pLoadBalancer := v; pHasSessionId := pHasSessionId h;
     pRedirectUrl := pRedirectUrl h; pChunkList := pChunkList h;
     pChunkStatus := pChunkStatus h; pRedirectCounter := pRedirectCounter h;
     pRaw := pRaw h; pFollowMetalink := pFollowMetalink h;
     pStateful := pStateful h; pAggregatedWaitTime := pAggregatedWaitTime h;
     pRedirectTraceBack := pRedirectTraceBack h; pMsgInFly := pMsgInFly h;
     pRef := pRef h |}.

Definition set_pChunkList (v : option (list ChunkInfo)) (h : XRootDMsgHandler) : XRootDMsgHandler :=
  {| pRequest := pRequest h; pResponse := pResponse h;
     pPartialResps := pPartialResps h; pResponseHandler := pResponseHandler h;
     pUrl := pUrl h; pSidMgr := pSidMgr h; pLFileHandler := pLFileHandler h;
     pStatus := pStatus h; pLastError := pLastError h;
     pExpiration := pExpiration h; pRedirectAsAnswer := pRedirectAsAnswer h;
     pHosts := pHosts h; pHasLoadBalancer := pHasLoadBalancer h;
     pLoadBalancer := pLoadBalancer h; pHasSessionId := pHasSessionId h;
     pRedirectUrl := pRedirectUrl h; pChunkList := v;
     pChunkStatus := pChunkStatus h; pRedirectCounter := pRedirectCounter h;
     pRaw := pRaw h; pFollowMetalink := pFollowMetalink h;
     pStateful := pStateful h; pAggregatedWaitTime := pAggregatedWaitTime h;
     pRedirectTraceBack := pRedirectTraceBack h; pMsgInFly := pMsgInFly h;
     pRef := pRef h |}.

Definition set_pChunkStatus (v : list ChunkStatus) (h : XRootDMsgHandler) : XRootDMsgHandler :=
  {| pRequest := pRequest h; pResponse := pResponse h;
     pPartialResps := pPartialResps h; pResponseHandler := pResponseHandler h;
     pUrl := pUrl h; pSidMgr := pSidMgr h; pLFileHandler := pLFileHandler h;
     pStatus := pStatus h; pLastError := pLastError h;
     pExpiration := pExpiration h; pRedirectAsAnswer := pRedirectAsAnswer h;
     pHosts := pHosts h; pHasLoadBalancer := pHasLoadBalancer h;
     pLoadBalancer := pLoadBalancer h; pHasSessionId := pHasSessionId h;
     pRedirectUrl := pRedirectUrl h; pChunkList := pChunkList h;
     pChunkStatus := v; pRedirectCounter := pRedirectCounter h;
     pRaw := pRaw h; pFollowMetalink := pFollowMetalink h;
     pStateful := pStateful h; pAggregatedWaitTime := pAggregatedWaitTime h;
     pRedirectTraceBack := pRedirectTraceBack h; pMsgInFly := pMsgInFly h;
     pRef := pRef h |}.

Definition set_pRedirectCounter (v : Z) (h : XRootDMsgHandler) : XRootDMsgHandler :=
  {| pRequest := pRequest h; pResponse := pResponse h;
     pPartialResps := pPartialResps h; pResponseHandler := pResponseHandler h;
     pUrl := pUrl h; pSidMgr := pSidMgr h; pLFileHandler := pLFileHandler h;
     pStatus := pStatus h; pLastError := pLastError h;
     pExpiration := pExpiration h; pRedirectAsAnswer := pRedirectAsAnswer h;
     pHosts := pHosts h; pHasLoadBalancer := pHasLoadBalancer h;
     pLoadBalancer := pLoadBalancer h; pHasSessionId := pHasSessionId h;
     pRedirectUrl := pRedirectUrl h; pChunkList := pChunkList h;
     pChunkStatus := pChunkStatus h; pRedirectCounter := v; pRaw := pRaw h;
     pFollowMetalink := pFollowMetalink h; pStateful := pStateful h;
     pAggregatedWaitTime := pAggregatedWaitTime h;
     pRedirectTraceBack := pRedirectTraceBack h; pMsgInFly := pMsgInFly h;
     pRef := pRef h |}.

Definition set_pFollowMetalink (v : bool) (h : XRootDMsgHandler) : XRootDMsgHandler :=
  {| pRequest := pRequest h; pResponse := pResponse h;
     pPartialResps := pPartialResps h; pResponseHandler := pResponseHandler h;
     pUrl := pUrl h; pSidMgr := pSidMgr h; pLFileHandler := pLFileHandler h;
     pStatus := pStatus h; pLastError := pLastError h;
     pExpiration := pExpiration h; pRedirectAsAnswer := pRedirectAsAnswer h;
     pHosts := pHosts h; pHasLoadBalancer := pHasLoadBalancer h;
     pLoadBalancer := pLoadBalancer h; pHasSessionId := pHasSessionId h;
     pRedirectUrl := pRedirectUrl h; pChunkList := pChunkList h;
     pChunkStatus := pChunkStatus h; pRedirectCounter := pRedirectCounter h;
     pRaw := pRaw h; pFollowMetalink := v; pStateful := pStateful h;
     pAggregatedWaitTime := pAggregatedWaitTime h;
     pRedirectTraceBack := pRedirectTraceBack h; pMsgInFly := pMsgInFly h;
     pRef := pRef h |}.

Definition set_pStateful (v : bool) (h : XRootDMsgHandler) : XRootDMsgHandler :=
  {| pRequest := pRequest h; pResponse := pResponse h;
     pPartialResps := pPartialResps h; pResponseHandler := pResponseHandler h;
     pUrl := pUrl h; pSidMgr := pSidMgr h; pLFileHandler := pLFileHandler h;
     pStatus := pStatus h; pLastError := pLastError h;
     pExpiration := pExpiration h; pRedirectAsAnswer := pRedirectAsAnswer h;
     pHosts := pHosts h; pHasLoadBalancer := pHasLoadBalancer h;
     pLoadBalancer := pLoadBalancer h; pHasSessionId := pHasSessionId h;
     pRedirectUrl := pRedirectUrl h; pChunkList := pChunkList h;
     pChunkStatus := pChunkStatus h; pRedirectCounter := pRedirectCounter h;
     pRaw := pRaw h; pFollowMetalink := pFollowMetalink h; pStateful := v;
     pAggregatedWaitTime := pAggregatedWaitTime h;
     pRedirectTraceBack := pRedirectTraceBack h; pMsgInFly := pMsgInFly h;
     pRef := pRef h |}.

Definition set_pAggregatedWaitTime (v : Z) (h : XRootDMsgHandler) : XRootDMsgHandler :=
  {| pRequest := pRequest h; pResponse := pResponse h;
     pPartialResps := pPartialResps h; pResponseHandler := pResponseHandler h;
     pUrl := pUrl h; pSidMgr := pSidMgr h; pLFileHandler := pLFileHandler h;
     pStatus := pStatus h; pLastError := pLastError h;
     pExpiration := pExpiration h; pRedirectAsAnswer := pRedirectAsAnswer h;
     pHosts := pHosts h; pHasLoadBalancer := pHasLoadBalancer h;
     pLoadBalancer := pLoadBalancer h; pHasSessionId := pHasSessionId h;
     pRedirectUrl := pRedirectUrl h; pChunkList := pChunkList h;
     pChunkStatus := pChunkStatus h; pRedirectCounter := pRedirectCounter h;
     pRaw := pRaw h; pFollowMetalink := pFollowMetalink h;
     pStateful := pStateful h; pAggregatedWaitTime := v;
     pRedirectTraceBack := pRedirectTraceBack h; pMsgInFly := pMsgInFly h;
     pRef := pRef h |}.

Definition set_pRedirectTraceBack (v : list RedirectEntry) (h : XRootDMsgHandler) : XRootDMsgHandler :=
  {| pRequest := pRequest h; pResponse := pResponse h;
     pPartialResps := pPartialResps h; pResponseHandler := pResponseHandler h;
     pUrl := pUrl h; pSidMgr := pSidMgr h; pLFileHandler := pLFileHandler h;
     pStatus := pStatus h; pLastError := pLastError h;
     pExpiration := pExpiration h; pRedirectAsAnswer := pRedirectAsAnswer h;
     pHosts := pHosts h; pHasLoadBalancer := pHasLoadBalancer h;
     pLoadBalancer := pLoadBalancer h; pHasSessionId := pHasSessionId h;
     pRedirectUrl := pRedirectUrl h; pChunkList := pChunkList h;
     pChunkStatus := pChunkStatus h; pRedirectCounter := pRedirectCounter h;
     pRaw := pRaw h; pFollowMetalink := pFollowMetalink h;
     pStateful := pStateful h; pAggregatedWaitTime := pAggregatedWaitTime h;
     pRedirectTraceBack := v; pMsgInFly := pMsgInFly h; pRef := pRef h |}.

Definition set_pMsgInFly (v : bool) (h : XRootDMsgHandler) : XRootDMsgHandler :=
  {| pRequest := pRequest h; pResponse := pResponse h;
     pPartialResps := pPartialResps h; pResponseHandler := pResponseHandler h;
     pUrl := pUrl h; pSidMgr := pSidMgr h; pLFileHandler := pLFileHandler h;
     pStatus := pStatus h; pLastError := pLastError h;
     pExpiration := pExpiration h; pRedirectAsAnswer := pRedirectAsAnswer h;
     pHosts := pHosts h; pHasLoadBalancer := pHasLoadBalancer h;
     pLoadBalancer := pLoadBalancer h; pHasSessionId := pHasSessionId h;
     pRedirectUrl := pRedirectUrl h; pChunkList := pChunkList h;
     pChunkStatus := pChunkStatus h; pRedirectCounter := pRedirectCounter h;
     pRaw := pRaw h; pFollowMetalink := pFollowMetalink h;
     pStateful := pStateful h; pAggregatedWaitTime := pAggregatedWaitTime h;
     pRedirectTraceBack := pRedirectTraceBack h; pMsgInFly := v;
     pRef := pRef h |}.

(** ** The heap *)

(** Modelled from the spec: the SIDManager (XrdClSIDManager.hh is not part of
    the sources) "allocates/releases per-connection stream identifiers".  Its
    state is the set of identifiers that are allocated; which free identifier
    an allocation hands out is the policy [pick], a parameter. *)
Record SIDManager := { allocatedSIDs : gset Z }.

(** Modelled from the spec: [AllocateSID( sid )] marks a free identifier as
    allocated and writes it to [sid], or fails and leaves [sid] alone. *)
Definition SIDManager_AllocateSID (pick : gset Z → option Z)
    (mgr : SIDManager) (sid : Z) : Status * SIDManager * Z :=
  match pick (allocatedSIDs mgr) with
  | Some s =>
      (Status_default, {| allocatedSIDs := {[ s ]} ∪ allocatedSIDs mgr |}, s)
  | None =>
      ({| status := stError; code := errNoMoreFreeSIDs |}, mgr, sid)
  end.

(** Modelled from the spec: [ReleaseSID( sid )]. *)
Definition SIDManager_ReleaseSID (mgr : SIDManager) (sid : Z) : SIDManager :=
  {| allocatedSIDs := allocatedSIDs mgr ∖ {[ sid ]} |}.

(** The objects the code creates and destroys, by address. *)
Record Heap := {
  messages    : gmap positive Message;
  hostLists   : gmap positive (list HostInfo);
  handlerRefs : gmap positive MsgHandlerRef.cell;
  msgHandlers : gmap positive XRootDMsgHandler;
  sidManagers : gmap positive SIDManager
}.

Definition set_messages (v : gmap positive Message) (hp : Heap) : Heap :=
  {| messages := v; hostLists := hostLists hp; handlerRefs := handlerRefs hp;
     msgHandlers := msgHandlers hp; sidManagers := sidManagers hp |}.

Definition set_hostLists (v : gmap positive (list HostInfo)) (hp : Heap)
  : Heap :=
  {| messages := messages hp; hostLists := v; handlerRefs := handlerRefs hp;
     msgHandlers := msgHandlers hp; sidManagers := sidManagers hp |}.

Definition set_handlerRefs (v : gmap positive MsgHandlerRef.cell) (hp : Heap)
  : Heap :=
  {| messages := messages hp; hostLists := hostLists hp; handlerRefs := v;
     msgHandlers := msgHandlers hp; sidManagers := sidManagers hp |}.

Definition set_msgHandlers (v : gmap positive XRootDMsgHandler) (hp : Heap)
  : Heap :=
  {| messages := messages hp; hostLists := hostLists hp;
     handlerRefs := handlerRefs hp; msgHandlers := v;
     sidManagers := sidManagers hp |}.

Definition set_sidManagers (v : gmap positive SIDManager) (hp : Heap) : Heap :=
  {| messages := messages hp; hostLists := hostLists hp;
     handlerRefs := handlerRefs hp; msgHandlers := msgHandlers hp;
     sidManagers := v |}.

(** [delete p] for a [Message*] and for a [HostList*]; deleting the null
    pointer does nothing. *)
Definition delete_Message (p : ptr) (hp : Heap) : Heap :=
  match p with
  | Some a => set_messages (delete a (messages hp)) hp
  | None => hp
  end.

Definition delete_HostList (p : ptr) (hp : Heap) : Heap :=
  match p with
  | Some a => set_hostLists (delete a (hostLists hp)) hp
  | None => hp
  end.

(** [p->Free()] on the cell at address [p]: the cell is updated in place, or
    removed from the heap when [Free] deletes it. *)
Definition MsgHandlerRef_Free_at (p : positive) (hp : Heap) : Heap :=
  match handlerRefs hp !! p with
  | Some c =>
      match MsgHandlerRef.Free c with
      | Some c' => set_handlerRefs (<[p := c']> (handlerRefs hp)) hp
      | None => set_handlerRefs (delete p (handlerRefs hp)) hp
      end
  | None => hp
  end.

(** ** XRootDMsgHandler: constructor, setters, destructor *)

(** The member initialisers of the constructor.  [hasSessionId] and [ref]
    are what the constructor's body and the allocation of the counted
    reference contribute. *)
Definition XRootDMsgHandler_members (msg : positive) (respHandler : ptr)
    (url : URL) (sidMgr lFileHandler : ptr) (hasSessionId : bool)
    (ref : positive) : XRootDMsgHandler :=
  {| pRequest := msg; pResponse := None; pPartialResps := [];
     pResponseHandler := respHandler; pUrl := url; pSidMgr := sidMgr;
     pLFileHandler := lFileHandler; pStatus := Status_default;
     pLastError := Status_default; pExpiration := 0;
     pRedirectAsAnswer := false; pHosts := None;
     pHasLoadBalancer := false; pLoadBalancer := HostInfo_default;
     pHasSessionId := hasSessionId;
     pRedirectUrl := ""; pChunkList := None; pChunkStatus := [];
     pRedirectCounter := 0; pRaw := RawState_init;
     pFollowMetalink := false; pStateful := false;
     pAggregatedWaitTime := 0; pRedirectTraceBack := [];
     pMsgInFly := false; pRef := ref |}.

(** The constructor, run for the object at address [this].  It allocates the
    counted reference to itself and reads the session id of [msg]:
    [if( msg->GetSessionId() ) pHasSessionId = true;]. *)
Definition XRootDMsgHandler_ctor (this msg : positive) (respHandler : ptr)
    (url : URL) (sidMgr lFileHandler : ptr) (hp : Heap)
  : option (XRootDMsgHandler * Heap) :=
  m ← messages hp !! msg;
  let r := fresh (dom (handlerRefs hp)) in
  let hp' :=
    set_handlerRefs (<[r := MsgHandlerRef.make (Some this)]> (handlerRefs hp))
                    hp in
  Some (XRootDMsgHandler_members msg respHandler url sidMgr lFileHandler
          (negb (GetSessionId m =? 0)) r, hp').

(** [new XRootDMsgHandler( msg, respHandler, &url, sidMgr, lFileHandler )] *)
Definition new_XRootDMsgHandler (msg : positive) (respHandler : ptr)
    (url : URL) (sidMgr lFileHandler : ptr) (hp : Heap)
  : option (positive * Heap) :=
  let this := fresh (dom (msgHandlers hp)) in
  '(h, hp') ← XRootDMsgHandler_ctor this msg respHandler url sidMgr
                                    lFileHandler hp;
  Some (this, set_msgHandlers (<[this := h]> (msgHandlers hp')) hp').

Definition SetExpiration (expiration : Z) (h : XRootDMsgHandler)
  : XRootDMsgHandler := set_pExpiration expiration h.

Definition SetRedirectAsAnswer (redirectAsAnswer : bool)
    (h : XRootDMsgHandler) : XRootDMsgHandler :=
  set_pRedirectAsAnswer redirectAsAnswer h.

(** [SetLoadBalancer]; [IsValid] is URL::IsValid, a parameter. *)
Definition SetLoadBalancer (IsValid : URL → bool) (lb : HostInfo)
    (h : XRootDMsgHandler) : XRootDMsgHandler :=
  if negb (IsValid (hi_url lb)) then h
  else set_pHasLoadBalancer true (set_pLoadBalancer lb h).

(** [SetChunkList]: [std::vector::resize] keeps the entries below the new
    size and appends default-constructed ones above the old size. *)
Definition SetChunkList (chunkList : option (list ChunkInfo))
    (h : XRootDMsgHandler) : XRootDMsgHandler :=
  let h' := set_pChunkList chunkList h in
  match chunkList with
  | Some cl =>
      set_pChunkStatus
        (resize (List.length cl) ChunkStatus_default (pChunkStatus h)) h'
  | None => set_pChunkStatus [] h'
  end.

(** [SetRedirectCounter( uint16_t redirectCounter )] *)
Definition SetRedirectCounter (redirectCounter : Z) (h : XRootDMsgHandler)
  : XRootDMsgHandler := set_pRedirectCounter (wrap16 redirectCounter) h.

Definition SetFollowMetalink (followMetalink : bool) (h : XRootDMsgHandler)
  : XRootDMsgHandler := set_pFollowMetalink followMetalink h.

Definition SetStateful (stateful : bool) (h : XRootDMsgHandler)
  : XRootDMsgHandler := set_pStateful stateful h.

(** [GetMessageBody]: hands out the chunk list (and the address of
    [pAsyncOffset]); the handler is not changed. *)
Definition GetMessageBody (h : XRootDMsgHandler)
  : option (list ChunkInfo) * Z := (pChunkList h, pAsyncOffset (pRaw h)).

Definition GetRequest (h : XRootDMsgHandler) : positive := pRequest h.

(** A method call through a pointer: [p->f()]. *)
Definition call_on (p : positive) (f : XRootDMsgHandler → XRootDMsgHandler)
    (hp : Heap) : Heap :=
  set_msgHandlers (alter f p (msgHandlers hp)) hp.

(** [p->SetHostList( hostList )]: [delete pHosts; pHosts = hostList;] *)
Definition SetHostList_at (p : positive) (hostList : ptr) (hp : Heap) : Heap :=
  match msgHandlers hp !! p with
  | Some h => call_on p (set_pHosts hostList) (delete_HostList (pHosts h) hp)
  | None => hp
  end.

(** The destructor: [pRef->Free()], the trace-back dump (log output only),
    [if( !pHasSessionId ) delete pRequest], [delete pResponse] and the
    deletion of every partial response. *)
Definition XRootDMsgHandler_dtor (h : XRootDMsgHandler) (hp : Heap) : Heap :=
  let hp1 := MsgHandlerRef_Free_at (pRef h) hp in
  let hp2 := if pHasSessionId h then hp1
             else delete_Message (Some (pRequest h)) hp1 in
  let hp3 := delete_Message (pResponse h) hp2 in
  foldl (λ acc p, delete_Message (Some p) acc) hp3 (pPartialResps h).

(** [delete p] for an [XRootDMsgHandler*]. *)
Definition delete_XRootDMsgHandler (p : positive) (hp : Heap) : Heap :=
  match msgHandlers hp !! p with
  | Some h =>
      let hp' := XRootDMsgHandler_dtor h hp in
      set_msgHandlers (delete p (msgHandlers hp')) hp'
  | None => hp
  end.

(** ** Parameters: what lives outside the two source files *)

(** The request codes of XProtocol.hh that [RewriteCGIAndPath] switches on. *)
Record RequestIds := {
  kXR_chmod    : Z;
  kXR_mkdir    : Z;
  kXR_mv       : Z;
  kXR_open     : Z;
  kXR_rm       : Z;
  kXR_rmdir    : Z;
  kXR_stat     : Z;
  kXR_truncate : Z
}.

(** [xfaLimits] of XProtocol.hh. *)
Record xfaLimits := {
  kXR_faMaxVars : Z;
  kXR_faMaxNlen : Z;
  kXR_faMaxVlen : Z
}.

(** [ClientFattrRequest::NVecInsert( name, buffer )] and [VVecInsert( value,
    buffer )] write at [buffer] and return the position just after what they
    wrote.  The parameter gives the bytes each of them writes. *)
Record FattrCodec := {
  NVecInsert : string → list ascii;
  VVecInsert : string → list ascii
}.

(** The URL operations whose code is in XrdClURL.cc: the constructor from a
    string, [GetPathWithParams] and [IsValid]. *)
Record URLOps := {
  URL_of_string     : string → URL;
  GetPathWithParams : URL → string;
  IsValid           : URL → bool
}.

Definition GetParams (u : URL) : gmap string string := pParams u.

Definition SetParams (params : gmap string string) (u : URL) : URL :=
  {| pProtocol := pProtocol u; pHostName := pHostName u; pPort := pPort u;
     pPath := pPath u; pParams := params |}.

Definition SetPath (path : string) (u : URL) : URL :=
  {| pProtocol := pProtocol u; pHostName := pHostName u; pPort := pPort u;
     pPath := path; pParams := pParams u |}.

(** [MessageSendParams] (XrdClMessageUtils.hh). *)
Record MessageSendParams := {
  timeout         : Z;
  expires         : Z;
  sp_loadBalancer : HostInfo;
  followRedirects : bool;
  stateful        : bool;
  chunkList       : option (list ChunkInfo);
  redirectLimit   : Z
}.

(** The PostMaster, as far as [SendMessage] talks to it.  [QueryTransport]
    answers the query for the SID manager of the channel with a status and
    the manager's address; [Send] gets the message and the handler (it may
    look at both, so it is given the heap) and answers with a status. *)
Record PostMaster := {
  QueryTransport : URL → Status * positive;
  Send           : URL → positive → positive → bool → Z → Heap → Status
}.

(** The process environment: [DefaultEnv::GetPostMaster()] (null before the
    library is initialised), the byte-order conversions of XRootDTransport,
    [XRootDTransport::SetDescription], the allocation policy of the SID
    managers and the URL operations. *)
Record Env := {
  GetPostMaster     : option PostMaster;
  MarshallRequest   : Message → Message;
  UnMarshallRequest : Message → Message;
  describe          : ClientRequestHdr → list ascii → string;
  pickSID           : gset Z → option Z;
  urlOps            : URLOps
}.

(** The calls [SendMessage] makes on its collaborators, in order (latest
    first).  [CallSend] keeps the heap the PostMaster was handed. *)
Inductive Call :=
| CallQueryTransport (u : URL)
| CallAllocateSID (mgr : positive) (sid : Z)
| CallMarshallRequest (msg : positive)
| CallSend (u : URL) (msg handler : positive) (hp : Heap)
| CallUnMarshallRequest (msg : positive)
| CallReleaseSID (mgr : positive) (sid : Z).

Record World := { heap : Heap; calls : list Call }.

Definition on_heap (f : Heap → Heap) (w : World) : World :=
  {| heap := f (heap w); calls := calls w |}.

Definition log_call (c : Call) (w : World) : World :=
  {| heap := heap w; calls := c :: calls w |}.

(** ** Buffers *)

Definition zero_char : ascii := Ascii.zero.
Definition space_char : ascii := " "%char.

(** [memcpy( buf + off, bs, |bs| )] inside a buffer of fixed size. *)
Definition write_at (off : nat) (bs buf : list ascii) : list ascii :=
  take off buf ++ take (List.length buf - off)%nat bs
    ++ drop (off + List.length bs)%nat buf.

(** The C string that starts at the head of [bs]: the bytes before the first
    null character. *)
Fixpoint c_str (bs : list ascii) : string :=
  match bs with
  | [] => EmptyString
  | c :: rest =>
      if Ascii.eqb c zero_char then EmptyString else String c (c_str rest)
  end.

(** The [kXR_mv] loop
    [for( i = 0; i < dlen; ++i, ++path, --length ) if( *path == ' ' ) break;]:
    how many times it advances [path]. *)
Fixpoint skip_to_space (n : nat) (bytes : list ascii) : nat :=
  match n with
  | O => O
  | S n' =>
      match bytes with
      | c :: rest =>
          if Ascii.eqb c space_char then O else S (skip_to_space n' rest)
      | [] => S (skip_to_space n' [])
      end
  end.

(** ** MessageUtils *)

Definition is_empty_string (s : string) : bool :=
  match s with EmptyString => true | _ => false end.

Definition set_streamid (sid : Z) (m : Message) : Message :=
  {| header := {| streamid := sid; requestid := requestid (header m);
                  body := body (header m); dlen := dlen (header m) |};
     data := data m; pDescription := pDescription m;
     pSessionId := pSessionId m |}.

Module MessageUtils.

(** *** MergeCGI *)

(** One iteration of the loop over [cgi2], at the entry [(k, v2)]. *)
Definition MergeCGI_step (replace : bool) (k v2 : string)
    (cgi1 : gmap string string) : gmap string string :=
  if replace || bool_decide (cgi1 !! k = None) then <[k := v2]> cgi1
  else
    match cgi1 !! k with
    | Some v =>
        if is_empty_string v then <[k := v2]> cgi1
        else <[k := (v +:+ "," +:+ v2)%string]> cgi1
    | None => <[k := v2]> cgi1       (* [cgi1[k]] creates an empty value *)
    end.

(** [MergeCGI( cgi1, cgi2, replace )] on two different objects, as in
    [RewriteCGIAndPath], which merges into a local copy of the parameters:
    the loop runs once for every entry of [cgi2], which is only read; the
    result is the new content of [cgi1].  The keys of a [std::map] are
    distinct, so an iteration writes a key that no other iteration reads or
    writes, and the order of the iterations does not show in the result.
    The call in which both references name one object is [MergeCGI_at]
    below, which agrees with this function on different objects. *)
Definition MergeCGI (cgi1 cgi2 : gmap string string) (replace : bool)
  : gmap string string :=
  map_fold (MergeCGI_step replace) cgi1 cgi2.

(** *** MergeCGI on references

    [cgi1] is a [URL::ParamsMap &] and [cgi2] a [const URL::ParamsMap &]:
    the maps are objects in a store, and the two references may name the
    same one.  Every read of [it->second] and of [cgi1[it->first]] is a read
    of the store at the moment it happens. *)

(** [m.find( k )] on the object at [p]: the value under [k], if any. *)
Definition ParamsMap_find (st : gmap positive (gmap string string))
    (p : positive) (k : string) : option string :=
  st !! p ≫= λ m, m !! k.

(** [m[k] = v] on the object at [p]. *)
Definition ParamsMap_assign (p : positive) (k v : string)
    (st : gmap positive (gmap string string))
  : gmap positive (gmap string string) :=
  alter (<[k := v]>) p st.

(** The body of the loop with the iterator [it] at the key [k] of [cgi2]. *)
Definition MergeCGI_body (p1 p2 : positive) (replace : bool) (k : string)
    (st : gmap positive (gmap string string))
  : gmap positive (gmap string string) :=
  match ParamsMap_find st p2 k with
  | None => st
  | Some second =>                                      (* it->second *)
      match ParamsMap_find st p1 k with
      | None => ParamsMap_assign p1 k second st
      | Some v =>
          if replace then ParamsMap_assign p1 k second st
          else if is_empty_string v then ParamsMap_assign p1 k second st
          else
            (* v += ','; *)
            let st := ParamsMap_assign p1 k (v +:+ ",")%string st in
            (* v += it->second; both are read after the first append *)
            match ParamsMap_find st p1 k, ParamsMap_find st p2 k with
            | Some v, Some second =>
                ParamsMap_assign p1 k (v +:+ second)%string st
            | _, _ => st
            end
      end
  end.

(** [MergeCGI( cgi1, cgi2, replace )] with [cgi1] the object at [p1] and
    [cgi2] the object at [p2].  The loop visits the keys [cgi2] has when it
    starts: the body erases nothing and inserts into [cgi1] only under the
    key the iterator is at, which [cgi2] has, so also when both are one
    object the set of keys under the iterator does not change. *)
Definition MergeCGI_at (p1 p2 : positive) (replace : bool)
    (st : gmap positive (gmap string string))
  : gmap positive (gmap string string) :=
  match st !! p2 with
  | Some cgi2 =>
      map_fold (λ k _ acc, MergeCGI_body p1 p2 replace k acc) st cgi2
  | None => st
  end.

(** *** RewriteCGIAndPath *)

Definition rewrites_path (ids : RequestIds) (rid : Z) : bool :=
  (rid =? kXR_chmod ids) || (rid =? kXR_mkdir ids) || (rid =? kXR_mv ids)
  || (rid =? kXR_open ids) || (rid =? kXR_rm ids) || (rid =? kXR_rmdir ids)
  || (rid =? kXR_stat ids) || (rid =? kXR_truncate ids).

(** Where the path starts in the data region: after the first space for
    [kXR_mv], at the start otherwise. *)
Definition path_offset (ids : RequestIds) (hdr : ClientRequestHdr)
    (bytes : list ascii) : nat :=
  if requestid hdr =? kXR_mv ids
  then S (skip_to_space (Z.to_nat (dlen hdr)) bytes)
  else O.

(** [RewriteCGIAndPath( msg, newCgi, replace, newPath )].  The buffer of
    the message is its header followed by [data msg].  The function gives
    the message the code leaves when all its reads and writes stay inside
    that buffer.  On a request that carries a path and is malformed (a
    [dlen] that is negative or is not the number of bytes after the header,
    a [kXR_mv] without a space between its two paths, where [length] wraps
    below zero) the code reads or writes outside the buffer: its behaviour
    is undefined there, and the value of this function, where [take], [drop]
    and [write_at] stop at the end of the list, describes nothing.  The
    requests on which the code is defined are those of [path_in_bounds]. *)
Definition RewriteCGIAndPath (env : Env) (ids : RequestIds) (msg : Message)
    (newCgi : gmap string string) (replace : bool) (newPath : string)
  : Message :=
  let req := header msg in
  let msg' :=
    if rewrites_path ids (requestid req) then
      (* the pointer to the path and its length *)
      let off := path_offset ids req (data msg) in
      let length := wrap64 (dlen req - Z.of_nat off) in
      (* a fake URL from the existing path and CGI *)
      let pathWithNull := take (Z.to_nat length) (drop off (data msg)) in
      let currentPath :=
        URL_of_string (urlOps env)
          ("fake://fake:111/" +:+ c_str pathWithNull)%string in
      let currentCgi := MergeCGI (GetParams currentPath) newCgi replace in
      let currentPath := SetParams currentCgi currentPath in
      let currentPath :=
        if is_empty_string newPath then currentPath
        else SetPath newPath currentPath in
      let newPathWitParams := GetPathWithParams (urlOps env) currentPath in
      (* write the path with the new cgi into the message *)
      let newDlen :=
        wrap32 (dlen req - length
                + Z.of_nat (String.length newPathWitParams)) in
      let buf :=
        resize (Z.to_nat (wrap32 (24 + newDlen) - 24)) zero_char
               (data msg) in
      let off' := path_offset ids req buf in
      {| header := {| streamid := streamid req; requestid := requestid req;
                      body := body req; dlen := to_int32 newDlen |};
         data := write_at off' (list_ascii_of_string newPathWitParams) buf;
         pDescription := pDescription msg;
         pSessionId := pSessionId msg |}
    else msg in
  (* XRootDTransport::SetDescription( msg ) *)
  {| header := header msg'; data := data msg';
     pDescription := describe env (header msg') (data msg');
     pSessionId := pSessionId msg' |}.

(** *** CreateXAttrVec *)

Definition name_overhead : Z := 3.
Definition value_overhead : Z := 4.

(** The two [size_t] accumulators of the first loop. *)
Definition xattr_lengths (attrs : list (string * string)) : Z * Z :=
  foldl (λ '(nlen, vlen) '(name, value),
           (wrap64 (nlen + wrap64 (Z.of_nat (String.length name)
                                   + name_overhead)),
            wrap64 (vlen + wrap64 (Z.of_nat (String.length value)
                                   + value_overhead))))
        (0, 0) attrs.

(** The second loop: [nvec] and [vvec] advance through the buffer. *)
Definition xattr_fill (codec : FattrCodec) (attrs : list (string * string))
    (nvec vvec : nat) (avec : list ascii) : list ascii :=
  snd (foldl (λ '(pos, buf) '(name, value),
                let nb := NVecInsert codec name in
                let vb := VVecInsert codec value in
                ((fst pos + List.length nb, snd pos + List.length vb)%nat,
                 write_at (snd pos) vb (write_at (fst pos) nb buf)))
             ((nvec, vvec), avec) attrs).

Definition CreateXAttrVec (lim : xfaLimits) (codec : FattrCodec)
    (attrs : list (string * string)) (avec : list ascii)
  : Status * list ascii :=
  match attrs with
  | [] => (Status_default, avec)
  | _ =>
      if kXR_faMaxVars lim <? Z.of_nat (List.length attrs)
      then ({| status := stError; code := errInvalidArgs |}, avec)
      else
        let '(nlen, vlen) := xattr_lengths attrs in
        if kXR_faMaxNlen lim <? nlen
        then ({| status := stError; code := errInvalidArgs |}, avec)
        else if kXR_faMaxVlen lim <? vlen
        then ({| status := stError; code := errInvalidArgs |}, avec)
        else
          let avec' := resize (Z.to_nat (wrap64 (nlen + vlen))) zero_char
                              avec in
          (Status_default,
           xattr_fill codec attrs O (Z.to_nat nlen) avec')
  end.

(** *** SendMessage *)

(** The block "Create and set up the message handler": the new handler, its
    setters, and the new host list that holds [url].  The result is the
    handler's address, the list's address and the heap. *)
Definition SendMessage_setup (env : Env) (url : URL) (msg : positive)
    (handler : ptr) (sendParams : MessageSendParams) (lFileHandler : ptr)
    (sidMgr : positive) (hp : Heap) : option (positive * positive * Heap) :=
  '(msgHandler, hp) ←
    new_XRootDMsgHandler msg handler url (Some sidMgr) lFileHandler hp;
  let hp := call_on msgHandler (SetExpiration (expires sendParams)) hp in
  let hp :=
    call_on msgHandler
      (SetRedirectAsAnswer (negb (followRedirects sendParams))) hp in
  let hp := call_on msgHandler (SetChunkList (chunkList sendParams)) hp in
  let hp :=
    call_on msgHandler (SetRedirectCounter (redirectLimit sendParams)) hp in
  let hp := call_on msgHandler (SetStateful (stateful sendParams)) hp in
  let hp :=
    if IsValid (urlOps env) (hi_url (sp_loadBalancer sendParams))
    then call_on msgHandler
           (SetLoadBalancer (IsValid (urlOps env))
                            (sp_loadBalancer sendParams)) hp
    else hp in
  (* list = new HostList(); list->push_back( url ); *)
  let list := fresh (dom (hostLists hp)) in
  let hp := set_hostLists (<[list := []]> (hostLists hp)) hp in
  let hp :=
    set_hostLists
      (alter (λ l, l ++ [HostInfo_of url false]) list (hostLists hp)) hp in
  let hp := SetHostList_at msgHandler (Some list) hp in
  Some (msgHandler, list, hp).

(** The block that runs when [PostMaster::Send] failed. *)
Definition SendMessage_undo (env : Env) (msg sidMgr msgHandler list : positive)
    (w : World) : option World :=
  let w :=
    log_call (CallUnMarshallRequest msg)
      (on_heap (λ hp,
         set_messages (alter (UnMarshallRequest env) msg (messages hp)) hp)
         w) in
  req ← messages (heap w) !! msg;
  (* release the SID as the request was never sent *)
  let sid := streamid (header req) in
  let w :=
    log_call (CallReleaseSID sidMgr sid)
      (on_heap (λ hp,
         set_sidManagers
           (alter (λ m, SIDManager_ReleaseSID m sid) sidMgr (sidManagers hp))
           hp) w) in
  let w := on_heap (delete_XRootDMsgHandler msgHandler) w in
  let w := on_heap (delete_HostList (Some list)) w in
  Some w.

Definition SendMessage (env : Env) (url : URL) (msg : positive)
    (handler : ptr) (sendParams : MessageSendParams) (lFileHandler : ptr)
    (w : World) : option (Status * World) :=
  match GetPostMaster env with
  | None => Some ({| status := stError; code := errUninitialized |}, w)
  | Some postMaster =>
      let '(st, sidMgr) := QueryTransport postMaster url in
      let w := log_call (CallQueryTransport url) w in
      if negb (IsOK st) then Some (st, w)
      else
        mgr ← sidManagers (heap w) !! sidMgr;
        req ← messages (heap w) !! msg;
        (* allocate the SID and marshall the message *)
        let '(st, mgr', sid) :=
          SIDManager_AllocateSID (pickSID env) mgr (streamid (header req)) in
        if negb (IsOK st)
        then Some (st, log_call (CallAllocateSID sidMgr sid) w)
        else
          let w :=
            log_call (CallAllocateSID sidMgr sid)
              (on_heap (λ hp,
                 set_sidManagers (<[sidMgr := mgr']> (sidManagers hp))
                   (set_messages
                      (<[msg := set_streamid sid req]> (messages hp)) hp))
                 w) in
          let w :=
            log_call (CallMarshallRequest msg)
              (on_heap (λ hp,
                 set_messages (alter (MarshallRequest env) msg (messages hp))
                              hp) w) in
          (* create and set up the message handler *)
          '(msgHandler, list, hp) ←
            SendMessage_setup env url msg handler sendParams lFileHandler
                              sidMgr (heap w);
          (* send the message *)
          let st :=
            Send postMaster url msg msgHandler (stateful sendParams)
                 (expires sendParams) hp in
          let w :=
            log_call (CallSend url msg msgHandler hp)
                     {| heap := hp; calls := calls w |} in
          if negb (IsOK st) then
            w ← SendMessage_undo env msg sidMgr msgHandler list w;
            Some (st, w)
          else Some (Status_default, w)
  end.

End MessageUtils.

(** ** The life of a request after a successful send *)

(** Modelled from the spec: XrdClXRootDMsgHandler.cc (Examine, Process,
    OnStreamEvent, WaitDone, HandleError, HandleResponse) is not part of the
    sources.  The definitions of this section follow the specification of the
    single-request state machine (sections 4.5, 4.6, 4.8 and 4.9) on the
    handler object of the header:
      - the resting states are InFlight, ReadingRaw, WritingRaw,
        AwaitingMore, Waiting and Terminal; Classifying, Redirecting,
        Retrying and Completed are passed through inside one step;
      - "Terminal is reached exactly once per handler and triggers callback
        + self-destruction": a handler in Terminal has left the dispatch
        table and receives no event;
      - on a redirect the counter is examined before it is decremented: a
        redirect that finds it at zero ends the request with
        errRedirectLimit, which is what scenario 5 of the specification
        requires (limit 3, three redirects followed, host list of length 4);
      - [pRedirectAsAnswer] "treat[s] the kXR_redirect response as a valid
        answer to the message" (header), so the request ends there; a
        [file://] target with a local file handler ends it with the local
        result "without further network activity";
      - every attempted send compares the clock with [pExpiration];
      - the machine gives where the handler's logic takes a request (the
        sends, the host list, the counter, the status it ends with); the
        moment at which the end is reported, which the specification ties to
        the confirmation that the message has left the socket
        ([pMsgInFly]), is not part of it: [pMsgInFly] is not written here. *)
Inductive Phase :=
| InFlight | ReadingRaw | WritingRaw | AwaitingMore | Waiting | Terminal.

Global Instance Phase_eq_dec : EqDecision Phase.
Proof. solve_decision. Defined.

(** Modelled from the spec: the occasions on which a request is handed to
    the PostMaster: by SendMessage, on a redirect, on a retry at the load
    balancer after a recoverable error, and on the wake-up after a wait. *)
Inductive SendKind := SendInitial | SendRedirect | SendRetry | SendAfterWait.

Global Instance SendKind_eq_dec : EqDecision SendKind.
Proof. solve_decision. Defined.

(** Modelled from the spec: the handler, the content of its host list, the
    state of section 4.9, and two logs: the invocations of the user's
    ResponseHandler (status and host list, latest first) and the sends handed
    to the PostMaster (latest first). *)
Record Machine := {
  mHandler   : XRootDMsgHandler;
  mHosts     : list HostInfo;
  mPhase     : Phase;
  mCallbacks : list (Status * list HostInfo);
  mSends     : list (SendKind * URL)
}.

(** Modelled from the spec: what the PostMaster and the timer deliver to a
    handler.  [answer] in [EvRedirect] is the status of the terminal response
    when the redirect is not followed (the local file handler's result, or
    the redirect taken as the answer); [recoverable] in [EvError] is the
    outcome of the classification of section 4.5 (error code and
    [IsRetryable]). *)
Inductive Event :=
| EvExamineRaw
| EvWriteRaw
| EvStatusReady
| EvOkSoFar
| EvOk
| EvRedirect (target : URL) (now : Z) (answer : Status)
| EvWait (seconds now : Z)
| EvWaitDone (now : Z)
| EvWaitResp
| EvError (recoverable : bool) (st : Status) (now : Z)
| EvStreamFatal (st : Status)
| EvTimeout
| EvCancel (st : Status).

(** Modelled from the spec: the state right after a successful SendMessage. *)
Definition machine_after_send (h : XRootDMsgHandler) (hosts : list HostInfo)
  : Machine :=
  {| mHandler := h; mHosts := hosts; mPhase := InFlight; mCallbacks := [];
     mSends := [(SendInitial, pUrl h)] |}.

(** Modelled from the spec: the terminal funnel, "invoke the user
    ResponseHandler with (status, anyObject, hostList) exactly once". *)
Definition finish (st : Status) (h : XRootDMsgHandler) (m : Machine)
  : Machine :=
  {| mHandler := set_pStatus st h; mHosts := mHosts m; mPhase := Terminal;
     mCallbacks := (st, mHosts m) :: mCallbacks m; mSends := mSends m |}.

(** Modelled from the spec: the terminal status of section 4.6. *)
Definition expired : Status :=
  {| status := stError; code := errOperationExpired |}.

(** Modelled from the spec: a send to [target] of kind [k]; a resend after a
    wait goes to the URL the handler already has and does not extend the host
    list. *)
Definition send_to (k : SendKind) (target : URL) (h : XRootDMsgHandler)
    (m : Machine) : Machine :=
  match k with
  | SendAfterWait =>
      {| mHandler := h; mHosts := mHosts m; mPhase := InFlight;
         mCallbacks := mCallbacks m;
         mSends := (k, pUrl h) :: mSends m |}
  | _ =>
      {| mHandler :=
           set_pRedirectTraceBack
             (pRedirectTraceBack h
                ++ [{| from := pUrl h; to := target; rstatus := pStatus h |}])
             (set_pUrl target h);
         mHosts := mHosts m ++ [HostInfo_of target false];
         mPhase := InFlight; mCallbacks := mCallbacks m;
         mSends := (k, target) :: mSends m |}
  end.

(** Modelled from the spec: a transition that changes the state only. *)
Definition set_phase (p : Phase) (m : Machine) : Machine :=
  {| mHandler := mHandler m; mHosts := mHosts m; mPhase := p;
     mCallbacks := mCallbacks m; mSends := mSends m |}.

(** Modelled from the spec: "the redirect target has [file://] scheme". *)
Definition is_file (u : URL) : bool :=
  bool_decide (pProtocol u = "file"%string).

(** Modelled from the spec: section 4.5, "On redirect". *)
Definition on_redirect (target : URL) (now : Z) (answer : Status)
    (m : Machine) : Machine :=
  let h := mHandler m in
  if pRedirectCounter h =? 0
  then finish {| status := stError; code := errRedirectLimit |} h m
  else
    let h := set_pRedirectCounter (wrap16 (pRedirectCounter h - 1)) h in
    if is_file target && bool_decide (is_Some (pLFileHandler h))
    then finish answer h m
    else if pRedirectAsAnswer h then finish answer h m
    else if pExpiration h <? now then finish expired h m
    else
      let h := if pHasLoadBalancer h then h
               else set_pHasLoadBalancer true
                      (set_pLoadBalancer (HostInfo_of (pUrl h) true) h) in
      send_to SendRedirect target h m.

(** Modelled from the spec: section 4.5, "On wait" and the wake-up. *)
Definition on_wait (seconds now : Z) (m : Machine) : Machine :=
  let h := mHandler m in
  let clamped := Z.min seconds (pExpiration h - now) in
  if clamped <=? 0 then finish expired h m
  else
    set_phase Waiting
      {| mHandler :=
           set_pAggregatedWaitTime (pAggregatedWaitTime h + clamped) h;
         mHosts := mHosts m; mPhase := mPhase m;
         mCallbacks := mCallbacks m; mSends := mSends m |}.

(** Modelled from the spec: the wake-up of the timer, "Waiting → InFlight
    on timer", after the comparison of the clock with [pExpiration]. *)
Definition on_wait_done (now : Z) (m : Machine) : Machine :=
  match mPhase m with
  | Waiting =>
      if pExpiration (mHandler m) <? now then finish expired (mHandler m) m
      else send_to SendAfterWait (pUrl (mHandler m)) (mHandler m) m
  | _ => m
  end.

(** Modelled from the spec: section 4.5, "On error": a recoverable error is
    retried at the load balancer, anything else is terminal. *)
Definition on_error (recoverable : bool) (st : Status) (now : Z)
    (m : Machine) : Machine :=
  let h := mHandler m in
  if recoverable && pHasLoadBalancer h then
    if pExpiration h <? now then finish expired h m
    else send_to SendRetry (hi_url (pLoadBalancer h)) h m
  else finish st h m.

(** Modelled from the spec: one event delivered to the handler. *)
Definition step (m : Machine) (e : Event) : Machine :=
  match mPhase m with
  | Terminal => m
  | p =>
      match e with
      | EvExamineRaw =>
          match p with InFlight => set_phase ReadingRaw m | _ => m end
      | EvWriteRaw =>
          match p with InFlight => set_phase WritingRaw m | _ => m end
      | EvStatusReady =>
          match p with WritingRaw => set_phase InFlight m | _ => m end
      | EvOkSoFar =>
          match p with
          | InFlight | ReadingRaw => set_phase AwaitingMore m
          | _ => m
          end
      | EvOk => finish Status_default (mHandler m) m
      | EvRedirect target now answer => on_redirect target now answer m
      | EvWait seconds now => on_wait seconds now m
      | EvWaitDone now => on_wait_done now m
      | EvWaitResp => m
      | EvError recoverable st now => on_error recoverable st now m
      | EvStreamFatal st => finish st (mHandler m) m
      | EvTimeout => finish expired (mHandler m) m
      | EvCancel st => finish st (mHandler m) m
      end
  end.

(** Modelled from the spec: the events of a run, delivered one after the
    other (the calls on one handler are serialized). *)
Definition run (m : Machine) (evs : list Event) : Machine :=
  foldl step m evs.

(** Modelled from the spec: the raw readers, on completion, "mark the single
    ChunkStatus done", and a mismatching vector-read header "sets sizeError on
    that chunk"; both assign one member of one entry of [pChunkStatus]. *)
Definition mark_done (i : nat) (h : XRootDMsgHandler) : XRootDMsgHandler :=
  set_pChunkStatus
    (alter (λ s, {| sizeError := sizeError s; done := true |}) i
           (pChunkStatus h)) h.

(** Modelled from the spec: see [mark_done]. *)
Definition mark_sizeError (i : nat) (h : XRootDMsgHandler)
  : XRootDMsgHandler :=
  set_pChunkStatus
    (alter (λ s, {| sizeError := true; done := done s |}) i
           (pChunkStatus h)) h.

(** The operations on a live handler that the header defines inline, and the
    two status updates above. *)
Inductive HandlerOp :=
| DoSetExpiration (expiration : Z)
| DoSetRedirectAsAnswer (redirectAsAnswer : bool)
| DoSetLoadBalancer (lb : HostInfo)
| DoSetHostList (hostList : ptr)
| DoSetChunkList (chunkList : option (list ChunkInfo))
| DoSetRedirectCounter (redirectCounter : Z)
| DoSetFollowMetalink (followMetalink : bool)
| DoSetStateful (stateful : bool)
| DoMarkDone (i : nat)
| DoMarkSizeError (i : nat).

Definition apply_op (ops : URLOps) (h : XRootDMsgHandler) (o : HandlerOp)
  : XRootDMsgHandler :=
  match o with
  | DoSetExpiration e => SetExpiration e h
  | DoSetRedirectAsAnswer b => SetRedirectAsAnswer b h
  | DoSetLoadBalancer lb => SetLoadBalancer (IsValid ops) lb h
  | DoSetHostList l => set_pHosts l h
  | DoSetChunkList cl => SetChunkList cl h
  | DoSetRedirectCounter c => SetRedirectCounter c h
  | DoSetFollowMetalink b => SetFollowMetalink b h
  | DoSetStateful b => SetStateful b h
  | DoMarkDone i => mark_done i h
  | DoMarkSizeError i => mark_sizeError i h
  end.

(** The size of the status vector matches the chunk list. *)
Definition chunk_inv (h : XRootDMsgHandler) : Prop :=
  List.length (pChunkStatus h)
  = match pChunkList h with Some cl => List.length cl | None => O end.

(** What [MergeCGI] leaves under a key that [cgi2] maps to [v2], given what
    [cgi1] held there. *)
Definition merged_value (replace : bool) (o1 : option string) (v2 : string)
  : string :=
  if replace then v2
  else match o1 with
       | None => v2
       | Some v => if is_empty_string v then v2
                   else (v +:+ "," +:+ v2)%string
       end.


(** The lengths of the name vector and of the value vector of a request, as
    numbers: every name with 3 bytes of overhead, every value with 4. *)
Definition total_nlen (attrs : list (string * string)) : Z :=
  foldr (λ a acc, Z.of_nat (String.length (fst a)) + 3 + acc) 0 attrs.

Definition total_vlen (attrs : list (string * string)) : Z :=
  foldr (λ a acc, Z.of_nat (String.length (snd a)) + 4 + acc) 0 attrs.

Definition errInvalidArgs_status : Status :=
  {| status := stError; code := errInvalidArgs |}.

(** The limits of the protocol and a codec for the examples (the name with
    two leading and one trailing zero byte; four zero bytes and the
    value). *)
Definition protocol_limits : xfaLimits :=
  {| kXR_faMaxVars := 16; kXR_faMaxNlen := 248; kXR_faMaxVlen := 65536 |}.

Definition example_codec : FattrCodec :=
  {| NVecInsert := λ name,
       [zero_char; zero_char] ++ list_ascii_of_string name ++ [zero_char];
     VVecInsert := λ value,
       replicate 4 zero_char ++ list_ascii_of_string value |}.

(** The URLs a request was directed to, oldest first, read off the log of
    sends: the first send and every send to a new target; a resend after a
    wait goes to the URL that is already the last of the sequence. *)
Fixpoint contacted (sends : list (SendKind * URL)) : list URL :=
  match sends with
  | [] => []
  | (SendAfterWait, _) :: rest => contacted rest
  | (_, u) :: rest => contacted rest ++ [u]
  end.

(** The events that can direct the request to another URL. *)
Definition retargets (e : Event) : bool :=
  match e with
  | EvRedirect _ _ _ | EvError _ _ _ => true
  | _ => false
  end.

(** How many redirects were followed, read off the log of sends. *)
Fixpoint redirects_followed (sends : list (SendKind * URL)) : Z :=
  match sends with
  | [] => 0
  | (SendRedirect, _) :: rest => 1 + redirects_followed rest
  | _ :: rest => redirects_followed rest
  end.

(** What one event can do to the logs and the host list of a live handler:
    nothing; a resend to the same URL; a send to a new URL, which is appended
    to the host list; or the end of the request, with one invocation of the
    ResponseHandler on the host list as it is. *)
Inductive effect (m m' : Machine) : Prop :=
| eff_quiet :
    mPhase m' ≠ Terminal → mCallbacks m' = mCallbacks m →
    mHosts m' = mHosts m → mSends m' = mSends m → effect m m'
| eff_resend u :
    mPhase m' ≠ Terminal → mCallbacks m' = mCallbacks m →
    mHosts m' = mHosts m → mSends m' = (SendAfterWait, u) :: mSends m →
    effect m m'
| eff_send k u :
    k ≠ SendAfterWait →
    mPhase m' ≠ Terminal → mCallbacks m' = mCallbacks m →
    mHosts m' = mHosts m ++ [HostInfo_of u false] →
    mSends m' = (k, u) :: mSends m → effect m m'
| eff_finish st :
    mPhase m' = Terminal → mCallbacks m' = (st, mHosts m) :: mCallbacks m →
    mHosts m' = mHosts m → mSends m' = mSends m → effect m m'.

(** The two invariants of a run: the ResponseHandler was invoked exactly
    when the handler is in Terminal, once, with the host list; and the host
    list is the sequence of URLs the request was directed to. *)
Definition once (m : Machine) : Prop :=
  (mPhase m ≠ Terminal ∧ mCallbacks m = [])
  ∨ (mPhase m = Terminal ∧ ∃ st, mCallbacks m = [(st, mHosts m)]).

Definition hosts_are_contacted (m : Machine) : Prop :=
  mHosts m = map (λ u, HostInfo_of u false) (contacted (mSends m)).

(** ** SendMessage at the moment of the send, in closed form

    [SendMessage_eq] (Part II) proves that these are the handler and the
    heap the code has built when it calls [PostMaster::Send]. *)

Definition handler_at_send (env : Env) (url : URL) (msg : positive)
    (handler : ptr) (sendParams : MessageSendParams) (lFileHandler : ptr)
    (sidMgr : positive) (hasSessionId : bool) (r list : positive)
  : XRootDMsgHandler :=
  let h := XRootDMsgHandler_members msg handler url (Some sidMgr)
             lFileHandler hasSessionId r in
  let h := SetExpiration (expires sendParams) h in
  let h := SetRedirectAsAnswer (negb (followRedirects sendParams)) h in
  let h := SetChunkList (chunkList sendParams) h in
  let h := SetRedirectCounter (redirectLimit sendParams) h in
  let h := SetStateful (stateful sendParams) h in
  let h := if IsValid (urlOps env) (hi_url (sp_loadBalancer sendParams))
           then SetLoadBalancer (IsValid (urlOps env))
                                (sp_loadBalancer sendParams) h
           else h in
  set_pHosts (Some list) h.

Definition heap_at_send (env : Env) (url : URL) (msg : positive)
    (handler : ptr) (sendParams : MessageSendParams) (lFileHandler : ptr)
    (sidMgr : positive) (mgr' : SIDManager) (m1 : Message) (hp0 : Heap)
  : Heap :=
  let a := fresh (dom (msgHandlers hp0)) in
  let r := fresh (dom (handlerRefs hp0)) in
  let list := fresh (dom (hostLists hp0)) in
  {| messages := <[msg := m1]> (messages hp0);
     hostLists := <[list := [HostInfo_of url false]]> (hostLists hp0);
     handlerRefs := <[r := MsgHandlerRef.make (Some a)]> (handlerRefs hp0);
     msgHandlers :=
       <[a := handler_at_send env url msg handler sendParams lFileHandler
                sidMgr (negb (GetSessionId m1 =? 0)) r list]>
         (msgHandlers hp0);
     sidManagers := <[sidMgr := mgr']> (sidManagers hp0) |}.

(** The heap SendMessage leaves when the send failed, in closed form
    ([SendMessage_eq], Part II): the objects it created are gone, the SID it
    allocated is released, and the request is either unmarshalled or, when it
    carries no session id, deleted by the handler's destructor. *)
Definition heap_after_failed_send (env : Env) (msg sidMgr : positive)
    (mgr' : SIDManager) (m1 : Message) (hp0 : Heap) : Heap :=
  {| messages :=
       if negb (GetSessionId m1 =? 0)
       then <[msg := UnMarshallRequest env m1]> (messages hp0)
       else delete msg (messages hp0);
     hostLists := hostLists hp0;
     handlerRefs := handlerRefs hp0;
     msgHandlers := msgHandlers hp0;
     sidManagers :=
       <[sidMgr :=
           SIDManager_ReleaseSID mgr'
             (streamid (header (UnMarshallRequest env m1)))]>
         (sidManagers hp0) |}.

(** ** Example objects

    A request [kXR_open /a] to [root://origin:1094], used where a property is
    evaluated on a concrete input. *)

Definition origin : URL :=
  {| pProtocol := "root"; pHostName := "origin"; pPort := 1094;
     pPath := "/a"; pParams := ∅ |}.

Definition host2 : URL :=
  {| pProtocol := "root"; pHostName := "host2"; pPort := 1094;
     pPath := "/a"; pParams := ∅ |}.

(** The request codes of the protocol. *)
Definition protocol_ids : RequestIds :=
  {| kXR_chmod := 3002; kXR_mkdir := 3008; kXR_mv := 3009; kXR_open := 3010;
     kXR_rm := 3014; kXR_rmdir := 3015; kXR_stat := 3017;
     kXR_truncate := 3028 |}.

Definition open_request (sessionId : Z) : Message :=
  {| header := {| streamid := 0; requestid := 3010;
                  body := replicate 16 zero_char; dlen := 2 |};
     data := list_ascii_of_string "/a";
     pDescription := "kXR_open /a";
     pSessionId := sessionId |}.

Definition empty_heap : Heap :=
  {| messages := ∅; hostLists := ∅; handlerRefs := ∅; msgHandlers := ∅;
     sidManagers := ∅ |}.

(** A heap that holds one request at address 1 and one SID manager, with
    stream id 5 allocated, at address 1. *)
Definition heap_with_request (sessionId : Z) : Heap :=
  {| messages := {[ 1%positive := open_request sessionId ]};
     hostLists := ∅; handlerRefs := ∅; msgHandlers := ∅;
     sidManagers := {[ 1%positive := {| allocatedSIDs := {[ 5 ]} |} ]} |}.

(** URL operations for the examples: a URL is valid when it names a host;
    parsing and printing are not exercised. *)
Definition example_urlOps : URLOps :=
  {| URL_of_string := λ s, {| pProtocol := "fake"; pHostName := "fake";
                              pPort := 111; pPath := s; pParams := ∅ |};
     GetPathWithParams := λ u, pPath u;
     IsValid := λ u, negb (is_empty_string (pHostName u)) |}.

(** The handler the constructor builds at address 1 for the request at
    address 1, and the heap it leaves. *)
Definition example_handler (sessionId : Z) : XRootDMsgHandler :=
  XRootDMsgHandler_members 1 (Some 9%positive) origin (Some 1%positive) None
    (negb (sessionId =? 0)) 1.

Definition example_heap (sessionId : Z) : Heap :=
  set_handlerRefs {[ 1%positive := MsgHandlerRef.make (Some 1%positive) ]}
    (heap_with_request sessionId).

Definition one_chunk : list ChunkInfo :=
  [ {| chunk_offset := 0; chunk_length := 4096; chunk_buffer := Some 3%positive |} ].

(** The byte-order conversion of the examples: the two bytes of [requestid]
    and the four bytes of [dlen] are swapped. *)
Definition swap16 (z : Z) : Z := (z mod 256) * 256 + (z / 256) mod 256.

Definition swap32 (z : Z) : Z :=
  swap16 (z mod 65536) * 65536 + swap16 ((z / 65536) mod 65536).

Definition example_marshall (m : Message) : Message :=
  {| header := {| streamid := streamid (header m);
                  requestid := swap16 (requestid (header m));
                  body := body (header m);
                  dlen := swap32 (dlen (header m)) |};
     data := data m; pDescription := pDescription m;
     pSessionId := pSessionId m |}.

(** A PostMaster whose transport has its SID manager at address 1 and whose
    [Send] answers with [st]. *)
Definition example_postMaster (st : Status) : PostMaster :=
  {| QueryTransport := λ _, (Status_default, 1%positive);
     Send := λ _ _ _ _ _ _, st |}.

Definition example_env (st : Status) : Env :=
  {| GetPostMaster := Some (example_postMaster st);
     MarshallRequest := example_marshall;
     UnMarshallRequest := example_marshall;
     describe := λ hdr _, "request"%string;
     pickSID := λ s, Some (fresh s);
     urlOps := example_urlOps |}.

Definition example_params : MessageSendParams :=
  {| timeout := 0; expires := 1000; sp_loadBalancer := HostInfo_default;
     followRedirects := true; stateful := true; chunkList := None;
     redirectLimit := 3 |}.

Definition socket_error : Status :=
  {| status := stError; code := errOther 104 |}.

Definition example_world (sessionId : Z) : World :=
  {| heap := heap_with_request sessionId; calls := [] |}.

(** A [kXR_read] request: not one of the requests that carry a path. *)
Definition read_request : Message :=
  {| header := {| streamid := 1; requestid := 3013;
                  body := replicate 16 zero_char; dlen := 0 |};
     data := []; pDescription := "kXR_read"; pSessionId := 0 |}.

(** The world after the successful send of the example request: stream id
    [fresh {5}] is allocated, and handler, counted reference and host list
    are at address 1. *)
Definition example_sent_world : World :=
  let sid := fresh ({[ 5 ]} : gset Z) in
  let hp :=
    heap_at_send (example_env Status_default) origin 1 (Some 9%positive)
      example_params None 1 {| allocatedSIDs := {[ sid ]} ∪ {[ 5 ]} |}
      (example_marshall (set_streamid sid (open_request 0)))
      (heap_with_request 0) in
  {| heap := hp;
     calls := [CallSend origin 1 1 hp; CallMarshallRequest 1;
               CallAllocateSID 1 sid; CallQueryTransport origin] |}.

(** ** More of MessageUtils *)

(** *** CreateXAttrVec, the overload for a vector of names *)

(** The [size_t] accumulator of the loop over the names. *)
Definition xattr_names_length (attrs : list string) : Z :=
  foldl (λ nlen name,
           wrap64 (nlen + wrap64 (Z.of_nat (String.length name)
                                  + MessageUtils.name_overhead)))
        0 attrs.

(** The second loop: [nptr] advances through the buffer. *)
Definition xattr_names_fill (codec : FattrCodec) (attrs : list string)
    (nptr : nat) (nvec : list ascii) : list ascii :=
  snd (foldl (λ '(pos, buf) name,
                let nb := NVecInsert codec name in
                ((pos + List.length nb)%nat, write_at pos nb buf))
             (nptr, nvec) attrs).

Definition CreateXAttrVec_names (lim : xfaLimits) (codec : FattrCodec)
    (attrs : list string) (nvec : list ascii) : Status * list ascii :=
  match attrs with
  | [] => (Status_default, nvec)
  | _ =>
      if kXR_faMaxVars lim <? Z.of_nat (List.length attrs)
      then ({| status := stError; code := errInvalidArgs |}, nvec)
      else
        let nlen := xattr_names_length attrs in
        if kXR_faMaxNlen lim <? nlen
        then ({| status := stError; code := errInvalidArgs |}, nvec)
        else
          (Status_default,
           xattr_names_fill codec attrs O
             (resize (Z.to_nat nlen) zero_char nvec))
  end.

(** The total length of a name vector, as a number. *)
Definition total_names_length (attrs : list string) : Z :=
  foldr (λ a acc, Z.of_nat (String.length a) + 3 + acc) 0 attrs.

(** *** ProcessSendParams *)

(** [DefaultRequestTimeout] and [DefaultRedirectLimit] of XrdClConstants.hh. *)
Record SendDefaults := {
  DefaultRequestTimeout : Z;
  DefaultRedirectLimit  : Z
}.

(** [env->GetInt( key, value )] assigns [value] when the environment has the
    key and leaves it alone otherwise.  The environment is the parameter
    [getInt], which answers with the [int] stored under a key. *)
Definition Env_GetInt (getInt : string → option Z) (key : string) (value : Z)
  : Z :=
  match getInt key with Some v => v | None => value end.

(** [ProcessSendParams( sendParams )], at the time [now] of [::time(0)].
    The [int] read from the environment is assigned to the fields [timeout]
    and [redirectLimit], which XrdClMessageUtils.hh declares [uint16_t]. *)
Definition ProcessSendParams (defaults : SendDefaults)
    (getInt : string → option Z) (now : Z) (sendParams : MessageSendParams)
  : MessageSendParams :=
  (* timeout *)
  let timeout' :=
    if timeout sendParams =? 0
    then wrap16 (Env_GetInt getInt "RequestTimeout"
                            (DefaultRequestTimeout defaults))
    else timeout sendParams in
  let expires' :=
    if expires sendParams =? 0 then now + timeout'
    else expires sendParams in
  (* redirect limit *)
  let redirectLimit' :=
    if redirectLimit sendParams =? 0
    then wrap16 (Env_GetInt getInt "RedirectLimit"
                            (DefaultRedirectLimit defaults))
    else redirectLimit sendParams in
  {| timeout := timeout'; expires := expires';
     sp_loadBalancer := sp_loadBalancer sendParams;
     followRedirects := followRedirects sendParams;
     stateful := stateful sendParams;
     chunkList := chunkList sendParams;
     redirectLimit := redirectLimit' |}.

(** *** RedirectMessage *)

(** What [RedirectMessage] needs beyond [Env]: [RedirectorRegistry::Register]
    and [PostMaster::Redirect], which gets the message and the handler (with
    the heap, as [Send] does) and answers with a status. *)
Record Redirector := {
  Registry_Register : URL → Status;
  PostMaster_Redirect : URL → positive → positive → Heap → Status
}.

Definition set_loadBalancer (lb : HostInfo) (sp : MessageSendParams)
  : MessageSendParams :=
  {| timeout := timeout sp; expires := expires sp; sp_loadBalancer := lb;
     followRedirects := followRedirects sp; stateful := stateful sp;
     chunkList := chunkList sp; redirectLimit := redirectLimit sp |}.

(** The block "Create and set up the message handler" of [RedirectMessage]:
    no SID manager, metalinks are followed, and [url] itself is the load
    balancer and the first entry of the host list. *)
Definition RedirectMessage_setup (env : Env) (url : URL) (msg : positive)
    (handler : ptr) (sendParams : MessageSendParams) (lFileHandler : ptr)
    (hp : Heap) : option (positive * positive * Heap) :=
  '(msgHandler, hp) ←
    new_XRootDMsgHandler msg handler url None lFileHandler hp;
  let hp := call_on msgHandler (SetExpiration (expires sendParams)) hp in
  let hp :=
    call_on msgHandler
      (SetRedirectAsAnswer (negb (followRedirects sendParams))) hp in
  let hp := call_on msgHandler (SetChunkList (chunkList sendParams)) hp in
  let hp :=
    call_on msgHandler (SetRedirectCounter (redirectLimit sendParams)) hp in
  let hp := call_on msgHandler (SetFollowMetalink true) hp in
  let info := HostInfo_of url true in
  let hp :=
    call_on msgHandler (SetLoadBalancer (IsValid (urlOps env)) info) hp in
  let list := fresh (dom (hostLists hp)) in
  let hp := set_hostLists (<[list := []]> (hostLists hp)) hp in
  let hp := set_hostLists (alter (λ l, l ++ [info]) list (hostLists hp)) hp in
  let hp := SetHostList_at msgHandler (Some list) hp in
  Some (msgHandler, list, hp).

(** [RedirectMessage( url, msg, handler, sendParams, lFileHandler )]: the
    result is the status, [sendParams] (passed by reference) and the heap. *)
Definition RedirectMessage (env : Env) (rd : Redirector) (url : URL)
    (msg : positive) (handler : ptr) (sendParams : MessageSendParams)
    (lFileHandler : ptr) (hp : Heap)
  : option (Status * MessageSendParams * Heap) :=
  (* register a new virtual redirector *)
  let st := Registry_Register rd url in
  if negb (IsOK st) then Some (st, sendParams, hp)
  else
    match GetPostMaster env with
    | None =>
        Some ({| status := stError; code := errUninitialized |}, sendParams,
              hp)
    | Some _ =>
        _ ← messages hp !! msg;
        let hp :=
          set_messages (alter (MarshallRequest env) msg (messages hp)) hp in
        '(msgHandler, list, hp) ←
          RedirectMessage_setup env url msg handler sendParams lFileHandler
                                hp;
        let sendParams := set_loadBalancer (HostInfo_of url true) sendParams in
        (* redirect the message *)
        let st := PostMaster_Redirect rd url msg msgHandler hp in
        if negb (IsOK st) then
          let hp :=
            set_messages (alter (UnMarshallRequest env) msg (messages hp))
                         hp in
          let hp := delete_XRootDMsgHandler msgHandler hp in
          let hp := delete_HostList (Some list) hp in
          Some (st, sendParams, hp)
        else Some (Status_default, sendParams, hp)
    end.

(** ** RedirectEntry::ToString *)

(** [GetLocation] is URL::GetLocation, a parameter. *)
Definition RedirectEntry_ToString (GetLocation : URL → string)
    (e : RedirectEntry) (prevok : bool) : string :=
  let tostr := GetLocation (to e) in
  let fromstr := GetLocation (from e) in
  if prevok then
    if String.eqb tostr fromstr then ("Retrying: " +:+ tostr)%string
    else ("Redirected from: " +:+ fromstr +:+ " to: " +:+ tostr)%string
  else ("Failed at: " +:+ fromstr +:+ ", retrying at: " +:+ tostr)%string.

(** ** Schedules of a counted reference *)

(** How many [Self] calls a schedule holds. *)
Fixpoint selfs (ops : list MsgHandlerRef.op) : nat :=
  match ops with
  | [] => O
  | MsgHandlerRef.OpSelf :: rest => S (selfs rest)
  | _ :: rest => selfs rest
  end.

(** A schedule during which at least one and at most 65535 references are
    held at every moment: the reference the cell was born with, one more for
    every [Self], one less for every [Free].  [held] is the number held
    before the schedule starts. *)
Fixpoint stays_held (held : Z) (ops : list MsgHandlerRef.op) : Prop :=
  match ops with
  | [] => True
  | MsgHandlerRef.OpSelf :: rest =>
      held + 1 ≤ 65535 ∧ stays_held (held + 1) rest
  | MsgHandlerRef.OpFree :: rest => 1 ≤ held - 1 ∧ stays_held (held - 1) rest
  | _ :: rest => stays_held held rest
  end.

(** ** The sizes the length computation of CreateXAttrVec assumes *)

(** Every name is written as [3 + |name|] bytes and every value as
    [4 + |value|] bytes. *)
Definition sizes_as_counted (codec : FattrCodec)
    (attrs : list (string * string)) : Prop :=
  Forall (λ a,
            List.length (NVecInsert codec a.1) = (String.length a.1 + 3)%nat
            ∧ List.length (VVecInsert codec a.2)
              = (String.length a.2 + 4)%nat) attrs.

Definition names_as_counted (codec : FattrCodec) (attrs : list string)
  : Prop :=
  Forall (λ a, List.length (NVecInsert codec a) = (String.length a + 3)%nat)
         attrs.

(** ** The path RewriteCGIAndPath writes *)

(** The path with parameters that replaces the path [old] of a request: the
    C string in [old] is parsed behind a fake scheme and host, the new
    parameters are merged into its own, the path is replaced when [newPath]
    is not empty, and the result is printed. *)
Definition rewritten_path (env : Env) (old : list ascii)
    (newCgi : gmap string string) (replace : bool) (newPath : string)
  : string :=
  let u := URL_of_string (urlOps env) ("fake://fake:111/" +:+ c_str old) in
  let u := SetParams (MessageUtils.MergeCGI (GetParams u) newCgi replace) u in
  let u := if is_empty_string newPath then u else SetPath newPath u in
  GetPathWithParams (urlOps env) u.


(** A [kXR_mv] request, "source destination", for the examples. *)
Definition mv_request : Message :=
  {| header := {| streamid := 0; requestid := 3009;
                  body := replicate 16 zero_char; dlen := 5 |};
     data := list_ascii_of_string "/a /b";
     pDescription := "kXR_mv /a /b";
     pSessionId := 0 |}.

(** ** What ProcessSendParams reads from the environment *)

(** The configured request timeout and redirect limit: the value of the
    environment, or the compiled-in default when the key is not set. *)
Definition configured_timeout (defaults : SendDefaults)
    (getInt : string → option Z) : Z :=
  Env_GetInt getInt "RequestTimeout" (DefaultRequestTimeout defaults).

Definition configured_redirectLimit (defaults : SendDefaults)
    (getInt : string → option Z) : Z :=
  Env_GetInt getInt "RedirectLimit" (DefaultRedirectLimit defaults).

(** The defaults of the client and an environment for the examples. *)
Definition client_defaults : SendDefaults :=
  {| DefaultRequestTimeout := 1800; DefaultRedirectLimit := 16 |}.

Definition example_getInt (key : string) : option Z :=
  if String.eqb key "RequestTimeout" then Some 300 else None.

Definition unset_params : MessageSendParams :=
  {| timeout := 0; expires := 0; sp_loadBalancer := HostInfo_default;
     followRedirects := true; stateful := true; chunkList := None;
     redirectLimit := 0 |}.


(** ** What the destructor deletes *)

(** The messages the destructor of [h] deletes: the request unless it carries
    a session id, the response, and the partial responses. *)
Definition dtor_deletes (h : XRootDMsgHandler) : list positive :=
  (if pHasSessionId h then [] else [pRequest h])
  ++ option_list (pResponse h) ++ pPartialResps h.

(** A heap with the example handler's response and two partial responses,
    the handler's host list, and the handler itself. *)
Definition busy_handler : XRootDMsgHandler :=
  let h := example_handler 7 in
  {| pRequest := pRequest h; pResponse := Some 2%positive;
     pPartialResps := [3%positive; 5%positive];
     pResponseHandler := pResponseHandler h; pUrl := pUrl h;
     pSidMgr := pSidMgr h; pLFileHandler := pLFileHandler h;
     pStatus := pStatus h; pLastError := pLastError h;
     pExpiration := pExpiration h;
     pRedirectAsAnswer := pRedirectAsAnswer h; pHosts := Some 4%positive;
     pHasLoadBalancer := pHasLoadBalancer h;
     pLoadBalancer := pLoadBalancer h; pHasSessionId := pHasSessionId h;
     pRedirectUrl := pRedirectUrl h; pChunkList := pChunkList h;
     pChunkStatus := pChunkStatus h; pRedirectCounter := pRedirectCounter h;
     pRaw := pRaw h; pFollowMetalink := pFollowMetalink h;
     pStateful := pStateful h; pAggregatedWaitTime := pAggregatedWaitTime h;
     pRedirectTraceBack := pRedirectTraceBack h; pMsgInFly := pMsgInFly h;
     pRef := pRef h |}.

Definition busy_heap : Heap :=
  {| messages :=
       <[5%positive := open_request 0]>
         (<[3%positive := open_request 0]>
            (<[2%positive := open_request 0]>
               (<[6%positive := open_request 0]>
                  (messages (example_heap 7)))));
     hostLists := {[ 4%positive := [HostInfo_of origin false] ]};
     handlerRefs := handlerRefs (example_heap 7);
     msgHandlers := {[ 1%positive := busy_handler ]};
     sidManagers := sidManagers (example_heap 7) |}.

(** ** More environments for the examples *)

(** An environment whose SID managers have no free stream id left. *)
Definition exhausted_env : Env :=
  {| GetPostMaster := Some (example_postMaster Status_default);
     MarshallRequest := example_marshall;
     UnMarshallRequest := example_marshall;
     describe := λ hdr _, "request"%string;
     pickSID := λ _, None;
     urlOps := example_urlOps |}.

(** An environment without PostMaster. *)
Definition uninitialized_env : Env :=
  {| GetPostMaster := None;
     MarshallRequest := example_marshall;
     UnMarshallRequest := example_marshall;
     describe := λ hdr _, "request"%string;
     pickSID := λ s, Some (fresh s);
     urlOps := example_urlOps |}.

(** Send parameters with a load balancer and a chunk list. *)
Definition full_params : MessageSendParams :=
  {| timeout := 300; expires := 1300;
     sp_loadBalancer := HostInfo_of host2 true;
     followRedirects := false; stateful := true;
     chunkList := Some one_chunk; redirectLimit := 16 |}.

(** ** RedirectMessage at the moment of the redirect, in closed form *)

Definition handler_at_redirect (env : Env) (url : URL) (msg : positive)
    (handler : ptr) (sendParams : MessageSendParams) (lFileHandler : ptr)
    (hasSessionId : bool) (r list : positive) : XRootDMsgHandler :=
  let h := XRootDMsgHandler_members msg handler url None lFileHandler
             hasSessionId r in
  let h := SetExpiration (expires sendParams) h in
  let h := SetRedirectAsAnswer (negb (followRedirects sendParams)) h in
  let h := SetChunkList (chunkList sendParams) h in
  let h := SetRedirectCounter (redirectLimit sendParams) h in
  let h := SetFollowMetalink true h in
  let h := SetLoadBalancer (IsValid (urlOps env)) (HostInfo_of url true) h in
  set_pHosts (Some list) h.

Definition heap_at_redirect (env : Env) (url : URL) (msg : positive)
    (handler : ptr) (sendParams : MessageSendParams) (lFileHandler : ptr)
    (m1 : Message) (hp0 : Heap) : Heap :=
  let a := fresh (dom (msgHandlers hp0)) in
  let r := fresh (dom (handlerRefs hp0)) in
  let list := fresh (dom (hostLists hp0)) in
  {| messages := <[msg := m1]> (messages hp0);
     hostLists := <[list := [HostInfo_of url true]]> (hostLists hp0);
     handlerRefs := <[r := MsgHandlerRef.make (Some a)]> (handlerRefs hp0);
     msgHandlers :=
       <[a := handler_at_redirect env url msg handler sendParams lFileHandler
                (negb (GetSessionId m1 =? 0)) r list]> (msgHandlers hp0);
     sidManagers := sidManagers hp0 |}.

(** A redirector registry that accepts every URL, with a PostMaster whose
    [Redirect] answers with [st]. *)
Definition example_redirector (st : Status) : Redirector :=
  {| Registry_Register := λ _, Status_default;
     PostMaster_Redirect := λ _ _ _ _, st |}.

(* ===================================================================== *)
(** * Part II: properties                                                 *)
(* ===================================================================== *)

(** ** MergeCGI *)

Section MergeCGI_facts.
Import MessageUtils.

Lemma MergeCGI_step_lookup replace k v2 (cgi1 : gmap string string) j :
  MergeCGI_step replace k v2 cgi1 !! j
  = if decide (k = j) then Some (merged_value replace (cgi1 !! k) v2)
    else cgi1 !! j.
Proof.
  unfold MergeCGI_step, merged_value.
  destruct replace; simpl.
  - rewrite lookup_insert. by case_decide.
  - destruct (cgi1 !! k) as [v|] eqn:Hk; simpl.
    + destruct (is_empty_string v); rewrite lookup_insert; by case_decide.
    + rewrite lookup_insert. by case_decide.
Qed.

Lemma MergeCGI_lookup (cgi1 cgi2 : gmap string string) replace k :
  MergeCGI cgi1 cgi2 replace !! k
  = match cgi2 !! k with
    | Some v2 => Some (merged_value replace (cgi1 !! k) v2)
    | None => cgi1 !! k
    end.
Proof.
  unfold MergeCGI. revert k.
  apply (map_fold_weak_ind
           (λ r m, ∀ k, r !! k = match m !! k with
                                 | Some v2 =>
                                     Some (merged_value replace (cgi1 !! k) v2)
                                 | None => cgi1 !! k
                                 end)).
  - intros k. by rewrite lookup_empty.
  - intros i x m r Hi IH k.
    rewrite MergeCGI_step_lookup, lookup_insert.
    case_decide as Hik.
    + subst k. specialize (IH i). rewrite Hi in IH. by rewrite IH.
    + apply IH.
Qed.

Lemma string_app_assoc (a b c : string) :
  ((a +:+ b) +:+ c)%string = (a +:+ (b +:+ c))%string.
Proof.
  induction a as [|x a IH]; [done|].
  change (String x ((a +:+ b) +:+ c) = String x (a +:+ b +:+ c))%string.
  by rewrite IH.
Qed.

Lemma string_app_nonempty (a b : string) :
  a ≠ ""%string → is_empty_string (a +:+ b) = false.
Proof. by destruct a. Qed.

(** Reads and writes of map objects in the store. *)
Lemma alter_lookup_insert {A} (f : A → A) (m : gmap positive A) i x :
  m !! i = Some x → alter f i m = <[i := f x]> m.
Proof.
  intros Hi. apply map_eq. intros j. destruct (decide (j = i)) as [->|Hne].
  - by rewrite lookup_alter_eq, lookup_insert_eq, Hi.
  - by rewrite lookup_alter_ne, lookup_insert_ne.
Qed.

Lemma ParamsMap_assign_eq p k v st c :
  st !! p = Some c → ParamsMap_assign p k v st = <[p := <[k := v]> c]> st.
Proof. apply alter_lookup_insert. Qed.

Lemma ParamsMap_find_eq st p c k :
  st !! p = Some c → ParamsMap_find st p k = c !! k.
Proof. unfold ParamsMap_find. by intros ->. Qed.

(** On two different objects the body of the loop is [MergeCGI_step] on the
    content of [cgi1]. *)
Lemma MergeCGI_body_distinct p1 p2 replace k x st c cgi2 :
  p1 ≠ p2 → st !! p1 = Some c → st !! p2 = Some cgi2 → cgi2 !! k = Some x →
  MergeCGI_body p1 p2 replace k st = <[p1 := MergeCGI_step replace k x c]> st.
Proof.
  intros Hne H1 H2 Hk. unfold MergeCGI_body, MergeCGI_step.
  rewrite (ParamsMap_find_eq st p2 cgi2), Hk by done.
  rewrite (ParamsMap_find_eq st p1 c) by done.
  destruct (c !! k) as [v|] eqn:Hv.
  - destruct replace; cbn [orb].
    + by apply ParamsMap_assign_eq.
    + rewrite bool_decide_eq_false_2 by done.
      destruct (is_empty_string v); [by apply ParamsMap_assign_eq|].
      rewrite (ParamsMap_assign_eq p1 k _ st c) by done.
      rewrite (ParamsMap_find_eq _ p1 (<[k := (v +:+ ",")%string]> c))
        by apply lookup_insert_eq.
      rewrite lookup_insert_eq.
      rewrite (ParamsMap_find_eq _ p2 cgi2), Hk
        by (by rewrite lookup_insert_ne).
      rewrite (ParamsMap_assign_eq p1 k _ _ (<[k := (v +:+ ",")%string]> c))
        by apply lookup_insert_eq.
      by rewrite !insert_insert_eq, string_app_assoc.
  - rewrite bool_decide_eq_true_2 by done. rewrite orb_true_r.
    by apply ParamsMap_assign_eq.
Qed.

(** On two different objects [MergeCGI_at] leaves [MergeCGI cgi1 cgi2] in
    [cgi1] and changes nothing else. *)
Lemma MergeCGI_at_distinct st p1 p2 cgi1 cgi2 replace :
  p1 ≠ p2 → st !! p1 = Some cgi1 → st !! p2 = Some cgi2 →
  MergeCGI_at p1 p2 replace st = <[p1 := MergeCGI cgi1 cgi2 replace]> st.
Proof.
  intros Hne H1 H2. unfold MergeCGI_at. rewrite H2.
  assert (∀ m, m ⊆ cgi2 →
            ∃ c, map_fold (λ k _ acc, MergeCGI_body p1 p2 replace k acc) st m
                 = <[p1 := c]> st
                 ∧ ∀ k, c !! k
                        = match m !! k with
                          | Some v2 =>
                              Some (merged_value replace (cgi1 !! k) v2)
                          | None => cgi1 !! k
                          end) as Hfold.
  { intros m.
    apply (map_fold_weak_ind
             (λ r m, m ⊆ cgi2 →
                     ∃ c, r = <[p1 := c]> st
                          ∧ ∀ k, c !! k
                                 = match m !! k with
                                   | Some v2 =>
                                       Some (merged_value replace
                                               (cgi1 !! k) v2)
                                   | None => cgi1 !! k
                                   end)).
    - intros _. exists cgi1. split; [by rewrite insert_id|].
      intros k. by rewrite lookup_empty.
    - intros i x m' r Hi IH Hsub.
      assert (m' ⊆ cgi2) as Hsub'.
      { etrans; [|exact Hsub]. by apply insert_subseteq. }
      assert (cgi2 !! i = Some x) as Hx.
      { eapply lookup_weaken; [|exact Hsub]. apply lookup_insert_eq. }
      destruct (IH Hsub') as (c & -> & Hc).
      rewrite (MergeCGI_body_distinct p1 p2 replace i x _ c cgi2);
        [|done|apply lookup_insert_eq|by rewrite lookup_insert_ne|done].
      eexists. split; [by rewrite insert_insert_eq|].
      intros k. rewrite MergeCGI_step_lookup, lookup_insert.
      case_decide as Hik; [|apply Hc].
      subst k. by rewrite Hc, Hi. }
  destruct (Hfold cgi2) as (c & -> & Hc); [done|].
  f_equal. apply map_eq. intros k. by rewrite Hc, MergeCGI_lookup.
Qed.



End MergeCGI_facts.




(** The failed-host list of the redirect controller: merging [tried=b] into
    [tried=a] without replacement gives [tried=a,b]; with replacement,
    [tried=b]. *)
Example MergeCGI_tried :
  MessageUtils.MergeCGI {[ "tried" := "a" ]} {[ "tried" := "b" ]} false
    !! "tried" = Some "a,b"
  ∧ MessageUtils.MergeCGI {[ "tried" := "a" ]} {[ "tried" := "b" ]} true
      !! "tried" = Some "b"
  ∧ MessageUtils.MergeCGI {[ "tried" := "" ]} {[ "tried" := "b" ]} false
      !! "tried" = Some "b"
  ∧ MessageUtils.MergeCGI {[ "x" := "1" ]} {[ "tried" := "b" ]} false
    = {[ "x" := "1"; "tried" := "b" ]}.
Proof. repeat split; vm_compute; reflexivity. Qed.

(** ** MsgHandlerRef *)

Section MsgHandlerRef_facts.
Import MsgHandlerRef.

Lemma wrap16_small z : 0 ≤ z < 65536 → wrap16 z = z.
Proof. intros H. unfold wrap16. by apply Z.mod_small. Qed.

Lemma Self_count c :
  0 ≤ count c < 65535 → count (Self c) = count c + 1.
Proof. intros H. simpl. apply wrap16_small. lia. Qed.

Lemma Free_spec c :
  1 ≤ count c ≤ 65535 →
  (count c = 1 ∧ Free c = None)
  ∨ (1 < count c
     ∧ Free c = Some {| ref := ref c; count := count c - 1 |}).
Proof.
  intros H. unfold Free. cbn [count ref].
  rewrite wrap16_small by lia.
  destruct (Z.eqb_spec (count c - 1) 0); [left|right]; split; auto; lia.
Qed.

(** [n - 1] calls of [Self] on a new cell: [n] references are held. *)
Lemma run_Self handler (k : nat) :
  Z.of_nat k < 65535 →
  run (born handler) (replicate k OpSelf)
  = {| cellst := Live {| ref := handler; count := Z.of_nat k + 1 |};
       deletes := 0; observed := []; faults := 0 |}.
Proof.
  unfold run. induction k as [|k IH]; intros Hk; [done|].
  replace (S k) with (k + 1)%nat by lia.
  rewrite replicate_add, fold_left_app, IH by lia.
  cbn [replicate fold_left step cellst deletes observed faults].
  unfold Self. cbn [ref count]. rewrite wrap16_small by lia.
  do 3 f_equal. lia.
Qed.

(** While fewer references were freed than are held, the cell stays
    allocated and nothing but a null pointer is read through it. *)
Lemma run_holders ops : ∀ c d obs f,
  ref c = None →
  Forall (λ o, o = OpFree ∨ o = OpArrow) ops →
  Z.of_nat (frees ops) < count c ≤ 65535 →
  Forall (λ p, p = None) obs →
  ∃ obs',
    run {| cellst := Live c; deletes := d; observed := obs; faults := f |} ops
    = {| cellst := Live {| ref := None;
                           count := count c - Z.of_nat (frees ops) |};
         deletes := d; observed := obs'; faults := f |}
    ∧ Forall (λ p, p = None) obs'.
Proof.
  induction ops as [|o ops IH]; intros c d obs f Hc Hall Hn Hobs.
  - exists obs. split; [|done]. unfold run. destruct c as [r n].
    cbn in *. subst r. by rewrite Z.sub_0_r.
  - inversion Hall as [|? ? Ho Hall']; subst.
    destruct Ho as [-> | ->].
    + cbn [frees] in Hn.
      destruct (Free_spec c) as [[H1 _]|[H1 HF]]; [lia| lia |].
      unfold run. cbn [fold_left step cellst]. rewrite HF.
      cbn [deletes observed faults].
      destruct (IH {| ref := ref c; count := count c - 1 |} d obs f)
        as (obs' & Hrun & Hobs'); cbn [ref count]; auto; [lia|].
      exists obs'. split; [|done]. unfold run in Hrun. rewrite Hrun.
      cbn [frees ref count]. f_equal. f_equal. f_equal. lia.
    + cbn [frees] in Hn |- *.
      unfold run. cbn [fold_left step cellst deletes observed faults].
      destruct (IH c d (arrow c :: obs) f Hc Hall' Hn)
        as (obs' & Hrun & Hobs').
      { constructor; [exact Hc | done]. }
      exists obs'. split; [exact Hrun | done].
Qed.

End MsgHandlerRef_facts.

(** C6 (as amended).  A cell is constructed with count 1.  [Self] keeps the
    pointer and adds one to the count modulo 2^16, which is one more whenever
    the count is below 65535.  [Invalidate] nulls the pointer, keeps the
    count and leaves the cell allocated.  [Free] on a count between 1 and
    65535 takes one off and deletes the cell exactly when the count was 1.
    Hence, for [n] holders with 1 <= n <= 65535: after the handler's
    [Invalidate], in every schedule in which each holder calls [Free] once,
    the cell is deleted exactly once, by the last [Free], no call reaches a
    deleted cell, and every pointer read through the cell is null. *)
Theorem MsgHandlerRef_correct :
  (∀ handler, MsgHandlerRef.ref (MsgHandlerRef.make handler) = handler
              ∧ MsgHandlerRef.count (MsgHandlerRef.make handler) = 1)
  ∧ (∀ c, MsgHandlerRef.ref (MsgHandlerRef.Self c) = MsgHandlerRef.ref c
          ∧ MsgHandlerRef.count (MsgHandlerRef.Self c)
            = (MsgHandlerRef.count c + 1) mod 65536
          ∧ (0 ≤ MsgHandlerRef.count c < 65535 →
             MsgHandlerRef.count (MsgHandlerRef.Self c)
             = MsgHandlerRef.count c + 1))
  ∧ (∀ c d obs f,
       MsgHandlerRef.step
         {| MsgHandlerRef.cellst := MsgHandlerRef.Live c;
            MsgHandlerRef.deletes := d; MsgHandlerRef.observed := obs;
            MsgHandlerRef.faults := f |} MsgHandlerRef.OpInvalidate
       = {| MsgHandlerRef.cellst :=
              MsgHandlerRef.Live
                {| MsgHandlerRef.ref := None;
                   MsgHandlerRef.count := MsgHandlerRef.count c |};
            MsgHandlerRef.deletes := d; MsgHandlerRef.observed := obs;
            MsgHandlerRef.faults := f |})
  ∧ (∀ c, 1 ≤ MsgHandlerRef.count c ≤ 65535 →
       (MsgHandlerRef.Free c = None ↔ MsgHandlerRef.count c = 1)
       ∧ (∀ c', MsgHandlerRef.Free c = Some c' →
            MsgHandlerRef.count c' = MsgHandlerRef.count c - 1
            ∧ MsgHandlerRef.ref c' = MsgHandlerRef.ref c))
  ∧ (∀ handler (n : nat) ops,
       1 ≤ Z.of_nat n ≤ 65535 →
       MsgHandlerRef.holders_schedule n ops →
       let l := MsgHandlerRef.run (MsgHandlerRef.born handler)
                  (replicate (n - 1) MsgHandlerRef.OpSelf
                   ++ [MsgHandlerRef.OpInvalidate] ++ ops) in
       MsgHandlerRef.cellst l = MsgHandlerRef.Freed
       ∧ MsgHandlerRef.deletes l = 1%nat
       ∧ MsgHandlerRef.faults l = 0%nat
       ∧ Forall (λ p, p = None) (MsgHandlerRef.observed l)).
Proof.
  split; [done|]. split.
  { intros c. split; [done|]. split; [done|]. apply Self_count. }
  split; [done|]. split.
  { intros c Hc. destruct (Free_spec c Hc) as [[H1 HF]|[H1 HF]]; rewrite HF.
    - split; [done|]. intros c' [=].
    - split; [split; [done|lia]|]. by intros c' [= <-]. }
  intros handler n ops Hn (Hall & Hfrees & before & ->) l. subst l.
  unfold MsgHandlerRef.run in *.
  rewrite fold_left_app.
  pose proof (run_Self handler (n - 1)) as HS. unfold MsgHandlerRef.run in HS.
  rewrite HS by lia. clear HS.
  rewrite fold_left_app. cbn [fold_left MsgHandlerRef.step MsgHandlerRef.cellst
    MsgHandlerRef.deletes MsgHandlerRef.observed MsgHandlerRef.faults].
  rewrite fold_left_app.
  apply Forall_app in Hall as [Hall _].
  assert (MsgHandlerRef.frees before = (n - 1)%nat) as Hb.
  { clear -Hfrees. revert n Hfrees.
    assert (∀ l, MsgHandlerRef.frees (l ++ [MsgHandlerRef.OpFree])
                 = S (MsgHandlerRef.frees l)) as E.
    { induction l as [|[] l IH]; simpl; auto. }
    intros n. rewrite E. lia. }
  destruct (run_holders before
              (MsgHandlerRef.Invalidate
                 {| MsgHandlerRef.ref := handler;
                    MsgHandlerRef.count := Z.of_nat (n - 1) + 1 |})
              0%nat [] 0%nat) as (obs' & Hrun & Hobs'); auto.
  { cbn. lia. }
  unfold MsgHandlerRef.run in Hrun. rewrite Hrun. clear Hrun.
  cbn [fold_left MsgHandlerRef.step MsgHandlerRef.cellst].
  destruct (Free_spec {| MsgHandlerRef.ref := None;
      MsgHandlerRef.count :=
        MsgHandlerRef.count
          (MsgHandlerRef.Invalidate
             {| MsgHandlerRef.ref := handler;
                MsgHandlerRef.count := Z.of_nat (n - 1) + 1 |})
        - Z.of_nat (MsgHandlerRef.frees before) |}) as [[_ HF]|[H1 _]].
  - cbn. lia.
  - rewrite HF. by cbn.
  - cbn in H1. lia.
Qed.

(** Three holders (the handler and two wait tasks), one of which looks
    through the cell after the handler invalidated it. *)
Lemma MsgHandlerRef_correct_witness :
  let l := MsgHandlerRef.run (MsgHandlerRef.born (Some 7%positive))
             (replicate 2 MsgHandlerRef.OpSelf
              ++ [MsgHandlerRef.OpInvalidate]
              ++ [MsgHandlerRef.OpFree; MsgHandlerRef.OpArrow;
                  MsgHandlerRef.OpFree; MsgHandlerRef.OpFree]) in
  MsgHandlerRef.cellst l = MsgHandlerRef.Freed
  ∧ MsgHandlerRef.deletes l = 1%nat
  ∧ MsgHandlerRef.faults l = 0%nat
  ∧ Forall (λ p, p = None) (MsgHandlerRef.observed l).
Proof.
  apply (proj2 (proj2 (proj2 (proj2 MsgHandlerRef_correct)))
           (Some 7%positive) 3%nat).
  - lia.
  - split; [|split].
    + repeat (constructor; [by (left + right)|]). constructor.
    + reflexivity.
    + by exists [MsgHandlerRef.OpFree; MsgHandlerRef.OpArrow;
                 MsgHandlerRef.OpFree].
Defined.

(** C6 fails as stated at the top of the counter's range.  [Self] on a count
    of 65535 leaves 0, not 65536; and with 65537 holders (the handler and
    65536 wait tasks) the count is back at 1, so the first [Free] deletes the
    cell while 65536 holders still have it: their calls reach a deleted
    cell. *)
Lemma MsgHandlerRef_counterexample :
  MsgHandlerRef.count
    (MsgHandlerRef.Self
       {| MsgHandlerRef.ref := Some 7%positive;
          MsgHandlerRef.count := 65535 |})
  ≠ 65535 + 1
  ∧ (let held :=
       MsgHandlerRef.step
         (MsgHandlerRef.times 65536 MsgHandlerRef.OpSelf
            (MsgHandlerRef.born (Some 7%positive)))
         MsgHandlerRef.OpInvalidate in
     MsgHandlerRef.cellst (MsgHandlerRef.step held MsgHandlerRef.OpFree)
     = MsgHandlerRef.Freed
     ∧ N.of_nat
         (MsgHandlerRef.faults
            (MsgHandlerRef.times 65537 MsgHandlerRef.OpFree held))
       = 65536%N).
Proof.
  split; [vm_compute; discriminate|]. split; vm_compute; reflexivity.
Qed.

(** ** SetChunkList and the chunk status vector *)

Lemma resize_lookup_default {A} (n : nat) (x : A) (l : list A) (i : nat) :
  (i < n)%nat → resize n x l !! i = Some (default x (l !! i)).
Proof.
  intros Hi. destruct (decide (i < List.length l)%nat) as [Hl|Hl].
  - rewrite lookup_resize by done.
    destruct (lookup_lt_is_Some_2 l i Hl) as [y Hy]. by rewrite Hy.
  - rewrite lookup_resize_new by lia.
    by rewrite (lookup_ge_None_2 l i) by lia.
Qed.

Lemma resize_all_default {A} (n : nat) (x : A) (l : list A) :
  Forall (λ y, x = y) l → resize n x l = replicate n x.
Proof.
  intros Hl. symmetry. apply replicate_as_Forall. split.
  - apply length_resize.
  - rewrite resize_spec. apply Forall_app. split.
    + by apply Forall_take.
    + apply Forall_replicate_eq.
Qed.

Lemma apply_op_chunk_inv ops h o : chunk_inv h → chunk_inv (apply_op ops h o).
Proof.
  unfold chunk_inv. intros Hinv.
  destruct o as [e|b|lb|l|cl|c|b|b|i|i]; cbn; try exact Hinv.
  - unfold SetLoadBalancer. by destruct (negb _).
  - destruct cl as [cl|]; cbn; [apply length_resize | done].
  - by rewrite length_alter.
  - by rewrite length_alter.
Qed.

(** C8 (as amended).  After [SetChunkList] with a chunk list of [n] chunks
    the status vector has exactly [n] entries: the entries below the old size
    keep their value, those from the old size on are [sizeError = false],
    [done = false]; so when all old entries are in that state (in particular
    on a handler fresh from the constructor, as in SendMessage) all [n]
    entries are.  After [SetChunkList] with a null list the vector is empty.
    The equality of the two sizes is kept by every inline operation of the
    header and by the in-place status updates of the raw readers. *)
Theorem SetChunkList_status (ops : URLOps) (h : XRootDMsgHandler) :
  (∀ cl,
     pChunkList (SetChunkList (Some cl) h) = Some cl
     ∧ List.length (pChunkStatus (SetChunkList (Some cl) h)) = List.length cl
     ∧ (∀ i, (i < List.length cl)%nat →
          pChunkStatus (SetChunkList (Some cl) h) !! i
          = Some (default ChunkStatus_default (pChunkStatus h !! i)))
     ∧ (Forall (λ s, ChunkStatus_default = s) (pChunkStatus h) →
        pChunkStatus (SetChunkList (Some cl) h)
        = replicate (List.length cl) ChunkStatus_default))
  ∧ (pChunkList (SetChunkList None h) = None
     ∧ pChunkStatus (SetChunkList None h) = [])
  ∧ (∀ cl, chunk_inv (SetChunkList cl h))
  ∧ (∀ os, chunk_inv h → chunk_inv (foldl (apply_op ops) h os))
  ∧ (∀ this msg respHandler url sidMgr lFileHandler hp h0 hp' cl,
       XRootDMsgHandler_ctor this msg respHandler url sidMgr lFileHandler hp
       = Some (h0, hp') →
       chunk_inv h0
       ∧ pChunkStatus (SetChunkList (Some cl) h0)
         = replicate (List.length cl) ChunkStatus_default).
Proof.
  split; [|split; [|split; [|split]]].
  - intros cl. cbn. split; [done|]. split; [apply length_resize|]. split.
    + intros i Hi. by apply resize_lookup_default.
    + apply resize_all_default.
  - done.
  - intros [cl|]; unfold chunk_inv; cbn; [apply length_resize | done].
  - intros os. revert h. induction os as [|o os IH]; intros h0 Hinv; [done|].
    cbn. apply IH. by apply apply_op_chunk_inv.
  - intros this msg respHandler url sidMgr lFileHandler hp h0 hp' cl Hctor.
    unfold XRootDMsgHandler_ctor in Hctor.
    destruct (messages hp !! msg); [|done]. cbn in Hctor.
    injection Hctor as <- _. split; [done|]. cbn. apply resize_nil.
Qed.

(** The status vector of a handler fresh from the constructor, after
    [SetChunkList] with one chunk. *)
Lemma SetChunkList_status_witness :
  pChunkStatus (SetChunkList (Some one_chunk) (example_handler 0))
  = [ChunkStatus_default].
Proof.
  apply (proj2 (proj2 (proj2 (proj2
           (SetChunkList_status example_urlOps (example_handler 0)))))
           1%positive 1%positive (Some 9%positive) origin (Some 1%positive)
           None (heap_with_request 0) (example_handler 0) (example_heap 0)
           one_chunk).
  vm_compute. reflexivity.
Defined.

(** C8 fails as stated on a handler whose status vector is not empty: after
    a completed read the single entry is [done]; a second [SetChunkList] with
    a list of one chunk keeps it, instead of initialising it. *)
Lemma SetChunkList_counterexample :
  let h := mark_done 0 (SetChunkList (Some one_chunk) (example_handler 0)) in
  pChunkStatus (SetChunkList (Some one_chunk) h)
  = [ {| sizeError := false; done := true |} ]
  ∧ pChunkStatus (SetChunkList (Some one_chunk) h)
    ≠ replicate (List.length one_chunk) ChunkStatus_default.
Proof. split; [reflexivity | discriminate]. Qed.

(** ** CreateXAttrVec *)

Section CreateXAttrVec_facts.
Import MessageUtils.

Lemma total_nlen_cons a attrs :
  total_nlen (a :: attrs)
  = Z.of_nat (String.length (fst a)) + 3 + total_nlen attrs.
Proof. reflexivity. Qed.

Lemma total_vlen_cons a attrs :
  total_vlen (a :: attrs)
  = Z.of_nat (String.length (snd a)) + 4 + total_vlen attrs.
Proof. reflexivity. Qed.

Lemma total_nlen_nonneg attrs : 0 ≤ total_nlen attrs.
Proof.
  induction attrs as [|a attrs IH]; [done|]. rewrite total_nlen_cons. lia.
Qed.

Lemma total_vlen_nonneg attrs : 0 ≤ total_vlen attrs.
Proof.
  induction attrs as [|a attrs IH]; [done|]. rewrite total_vlen_cons. lia.
Qed.

Lemma wrap64_small z : 0 ≤ z < 18446744073709551616 → wrap64 z = z.
Proof. intros H. unfold wrap64. by apply Z.mod_small. Qed.

(** Without overflow of [size_t] the two accumulators hold the sums. *)
Lemma xattr_lengths_acc attrs : ∀ n v,
  0 ≤ n → 0 ≤ v →
  n + total_nlen attrs < 18446744073709551616 →
  v + total_vlen attrs < 18446744073709551616 →
  foldl (λ '(nlen, vlen) '(name, value),
           (wrap64 (nlen + wrap64 (Z.of_nat (String.length name)
                                   + name_overhead)),
            wrap64 (vlen + wrap64 (Z.of_nat (String.length value)
                                   + value_overhead))))
        (n, v) attrs
  = (n + total_nlen attrs, v + total_vlen attrs).
Proof.
  induction attrs as [|[name value] attrs IH]; intros n v Hn Hv Hnt Hvt.
  - cbn. f_equal; lia.
  - cbn [foldl]. rewrite total_nlen_cons, total_vlen_cons in *.
    cbn [fst snd] in *.
    pose proof (total_nlen_nonneg attrs). pose proof (total_vlen_nonneg attrs).
    unfold name_overhead, value_overhead.
    rewrite (wrap64_small (Z.of_nat (String.length name) + 3)) by lia.
    rewrite (wrap64_small (Z.of_nat (String.length value) + 4)) by lia.
    rewrite !wrap64_small by lia.
    rewrite IH by lia. f_equal; lia.
Qed.

Lemma xattr_lengths_total attrs :
  total_nlen attrs + total_vlen attrs < 18446744073709551616 →
  xattr_lengths attrs = (total_nlen attrs, total_vlen attrs).
Proof.
  intros H. pose proof (total_nlen_nonneg attrs).
  pose proof (total_vlen_nonneg attrs).
  unfold xattr_lengths. by rewrite xattr_lengths_acc by lia.
Qed.

Lemma length_write_at off bs buf :
  List.length (write_at off bs buf) = List.length buf.
Proof.
  unfold write_at. rewrite !length_app, !length_take, length_drop. lia.
Qed.

Lemma length_xattr_fill codec attrs : ∀ nvec vvec avec,
  List.length (xattr_fill codec attrs nvec vvec avec) = List.length avec.
Proof.
  unfold xattr_fill.
  induction attrs as [|[name value] attrs IH]; intros nvec vvec avec; [done|].
  cbn [foldl fst snd]. rewrite IH. by rewrite !length_write_at.
Qed.

Lemma CreateXAttrVec_nonempty lim codec attrs avec :
  attrs ≠ [] →
  CreateXAttrVec lim codec attrs avec
  = if kXR_faMaxVars lim <? Z.of_nat (List.length attrs)
    then (errInvalidArgs_status, avec)
    else
      if kXR_faMaxNlen lim <? fst (xattr_lengths attrs)
      then (errInvalidArgs_status, avec)
      else if kXR_faMaxVlen lim <? snd (xattr_lengths attrs)
      then (errInvalidArgs_status, avec)
      else
        (Status_default,
         xattr_fill codec attrs O (Z.to_nat (fst (xattr_lengths attrs)))
           (resize (Z.to_nat (wrap64 (fst (xattr_lengths attrs)
                                      + snd (xattr_lengths attrs))))
                   zero_char avec)).
Proof.
  intros Hne. destruct attrs as [|a attrs]; [done|].
  unfold CreateXAttrVec. by destruct (xattr_lengths (a :: attrs)).
Qed.

End CreateXAttrVec_facts.

(** C9.  For limits that are not negative and attribute vectors that fit in
    the address space: an empty input returns OK and leaves the output vector
    as it was; the call returns errInvalidArgs exactly when the number of
    attributes exceeds kXR_faMaxVars, or the total name length (3 bytes of
    overhead per name) exceeds kXR_faMaxNlen, or the total value length (4
    bytes of overhead per value) exceeds kXR_faMaxVlen, and then the output
    is untouched as well; otherwise it returns OK, and for a non-empty input
    the output vector has exactly name length plus value length bytes. *)
Theorem CreateXAttrVec_correct (lim : xfaLimits) (codec : FattrCodec)
    (attrs : list (string * string)) (avec : list ascii) :
  0 ≤ kXR_faMaxVars lim → 0 ≤ kXR_faMaxNlen lim → 0 ≤ kXR_faMaxVlen lim →
  total_nlen attrs + total_vlen attrs < 18446744073709551616 →
  let st := fst (MessageUtils.CreateXAttrVec lim codec attrs avec) in
  let avec' := snd (MessageUtils.CreateXAttrVec lim codec attrs avec) in
  (attrs = [] → st = Status_default ∧ avec' = avec)
  ∧ (st = errInvalidArgs_status
     ↔ kXR_faMaxVars lim < Z.of_nat (List.length attrs)
       ∨ kXR_faMaxNlen lim < total_nlen attrs
       ∨ kXR_faMaxVlen lim < total_vlen attrs)
  ∧ (st = errInvalidArgs_status → avec' = avec)
  ∧ (st ≠ errInvalidArgs_status →
     st = Status_default
     ∧ (attrs ≠ [] →
        Z.of_nat (List.length avec') = total_nlen attrs + total_vlen attrs)).
Proof.
  intros Hvars Hn Hv Hfit st avec'. subst st avec'.
  destruct attrs as [|a attrs].
  - cbn. split; [done|]. split; [|split; done].
    split; [discriminate|]. intros [?|[?|?]]; lia.
  - assert (a :: attrs ≠ []) as Hne by done.
    remember (a :: attrs) as l eqn:Hl. clear Hl.
    pose proof (total_nlen_nonneg l). pose proof (total_vlen_nonneg l).
    rewrite CreateXAttrVec_nonempty, xattr_lengths_total by done.
    cbn [fst snd].
    destruct (Z.ltb_spec (kXR_faMaxVars lim) (Z.of_nat (List.length l)));
      [cbn; split; [done|]; split; [split; auto|]; split; done|].
    destruct (Z.ltb_spec (kXR_faMaxNlen lim) (total_nlen l));
      [cbn; split; [done|]; split; [split; auto|]; split; done|].
    destruct (Z.ltb_spec (kXR_faMaxVlen lim) (total_vlen l));
      [cbn; split; [done|]; split; [split; auto|]; split; done|].
    cbn [fst snd]. split; [done|]. split; [|split].
    + split; [discriminate|]. intros [?|[?|?]]; lia.
    + discriminate.
    + intros _. split; [done|]. intros _.
      rewrite length_xattr_fill, length_resize, wrap64_small by lia. lia.
Qed.

(** Two attributes within the limits: OK and a vector of 33 bytes, whatever
    the vector held before. *)
Lemma CreateXAttrVec_correct_witness :
  let attrs := [("user.a", "one"); ("user.bc", "two")]%string in
  let r := MessageUtils.CreateXAttrVec protocol_limits example_codec attrs
             [zero_char] in
  fst r = Status_default ∧ Z.of_nat (List.length (snd r)) = 33.
Proof.
  pose proof (CreateXAttrVec_correct protocol_limits example_codec
                [("user.a", "one"); ("user.bc", "two")]%string [zero_char])
    as H.
  cbn zeta in H.
  destruct H as (_ & _ & _ & H); [cbn; lia ..| |].
  - reflexivity.
  - intros attrs r. subst attrs r. destruct H as [H1 H2]; [discriminate|].
    split; [exact H1|]. rewrite H2 by discriminate. reflexivity.
Defined.

(** ** RewriteCGIAndPath *)

(** C10.  For a message whose request id is none of kXR_chmod, kXR_mkdir,
    kXR_mv, kXR_open, kXR_rm, kXR_rmdir, kXR_stat and kXR_truncate,
    [RewriteCGIAndPath] leaves the header (stream id, request id, body and
    dlen) and the bytes after it as they were, whatever [newCgi], [replace]
    and [newPath] are. *)
Theorem RewriteCGIAndPath_frame (env : Env) (ids : RequestIds) (msg : Message)
    (newCgi : gmap string string) (replace : bool) (newPath : string) :
  requestid (header msg) ≠ kXR_chmod ids →
  requestid (header msg) ≠ kXR_mkdir ids →
  requestid (header msg) ≠ kXR_mv ids →
  requestid (header msg) ≠ kXR_open ids →
  requestid (header msg) ≠ kXR_rm ids →
  requestid (header msg) ≠ kXR_rmdir ids →
  requestid (header msg) ≠ kXR_stat ids →
  requestid (header msg) ≠ kXR_truncate ids →
  header (MessageUtils.RewriteCGIAndPath env ids msg newCgi replace newPath)
  = header msg
  ∧ data (MessageUtils.RewriteCGIAndPath env ids msg newCgi replace newPath)
    = data msg
  ∧ pSessionId
      (MessageUtils.RewriteCGIAndPath env ids msg newCgi replace newPath)
    = pSessionId msg.
Proof.
  intros H1 H2 H3 H4 H5 H6 H7 H8.
  unfold MessageUtils.RewriteCGIAndPath.
  assert (MessageUtils.rewrites_path ids (requestid (header msg)) = false)
    as ->; [|done].
  unfold MessageUtils.rewrites_path.
  repeat match goal with
         | |- context [?a =? ?b] =>
             destruct (Z.eqb_spec a b); [congruence|]
         end.
  reflexivity.
Qed.

(** A [kXR_read] request keeps header and data under a rewrite that would
    append [tried=origin] and replace the path. *)
Lemma RewriteCGIAndPath_frame_witness :
  let msg' := MessageUtils.RewriteCGIAndPath (example_env Status_default)
                protocol_ids read_request {[ "tried" := "origin" ]}%string
                true "/b"%string in
  header msg' = header read_request
  ∧ data msg' = data read_request
  ∧ pSessionId msg' = pSessionId read_request.
Proof.
  apply (RewriteCGIAndPath_frame (example_env Status_default) protocol_ids
           read_request); cbn; lia.
Defined.

(** The same rewrite on [kXR_open /a] does change the request: the model of
    the path-carrying branch is exercised. *)
Example RewriteCGIAndPath_open :
  let msg' := MessageUtils.RewriteCGIAndPath (example_env Status_default)
                protocol_ids (open_request 0) ∅ true "/bcd"%string in
  dlen (header msg') = 4 ∧ data msg' = list_ascii_of_string "/bcd".
Proof. vm_compute. split; reflexivity. Qed.

(** ** SendMessage *)

Section SendMessage_facts.
Import MessageUtils.

Lemma fresh_lookup_None {A} (m : gmap positive A) : m !! fresh (dom m) = None.
Proof. apply not_elem_of_dom, is_fresh. Qed.

(** The heap operations on a heap given by its five maps. *)
Lemma call_on_insert p f h M L R H S :
  call_on p f {| messages := M; hostLists := L; handlerRefs := R;
                 msgHandlers := <[p := h]> H; sidManagers := S |}
  = {| messages := M; hostLists := L; handlerRefs := R;
       msgHandlers := <[p := f h]> H; sidManagers := S |}.
Proof.
  unfold call_on, set_msgHandlers. cbn [messages hostLists handlerRefs
    msgHandlers sidManagers]. by rewrite alter_insert_eq.
Qed.

Lemma new_XRootDMsgHandler_eq msg respHandler url sidMgr lFileHandler m
    M L R H S :
  M !! msg = Some m →
  new_XRootDMsgHandler msg respHandler url sidMgr lFileHandler
    {| messages := M; hostLists := L; handlerRefs := R; msgHandlers := H;
       sidManagers := S |}
  = Some (fresh (dom H),
          {| messages := M; hostLists := L;
             handlerRefs :=
               <[fresh (dom R) := MsgHandlerRef.make (Some (fresh (dom H)))]>
                 R;
             msgHandlers :=
               <[fresh (dom H) :=
                   XRootDMsgHandler_members msg respHandler url sidMgr
                     lFileHandler (negb (GetSessionId m =? 0))
                     (fresh (dom R))]> H;
             sidManagers := S |}).
Proof.
  intros Hm. unfold new_XRootDMsgHandler, XRootDMsgHandler_ctor.
  cbn [messages hostLists handlerRefs msgHandlers sidManagers].
  rewrite Hm. reflexivity.
Qed.

Lemma SendMessage_setup_eq env url msg handler sendParams lFileHandler sidMgr
    m M L R H S :
  M !! msg = Some m →
  SendMessage_setup env url msg handler sendParams lFileHandler sidMgr
    {| messages := M; hostLists := L; handlerRefs := R; msgHandlers := H;
       sidManagers := S |}
  = Some (fresh (dom H), fresh (dom L),
          {| messages := M;
             hostLists := <[fresh (dom L) := [HostInfo_of url false]]> L;
             handlerRefs :=
               <[fresh (dom R) := MsgHandlerRef.make (Some (fresh (dom H)))]>
                 R;
             msgHandlers :=
               <[fresh (dom H) :=
                   handler_at_send env url msg handler sendParams lFileHandler
                     sidMgr (negb (GetSessionId m =? 0)) (fresh (dom R))
                     (fresh (dom L))]> H;
             sidManagers := S |}).
Proof.
  intros Hm. unfold SendMessage_setup.
  rewrite (new_XRootDMsgHandler_eq _ _ _ _ _ m) by exact Hm.
  set (h0 := XRootDMsgHandler_members _ _ _ _ _ _ _).
  set (mh := fresh (dom H)). set (r := fresh (dom R)).
  cbn [mbind option_bind].
  rewrite !call_on_insert.
  unfold handler_at_send. fold h0.
  destruct (IsValid (urlOps env) (hi_url (sp_loadBalancer sendParams)));
    rewrite ?call_on_insert.
  - match goal with
    | |- context [<[mh := ?h]> H] => set (h1 := h)
    end.
    assert (pHosts h1 = None) as Hh1.
    { subst h1 h0. unfold SetLoadBalancer, SetChunkList.
      repeat match goal with
             | |- context [if ?b then _ else _] => destruct b
             | |- context [match ?o with Some _ => _ | None => _ end] =>
                 destruct o
             end; reflexivity. }
    unfold SetHostList_at, set_hostLists.
    cbn [messages hostLists handlerRefs msgHandlers sidManagers].
    rewrite lookup_insert_eq, Hh1, alter_insert_eq. cbn [delete_HostList].
    rewrite call_on_insert. reflexivity.
  - match goal with
    | |- context [<[mh := ?h]> H] => set (h1 := h)
    end.
    assert (pHosts h1 = None) as Hh1.
    { subst h1 h0. unfold SetChunkList.
      repeat match goal with
             | |- context [match ?o with Some _ => _ | None => _ end] =>
                 destruct o
             end; reflexivity. }
    unfold SetHostList_at, set_hostLists.
    cbn [messages hostLists handlerRefs msgHandlers sidManagers].
    rewrite lookup_insert_eq, Hh1, alter_insert_eq. cbn [delete_HostList].
    rewrite call_on_insert. reflexivity.
Qed.

Lemma handler_at_send_fields env url msg handler sendParams lFileHandler
    sidMgr b r list :
  let h := handler_at_send env url msg handler sendParams lFileHandler sidMgr
             b r list in
  pRequest h = msg ∧ pResponse h = None ∧ pPartialResps h = []
  ∧ pHasSessionId h = b ∧ pRef h = r ∧ pHosts h = Some list
  ∧ pUrl h = url
  ∧ pRedirectCounter h = wrap16 (redirectLimit sendParams)
  ∧ pExpiration h = expires sendParams
  ∧ pRedirectAsAnswer h = negb (followRedirects sendParams)
  ∧ pLFileHandler h = lFileHandler.
Proof.
  unfold handler_at_send, SetLoadBalancer, SetChunkList.
  repeat match goal with
         | |- context [if ?b then _ else _] => destruct b
         | |- context [match ?o with Some _ => _ | None => _ end] =>
             destruct o
         end; cbn; repeat split; reflexivity.
Qed.

(** The block after a failed send, on a heap in which the handler, its
    counted reference and the host list are the objects just created. *)
Lemma SendMessage_undo_eq env msg sidMgr mh list r h hl m1 mgr' M L R H S c :
  pRequest h = msg → pResponse h = None → pPartialResps h = [] →
  pRef h = r →
  L !! list = None → R !! r = None → H !! mh = None →
  SendMessage_undo env msg sidMgr mh list
    {| heap := {| messages := <[msg := m1]> M;
                  hostLists := <[list := hl]> L;
                  handlerRefs := <[r := MsgHandlerRef.make (Some mh)]> R;
                  msgHandlers := <[mh := h]> H;
                  sidManagers := <[sidMgr := mgr']> S |};
       calls := c |}
  = Some
      {| heap :=
           {| messages :=
                if pHasSessionId h
                then <[msg := UnMarshallRequest env m1]> M
                else delete msg M;
              hostLists := L; handlerRefs := R; msgHandlers := H;
              sidManagers :=
                <[sidMgr :=
                    SIDManager_ReleaseSID mgr'
                      (streamid (header (UnMarshallRequest env m1)))]> S |};
         calls :=
           CallReleaseSID sidMgr
             (streamid (header (UnMarshallRequest env m1)))
           :: CallUnMarshallRequest msg :: c |}.
Proof.
  intros Hreq Hrsp Hpart Href HL HR HH.
  unfold SendMessage_undo, on_heap, log_call, set_messages, set_sidManagers.
  cbn [heap calls messages hostLists handlerRefs msgHandlers sidManagers].
  rewrite !alter_insert_eq, lookup_insert_eq. cbn [mbind option_bind].
  unfold delete_XRootDMsgHandler.
  cbn [heap calls messages hostLists handlerRefs msgHandlers sidManagers].
  rewrite lookup_insert_eq.
  unfold XRootDMsgHandler_dtor, MsgHandlerRef_Free_at.
  rewrite Hreq, Hrsp, Hpart, Href.
  cbn [heap calls messages hostLists handlerRefs msgHandlers sidManagers].
  rewrite lookup_insert_eq.
  change (MsgHandlerRef.Free (MsgHandlerRef.make (Some mh))) with
    (@None MsgHandlerRef.cell).
  unfold set_handlerRefs, set_msgHandlers, delete_HostList, set_hostLists.
  destruct (pHasSessionId h);
    cbn [foldl delete_Message set_messages heap calls messages hostLists
         handlerRefs msgHandlers sidManagers];
    rewrite (delete_insert_id L), (delete_insert_id R), (delete_insert_id H)
      by done;
    rewrite ?delete_insert_eq, ?alter_insert_eq; reflexivity.
Qed.

(** SendMessage when the PostMaster exists, the transport query and the SID
    allocation succeed: both outcomes of the send, in closed form. *)
Lemma SendMessage_eq env postMaster url msg handler sendParams lFileHandler w
    st0 sidMgr mgr req sid :
  GetPostMaster env = Some postMaster →
  QueryTransport postMaster url = (st0, sidMgr) →
  IsOK st0 = true →
  sidManagers (heap w) !! sidMgr = Some mgr →
  messages (heap w) !! msg = Some req →
  pickSID env (allocatedSIDs mgr) = Some sid →
  let mgr' := {| allocatedSIDs := {[ sid ]} ∪ allocatedSIDs mgr |} in
  let m1 := MarshallRequest env (set_streamid sid req) in
  let hp_s := heap_at_send env url msg handler sendParams lFileHandler sidMgr
                mgr' m1 (heap w) in
  let mh := fresh (dom (msgHandlers (heap w))) in
  let st := Send postMaster url msg mh (stateful sendParams)
              (expires sendParams) hp_s in
  let sent := CallSend url msg mh hp_s :: CallMarshallRequest msg
              :: CallAllocateSID sidMgr sid :: CallQueryTransport url
              :: calls w in
  SendMessage env url msg handler sendParams lFileHandler w
  = if IsOK st
    then Some (Status_default, {| heap := hp_s; calls := sent |})
    else Some (st,
               {| heap := heap_after_failed_send env msg sidMgr mgr' m1
                            (heap w);
                  calls :=
                    CallReleaseSID sidMgr
                      (streamid (header (UnMarshallRequest env m1)))
                    :: CallUnMarshallRequest msg :: sent |}).
Proof.
  intros Hpm Hq Hok Hmgr Hreq Hpick mgr' m1 hp_s mh st sent.
  destruct w as [[M L R H S] c].
  unfold heap_at_send in hp_s.
  cbn [heap calls messages hostLists handlerRefs msgHandlers sidManagers]
    in *.
  unfold SendMessage. rewrite Hpm, Hq, Hok.
  unfold on_heap, log_call, set_messages, set_sidManagers.
  cbn [negb heap calls messages hostLists handlerRefs msgHandlers
       sidManagers].
  rewrite Hmgr, Hreq. cbn [mbind option_bind].
  unfold SIDManager_AllocateSID. rewrite Hpick.
  cbn [IsOK status Status_default negb heap calls messages hostLists
       handlerRefs msgHandlers sidManagers].
  rewrite alter_insert_eq.
  rewrite (SendMessage_setup_eq _ _ _ _ _ _ _ m1)
    by (subst m1; apply lookup_insert_eq).
  cbn [mbind option_bind].
  fold mgr' m1.
  change {| messages := <[msg:=m1]> M;
            hostLists := <[fresh (dom L):=[HostInfo_of url false]]> L;
            handlerRefs :=
              <[fresh (dom R):=MsgHandlerRef.make (Some (fresh (dom H)))]> R;
            msgHandlers :=
              <[fresh (dom H):=
                  handler_at_send env url msg handler sendParams lFileHandler
                    sidMgr (negb (GetSessionId m1 =? 0)) (fresh (dom R))
                    (fresh (dom L))]> H;
            sidManagers := <[sidMgr:=mgr']> S |} with hp_s.
  change (fresh (dom H)) with mh. fold st.
  destruct (IsOK st); cbn [negb]; [reflexivity|].
  subst hp_s. unfold heap_at_send.
  cbn [heap calls messages hostLists handlerRefs msgHandlers sidManagers].
  pose proof (handler_at_send_fields env url msg handler sendParams
                lFileHandler sidMgr (negb (GetSessionId m1 =? 0))
                (fresh (dom R)) (fresh (dom L)))
    as (Hf1 & Hf2 & Hf3 & Hf4 & Hf5 & _).
  rewrite (SendMessage_undo_eq env msg sidMgr _ _ (fresh (dom R)))
    by first [assumption | apply fresh_lookup_None].
  cbn [mbind option_bind]. rewrite Hf4. reflexivity.
Qed.

(** A call that returns an OK status went through the send: the PostMaster
    exists, the transport query and the SID allocation succeeded, and so did
    the send. *)
Lemma SendMessage_success env url msg handler sendParams lFileHandler w st w' :
  SendMessage env url msg handler sendParams lFileHandler w = Some (st, w') →
  IsOK st = true →
  ∃ postMaster st0 sidMgr mgr req sid,
    GetPostMaster env = Some postMaster
    ∧ QueryTransport postMaster url = (st0, sidMgr)
    ∧ IsOK st0 = true
    ∧ sidManagers (heap w) !! sidMgr = Some mgr
    ∧ messages (heap w) !! msg = Some req
    ∧ pickSID env (allocatedSIDs mgr) = Some sid
    ∧ IsOK (Send postMaster url msg (fresh (dom (msgHandlers (heap w))))
              (stateful sendParams) (expires sendParams)
              (heap_at_send env url msg handler sendParams lFileHandler
                 sidMgr {| allocatedSIDs := {[ sid ]} ∪ allocatedSIDs mgr |}
                 (MarshallRequest env (set_streamid sid req)) (heap w)))
      = true.
Proof.
  intros E Hst.
  destruct (GetPostMaster env) as [postMaster|] eqn:Hpm;
    [|unfold SendMessage in E; rewrite Hpm in E; by injection E as <- _].
  destruct (QueryTransport postMaster url) as [st0 sidMgr] eqn:Hq.
  destruct (IsOK st0) eqn:Hok;
    [|unfold SendMessage in E; rewrite Hpm, Hq, Hok in E; cbn [negb] in E;
      injection E as <- _; congruence].
  destruct (sidManagers (heap w) !! sidMgr) as [mgr|] eqn:Hmgr;
    [|unfold SendMessage in E; rewrite Hpm, Hq, Hok in E;
      cbn [negb log_call heap] in E; by rewrite Hmgr in E].
  destruct (messages (heap w) !! msg) as [req|] eqn:Hreq;
    [|unfold SendMessage in E; rewrite Hpm, Hq, Hok in E;
      cbn [negb log_call heap] in E; by rewrite Hmgr, Hreq in E].
  destruct (pickSID env (allocatedSIDs mgr)) as [sid|] eqn:Hpick;
    [|unfold SendMessage in E; rewrite Hpm, Hq, Hok in E;
      cbn [negb log_call heap] in E; rewrite Hmgr, Hreq in E;
      cbn [mbind option_bind] in E; unfold SIDManager_AllocateSID in E;
      rewrite Hpick in E; cbn [IsOK status negb] in E;
      by injection E as <- _].
  exists postMaster, st0, sidMgr, mgr, req, sid.
  repeat (split; [done|]).
  rewrite (SendMessage_eq env postMaster url msg handler sendParams
             lFileHandler w st0 sidMgr mgr req sid) in E by done.
  cbn zeta in E.
  destruct (IsOK (Send _ _ _ _ _ _ _)) eqn:Hsend in E |- *; [done|].
  injection E as <- _. congruence.
Qed.

End SendMessage_facts.

(** C2.  When the PostMaster exists, the query for the SID manager succeeds,
    SendMessage allocates the stream id [sid] and the send then fails with
    [st] (the byte-order conversions leave the two stream id bytes alone),
    SendMessage returns [st]; it has unmarshalled the request and released
    [sid] with the manager (its last two calls), [sid] is not allocated, the
    handler, its counted reference and the host list it created are gone
    from the heap, and the request is back unmarshalled or, when it carried
    no session id, deleted by the handler's destructor. *)
Theorem SendMessage_failed_send (env : Env) (postMaster : PostMaster)
    (url : URL) (msg : positive) (handler : ptr)
    (sendParams : MessageSendParams) (lFileHandler : ptr) (w : World)
    (st0 : Status) (sidMgr : positive) (mgr : SIDManager) (req : Message)
    (sid : Z) :
  GetPostMaster env = Some postMaster →
  QueryTransport postMaster url = (st0, sidMgr) →
  IsOK st0 = true →
  sidManagers (heap w) !! sidMgr = Some mgr →
  messages (heap w) !! msg = Some req →
  pickSID env (allocatedSIDs mgr) = Some sid →
  (∀ m, streamid (header (MarshallRequest env m)) = streamid (header m)) →
  (∀ m, streamid (header (UnMarshallRequest env m)) = streamid (header m)) →
  let mgr' := {| allocatedSIDs := {[ sid ]} ∪ allocatedSIDs mgr |} in
  let m1 := MarshallRequest env (set_streamid sid req) in
  let hp_s := heap_at_send env url msg handler sendParams lFileHandler sidMgr
                mgr' m1 (heap w) in
  let mh := fresh (dom (msgHandlers (heap w))) in
  let st := Send postMaster url msg mh (stateful sendParams)
              (expires sendParams) hp_s in
  IsOK st = false →
  ∃ w',
    MessageUtils.SendMessage env url msg handler sendParams lFileHandler w
    = Some (st, w')
    ∧ calls w'
      = CallReleaseSID sidMgr sid :: CallUnMarshallRequest msg
        :: CallSend url msg mh hp_s :: CallMarshallRequest msg
        :: CallAllocateSID sidMgr sid :: CallQueryTransport url :: calls w
    ∧ (∃ mgr'', sidManagers (heap w') !! sidMgr = Some mgr''
                ∧ (sid ∉ allocatedSIDs mgr'')
                ∧ allocatedSIDs mgr'' = (allocatedSIDs mgr) ∖ {[ sid ]})
    ∧ (sid ∉ allocatedSIDs mgr →
       sidManagers (heap w') = sidManagers (heap w))
    ∧ msgHandlers (heap w') = msgHandlers (heap w)
    ∧ msgHandlers (heap w') !! mh = None
    ∧ handlerRefs (heap w') = handlerRefs (heap w)
    ∧ hostLists (heap w') = hostLists (heap w)
    ∧ messages (heap w')
      = if GetSessionId m1 =? 0
        then delete msg (messages (heap w))
        else <[msg := UnMarshallRequest env m1]> (messages (heap w)).
Proof.
  intros Hpm Hq Hok Hmgr Hreq Hpick HM HU mgr' m1 hp_s mh st Hfail.
  pose proof (SendMessage_eq env postMaster url msg handler sendParams
                lFileHandler w st0 sidMgr mgr req sid Hpm Hq Hok Hmgr Hreq
                Hpick) as E.
  cbn zeta in E. fold mgr' m1 hp_s mh st in E. rewrite Hfail in E.
  assert (streamid (header (UnMarshallRequest env m1)) = sid) as Hsid.
  { subst m1. by rewrite HU, HM. }
  rewrite Hsid in E.
  eexists. split; [exact E|].
  cbn [heap calls heap_after_failed_send messages hostLists handlerRefs
       msgHandlers sidManagers].
  split; [reflexivity|]. split.
  { eexists. split; [apply lookup_insert_eq|].
    rewrite Hsid. cbn. split.
    - rewrite elem_of_difference, elem_of_singleton. tauto.
    - apply set_eq. intros x. set_unfold.
      split; [intros [[?|?] ?]; [done|by split]
             | intros [? ?]; split; [by right|done]]. }
  split.
  { intros Hfresh. rewrite Hsid. apply insert_id. rewrite Hmgr. f_equal.
    destruct mgr as [A]. unfold SIDManager_ReleaseSID, mgr'. cbn in *.
    f_equal. apply set_eq. intros x. set_unfold.
    split; [intros Hx; split; [by right | by intros ->]
           | intros [[?|?] ?]; done]. }
  split; [reflexivity|]. split; [apply fresh_lookup_None|].
  split; [reflexivity|]. split; [reflexivity|].
  by destruct (GetSessionId m1 =? 0).
Qed.

(** A send that fails with a socket error: the heap holds no handler, no
    counted reference and no host list afterwards, and the SID manager is as
    it was. *)
Lemma SendMessage_failed_send_witness :
  ∃ w',
    MessageUtils.SendMessage (example_env socket_error) origin 1
      (Some 9%positive) example_params None (example_world 7)
    = Some (socket_error, w')
    ∧ sidManagers (heap w') = sidManagers (heap (example_world 7))
    ∧ msgHandlers (heap w') = ∅
    ∧ handlerRefs (heap w') = ∅
    ∧ hostLists (heap w') = ∅.
Proof.
  destruct (SendMessage_failed_send (example_env socket_error)
              (example_postMaster socket_error) origin 1 (Some 9%positive)
              example_params None (example_world 7) Status_default 1
              {| allocatedSIDs := {[ 5 ]} |} (open_request 7)
              (fresh ({[ 5 ]} : gset Z)))
    as (w' & E & _ & _ & Hs & Hh & _ & Hr & Hl & _);
    try reflexivity.
  exists w'. split; [exact E|]. split; [|by rewrite Hh, Hr, Hl].
  apply Hs. apply is_fresh.
Defined.

(** The two outcomes, evaluated.  After the failed send the heap is the
    initial one, except that the request now carries the stream id that was
    allocated for it; after the successful send the heap is the one handed
    to the PostMaster. *)
Example SendMessage_fails :
  match MessageUtils.SendMessage (example_env socket_error) origin 1
          (Some 9%positive) example_params None (example_world 7) with
  | Some (st, w') =>
      st = socket_error
      ∧ heap w'
        = {| messages :=
               {[ 1%positive :=
                    set_streamid (fresh ({[ 5 ]} : gset Z)) (open_request 7) ]};
             hostLists := ∅; handlerRefs := ∅; msgHandlers := ∅;
             sidManagers :=
               {[ 1%positive := {| allocatedSIDs := {[ 5 ]} |} ]} |}
  | None => False
  end.
Proof. vm_compute. split; reflexivity. Qed.

Example SendMessage_succeeds :
  MessageUtils.SendMessage (example_env Status_default) origin 1
    (Some 9%positive) example_params None (example_world 0)
  = Some (Status_default, example_sent_world).
Proof. vm_compute. reflexivity. Qed.

(** ** The request state machine *)

Section Machine_facts.

Lemma step_Terminal m e : mPhase m = Terminal → step m e = m.
Proof. intros H. unfold step. by rewrite H. Qed.

Ltac effect_cases :=
  repeat match goal with
         | |- context [if ?b then _ else _] => destruct b
         end;
  first [ by (apply eff_quiet)
        | by (eapply eff_resend; only 4: reflexivity)
        | by (eapply eff_send; only 5: reflexivity)
        | by (eapply eff_finish; only 2: reflexivity) ].

Lemma step_effect m e : mPhase m ≠ Terminal → effect m (step m e).
Proof.
  destruct m as [h hosts p cbs sends]. cbn [mPhase]. intros Hp.
  destruct p; [| | | | |done];
    destruct e; cbn [step mPhase];
    unfold on_redirect, on_wait, on_wait_done, on_error, finish, send_to,
      set_phase;
    cbn [mHandler mHosts mPhase mCallbacks mSends];
    effect_cases.
Qed.

Lemma step_once m e : once m → once (step m e).
Proof.
  intros [[Hp Hc]|[Hp Hc]]; [|by rewrite step_Terminal; [right|]].
  destruct (step_effect m e Hp) as [Hp' Hc' Hh' Hs'|u Hp' Hc' Hh' Hs'
                                    |k u Hk Hp' Hc' Hh' Hs'|st Hp' Hc' Hh' Hs'].
  - left. by rewrite Hc'.
  - left. by rewrite Hc'.
  - left. by rewrite Hc'.
  - right. split; [done|]. exists st. by rewrite Hc', Hh', Hc.
Qed.

Lemma step_hosts_are_contacted m e :
  hosts_are_contacted m → hosts_are_contacted (step m e).
Proof.
  unfold hosts_are_contacted. intros Hinv.
  destruct (decide (mPhase m = Terminal)) as [Hp|Hp];
    [by rewrite step_Terminal|].
  destruct (step_effect m e Hp) as [Hp' Hc' Hh' Hs'|u Hp' Hc' Hh' Hs'
                                    |k u Hk Hp' Hc' Hh' Hs'|st Hp' Hc' Hh' Hs'];
    rewrite Hh', Hs'; cbn [contacted]; try done.
  destruct k; try done; by rewrite map_app, Hinv.
Qed.

Lemma run_invariant (P : Machine → Prop) :
  (∀ m e, P m → P (step m e)) → ∀ evs m, P m → P (run m evs).
Proof.
  intros Hstep evs. induction evs as [|e evs IH]; intros m Hm; [done|].
  unfold run in *. cbn [foldl]. apply IH. by apply Hstep.
Qed.

(** Events that do not direct the request elsewhere leave the host list. *)
Lemma step_hosts_same m e : retargets e = false → mHosts (step m e) = mHosts m.
Proof.
  destruct m as [h hosts p cbs sends]. intros He.
  destruct p; destruct e; try discriminate He; cbn [step mPhase];
    unfold on_wait, on_wait_done, finish, send_to, set_phase;
    cbn [mHandler mHosts mPhase mCallbacks mSends];
    repeat match goal with
           | |- context [if ?b then _ else _] => destruct b
           end; reflexivity.
Qed.

Lemma run_hosts_same evs : ∀ m,
  Forall (λ e, retargets e = false) evs → mHosts (run m evs) = mHosts m.
Proof.
  induction evs as [|e evs IH]; intros m Hall; [done|].
  inversion Hall; subst. unfold run in *. cbn [foldl].
  rewrite IH by done. by apply step_hosts_same.
Qed.

Lemma step_counter_other m e :
  (∀ target now answer, e ≠ EvRedirect target now answer) →
  pRedirectCounter (mHandler (step m e)) = pRedirectCounter (mHandler m)
  ∧ redirects_followed (mSends (step m e)) = redirects_followed (mSends m).
Proof.
  destruct m as [h hosts p cbs sends]. intros He.
  destruct p; destruct e; try (by exfalso; eapply He); cbn [step mPhase];
    unfold on_wait, on_wait_done, on_error, finish, send_to, set_phase;
    cbn [mHandler mHosts mPhase mCallbacks mSends];
    repeat match goal with
           | |- context [if ?b then _ else _] => destruct b
           end; split; reflexivity.
Qed.

(** Section 4.5 on the counter: a redirect that finds it at zero ends the
    request with errRedirectLimit and sends nothing; any other redirect takes
    exactly one off. *)
Lemma on_redirect_counter m target now answer :
  0 ≤ pRedirectCounter (mHandler m) < 65536 →
  let m' := on_redirect target now answer m in
  (pRedirectCounter (mHandler m) = 0 →
   m' = finish {| status := stError; code := errRedirectLimit |}
               (mHandler m) m)
  ∧ (0 < pRedirectCounter (mHandler m) →
     pRedirectCounter (mHandler m') = pRedirectCounter (mHandler m) - 1
     ∧ redirects_followed (mSends m') ≤ 1 + redirects_followed (mSends m)).
Proof.
  intros Hc m'. subst m'. unfold on_redirect.
  destruct (Z.eqb_spec (pRedirectCounter (mHandler m)) 0) as [E|E].
  - split; [done|lia].
  - split; [done|]. intros _.
    rewrite (wrap16_small (pRedirectCounter (mHandler m) - 1)) by lia.
    destruct m as [h hosts p cbs sends].
    unfold finish, send_to.
    cbn [mHandler mHosts mPhase mCallbacks mSends] in *.
    repeat match goal with
           | |- context [if ?b then _ else _] => destruct b
           end; cbn [mHandler mSends redirects_followed]; split;
      first [reflexivity | lia].
Qed.

Lemma step_budget m e :
  0 ≤ pRedirectCounter (mHandler m) < 65536 →
  0 ≤ pRedirectCounter (mHandler (step m e)) ≤ pRedirectCounter (mHandler m)
  ∧ pRedirectCounter (mHandler (step m e))
    + redirects_followed (mSends (step m e))
    ≤ pRedirectCounter (mHandler m) + redirects_followed (mSends m).
Proof.
  intros Hc.
  destruct (decide (mPhase m = Terminal)) as [Hp|Hp];
    [rewrite step_Terminal by done; lia|].
  destruct e as [| | | | |target now answer| | | | | | |].
  all: try match goal with
       | |- context [step ?x ?e] =>
           destruct (step_counter_other x e) as [-> ->]; [discriminate|lia]
       end.
  assert (step m (EvRedirect target now answer)
          = on_redirect target now answer m) as ->.
  { unfold step. by destruct (mPhase m). }
  destruct (on_redirect_counter m target now answer Hc) as [H0 H1].
  destruct (decide (pRedirectCounter (mHandler m) = 0)) as [E|E].
  - rewrite H0 by done. unfold finish. cbn [mHandler mSends]. cbn. lia.
  - destruct H1 as [-> ?]; lia.
Qed.

Lemma run_budget evs : ∀ m,
  0 ≤ pRedirectCounter (mHandler m) < 65536 →
  0 ≤ pRedirectCounter (mHandler (run m evs)) ≤ pRedirectCounter (mHandler m)
  ∧ pRedirectCounter (mHandler (run m evs))
    + redirects_followed (mSends (run m evs))
    ≤ pRedirectCounter (mHandler m) + redirects_followed (mSends m).
Proof.
  induction evs as [|e evs IH]; intros m Hc; [cbn; lia|].
  unfold run in *. cbn [foldl].
  pose proof (step_budget m e Hc) as [Hs1 Hs2].
  destruct (IH (step m e)) as [IH1 IH2]; lia.
Qed.

End Machine_facts.

(** C3.  For a handler whose counter was set by [SetRedirectCounter], along
    every sequence of events: the counter is never negative and never above
    its initial value, no event raises it, and the redirects followed so far
    fit in what was taken off it; a redirect that arrives with the counter at
    zero ends the request with errRedirectLimit and sends nothing; a redirect
    that arrives with a positive counter takes exactly one off. *)
Theorem redirect_counter_correct (h : XRootDMsgHandler)
    (hosts : list HostInfo) (limit : Z) (evs : list Event) :
  let m0 := machine_after_send (SetRedirectCounter limit h) hosts in
  let m := run m0 evs in
  let counter := λ x, pRedirectCounter (mHandler x) in
  counter m0 = limit mod 65536
  ∧ 0 ≤ counter m ≤ counter m0
  ∧ counter m + redirects_followed (mSends m) ≤ counter m0
  ∧ (∀ e, counter (step m e) ≤ counter m)
  ∧ (∀ target now answer,
       mPhase m ≠ Terminal →
       let m' := step m (EvRedirect target now answer) in
       (counter m = 0 →
        mPhase m' = Terminal
        ∧ mCallbacks m'
          = [({| status := stError; code := errRedirectLimit |}, mHosts m)]
        ∧ mSends m' = mSends m)
       ∧ (0 < counter m →
          counter m' = counter m - 1 ∧ counter m' < counter m
          ∧ 0 ≤ counter m')).
Proof.
  intros m0 m counter.
  assert (counter m0 = limit mod 65536) as H0 by reflexivity.
  assert (0 ≤ counter m0 < 65536) as Hr0.
  { rewrite H0. apply Z.mod_pos_bound. lia. }
  pose proof (run_budget evs m0 Hr0) as [Hm1 Hm2]. fold m in Hm1, Hm2.
  change (redirects_followed (mSends m0)) with 0 in Hm2.
  fold (counter m) in Hm1, Hm2. fold (counter m0) in Hm1, Hm2.
  split; [exact H0|]. split; [exact Hm1|]. split; [lia|]. split.
  { intros e. apply step_budget. fold (counter m). lia. }
  intros target now answer Hp m'.
  assert (once m) as Ho.
  { apply run_invariant; [apply step_once|]. left. by split. }
  destruct Ho as [[_ Hcb]|[Hp' _]]; [|done].
  assert (m' = on_redirect target now answer m) as Hm'.
  { subst m'. unfold step. by destruct (mPhase m). }
  destruct (on_redirect_counter m target now answer) as [Hz Hpos].
  { fold (counter m). lia. }
  fold (counter m) in Hz, Hpos. split.
  - intros E. rewrite Hm', (Hz E). unfold finish.
    cbn [mPhase mCallbacks mSends]. by rewrite Hcb.
  - intros E. destruct (Hpos E) as [Hdec _]. rewrite Hm'.
    unfold counter in *. rewrite Hdec. lia.
Qed.

(** A handler with a limit of one: the first redirect is followed and leaves
    the counter at zero. *)
Lemma redirect_counter_correct_witness :
  let m := machine_after_send (SetRedirectCounter 1 (example_handler 0))
             [HostInfo_of origin false] in
  pRedirectCounter
    (mHandler (step (run m []) (EvRedirect host2 10 Status_default)))
  = pRedirectCounter (mHandler (run m [])) - 1.
Proof.
  apply (proj2 (proj2 (proj2 (proj2
           (redirect_counter_correct (example_handler 0)
              [HostInfo_of origin false] 1 []))))
           host2 10 Status_default).
  - discriminate.
  - reflexivity.
Defined.

(** Scenario 5 of the specification: with a redirect limit of 3 and a server
    that always redirects, three redirects are followed, the fourth ends the
    request with errRedirectLimit, and the host list delivered has length 4
    (the origin and three targets). *)
Example redirect_loop_exhausted :
  let m := run (machine_after_send
                  (SetRedirectCounter 3
                     (SetExpiration 1000 (example_handler 0)))
                  [HostInfo_of origin false])
               (replicate 4 (EvRedirect host2 10 Status_default)) in
  mPhase m = Terminal
  ∧ mCallbacks m
    = [({| status := stError; code := errRedirectLimit |},
        [HostInfo_of origin false; HostInfo_of host2 false;
         HostInfo_of host2 false; HostInfo_of host2 false])]
  ∧ redirects_followed (mSends m) = 3.
Proof. vm_compute. repeat split. Qed.

(** ** The host list *)

Lemma contacted_all sends :
  Forall (λ s, s.1 ≠ SendAfterWait) sends →
  contacted sends = reverse (sends.*2).
Proof.
  induction sends as [|[k u] sends IH]; intros Hall; [done|].
  inversion Hall as [|? ? Hk Hall']; subst. cbn [contacted fmap list_fmap].
  rewrite reverse_cons, <- IH by done. cbn in Hk. by destruct k.
Qed.

(** C7.  When SendMessage succeeds, the heap it handed to PostMaster::Send
    (the one it returns) holds the new handler with a host list that is the
    single element [url], so the list was in place before the message was
    sent.  From there on: a request that the origin answers directly
    completes with the host list [url]; in every run the host list delivered
    to the ResponseHandler is the ordered sequence of URLs the request was
    directed to (the first send and every send to a new target; a resend
    after a wait goes to the URL that is already last), which is the sequence
    of all sends when no wait occurred; and without a redirect or a retry
    the list stays [url]. *)
Theorem HostList_correct (env : Env) (url : URL) (msg : positive)
    (handler : ptr) (sendParams : MessageSendParams) (lFileHandler : ptr)
    (w : World) (st : Status) (w' : World) :
  MessageUtils.SendMessage env url msg handler sendParams lFileHandler w
  = Some (st, w') →
  IsOK st = true →
  ∃ mh h list,
    head (calls w') = Some (CallSend url msg mh (heap w'))
    ∧ msgHandlers (heap w') !! mh = Some h
    ∧ pHosts h = Some list
    ∧ hostLists (heap w') !! list = Some [HostInfo_of url false]
    ∧ pUrl h = url
    ∧ mCallbacks (run (machine_after_send h [HostInfo_of url false]) [EvOk])
      = [(Status_default, [HostInfo_of url false])]
    ∧ ∀ evs,
        let m := run (machine_after_send h [HostInfo_of url false]) evs in
        (∀ st hl, (st, hl) ∈ mCallbacks m →
           hl = map (λ u, HostInfo_of u false) (contacted (mSends m)))
        ∧ (Forall (λ s, s.1 ≠ SendAfterWait) (mSends m) →
           contacted (mSends m) = reverse ((mSends m).*2))
        ∧ (Forall (λ e, retargets e = false) evs →
           mHosts m = [HostInfo_of url false]).
Proof.
  intros E0 Hst.
  destruct (SendMessage_success _ _ _ _ _ _ _ _ _ E0 Hst)
    as (postMaster & st0 & sidMgr & mgr & req & sid & Hpm & Hq & Hok & Hmgr
        & Hreq & Hpick & Hsent).
  pose proof (SendMessage_eq env postMaster url msg handler sendParams
                lFileHandler w st0 sidMgr mgr req sid Hpm Hq Hok Hmgr Hreq
                Hpick) as E.
  cbn zeta in E. rewrite Hsent, E0 in E. injection E as -> ->.
  set (m1 := MarshallRequest env (set_streamid sid req)).
  pose proof (handler_at_send_fields env url msg handler sendParams
                lFileHandler sidMgr (negb (GetSessionId m1 =? 0))
                (fresh (dom (handlerRefs (heap w))))
                (fresh (dom (hostLists (heap w)))))
    as (_ & _ & _ & _ & _ & Hhosts & Hurl & _).
  eexists _, _, _.
  cbn [heap calls head]. split; [reflexivity|].
  split; [apply lookup_insert_eq|]. split; [exact Hhosts|].
  split; [apply lookup_insert_eq|]. split; [exact Hurl|].
  split; [reflexivity|].
  intros evs.
  match goal with |- context [run ?x evs] => set (m := run x evs) end.
  assert (once m ∧ hosts_are_contacted m) as [Ho Hc].
  { split.
    - apply run_invariant; [apply step_once|]. left. by split.
    - apply run_invariant; [apply step_hosts_are_contacted|].
      unfold hosts_are_contacted, machine_after_send.
      cbn [mHosts mSends contacted app]. by rewrite Hurl. }
  split; [|split].
  - intros st hl Hin. rewrite <- Hc.
    destruct Ho as [[_ Hcb]|[_ [st' Hcb]]]; rewrite Hcb in Hin.
    + by apply elem_of_nil in Hin.
    + apply list_elem_of_singleton in Hin. by injection Hin.
  - apply contacted_all.
  - intros Hall. subst m. by rewrite run_hosts_same.
Qed.

(** Scenario 2 of the specification on the handler SendMessage builds:
    redirected once and then answered, the request completes with the host
    list [origin, host2]. *)
Lemma HostList_correct_witness :
  ∃ h,
    msgHandlers (heap example_sent_world) !! 1%positive = Some h
    ∧ ∀ st hl,
        (st, hl) ∈ mCallbacks
                     (run (machine_after_send h [HostInfo_of origin false])
                          [EvRedirect host2 10 Status_default; EvOk]) →
        hl = map (λ u, HostInfo_of u false)
               (contacted
                  (mSends
                     (run (machine_after_send h [HostInfo_of origin false])
                          [EvRedirect host2 10 Status_default; EvOk]))).
Proof.
  destruct (HostList_correct (example_env Status_default) origin 1
              (Some 9%positive) example_params None (example_world 0)
              Status_default example_sent_world)
    as (mh & h & list & Hhead & Hh & _ & _ & _ & _ & Hruns).
  - vm_compute. reflexivity.
  - reflexivity.
  - injection Hhead as <-. exists h. split; [exact Hh|].
    exact (proj1 (Hruns [EvRedirect host2 10 Status_default; EvOk])).
Defined.

(** The same run, evaluated: one invocation, with [origin, host2]. *)
Example redirect_then_ok :
  mCallbacks
    (run (machine_after_send
            (handler_at_send (example_env Status_default) origin 1
               (Some 9%positive) example_params None 1 false 1 1)
            [HostInfo_of origin false])
         [EvRedirect host2 10 Status_default; EvOk])
  = [(Status_default, [HostInfo_of origin false; HostInfo_of host2 false])].
Proof. vm_compute. reflexivity. Qed.

(** ** The destructor and the request *)

(** None of the operations touches what the destructor reads. *)
Lemma apply_op_frame ops h o :
  pRequest (apply_op ops h o) = pRequest h
  ∧ pResponse (apply_op ops h o) = pResponse h
  ∧ pPartialResps (apply_op ops h o) = pPartialResps h
  ∧ pHasSessionId (apply_op ops h o) = pHasSessionId h
  ∧ pRef (apply_op ops h o) = pRef h.
Proof.
  destruct o as [e|b|lb|l|cl|c|b|b|i|i]; cbn; try done.
  - unfold SetLoadBalancer. by destruct (negb _).
  - by destruct cl.
Qed.

Lemma apply_ops_frame ops os : ∀ h,
  pRequest (foldl (apply_op ops) h os) = pRequest h
  ∧ pResponse (foldl (apply_op ops) h os) = pResponse h
  ∧ pPartialResps (foldl (apply_op ops) h os) = pPartialResps h
  ∧ pHasSessionId (foldl (apply_op ops) h os) = pHasSessionId h
  ∧ pRef (foldl (apply_op ops) h os) = pRef h.
Proof.
  induction os as [|o os IH]; intros h; [done|]. cbn [foldl].
  destruct (IH (apply_op ops h o)) as (-> & -> & -> & -> & ->).
  apply apply_op_frame.
Qed.

Lemma messages_Free_at p hp :
  messages (MsgHandlerRef_Free_at p hp) = messages hp.
Proof.
  unfold MsgHandlerRef_Free_at. destruct (handlerRefs hp !! p) as [c|]; [|done].
  by destruct (MsgHandlerRef.Free c).
Qed.

Lemma messages_delete_partials ps : ∀ hp a,
  a ∉ ps →
  messages (foldl (λ acc p, delete_Message (Some p) acc) hp ps) !! a
  = messages hp !! a.
Proof.
  induction ps as [|p ps IH]; intros hp a Ha; [done|].
  apply not_elem_of_cons in Ha as [Hne Ha]. cbn [foldl].
  rewrite IH by done. cbn. by rewrite lookup_delete_ne.
Qed.

(** The destructor on any handler whose request is not also held as the
    response or as a partial response: the request is gone afterwards
    exactly when [pHasSessionId] is not set (or it was gone before). *)
Lemma dtor_request h hp :
  pResponse h ≠ Some (pRequest h) → pRequest h ∉ pPartialResps h →
  messages (XRootDMsgHandler_dtor h hp) !! pRequest h
  = if pHasSessionId h then messages hp !! pRequest h else None.
Proof.
  intros Hrsp Hpart. unfold XRootDMsgHandler_dtor.
  rewrite messages_delete_partials by done.
  assert (∀ hp', messages (delete_Message (pResponse h) hp') !! pRequest h
                 = messages hp' !! pRequest h) as ->.
  { intros hp'. destruct (pResponse h) as [r|]; [|done]. cbn.
    apply lookup_delete_ne. congruence. }
  destruct (pHasSessionId h).
  - by rewrite messages_Free_at.
  - cbn. apply lookup_delete_eq.
Qed.

(** C5.  For a handler built by the constructor on a live request, whatever
    inline operations ran on it since: [pHasSessionId] is set exactly when
    the request carried a session id at construction time, and the
    destructor frees the request if and only if it carried none; when it
    carried one, the destructor leaves every message on the heap, the
    request included, as it was. *)
Theorem destructor_frees_request (ops : URLOps) (this msg : positive)
    (respHandler : ptr) (url : URL) (sidMgr lFileHandler : ptr)
    (hp : Heap) (m : Message) (h : XRootDMsgHandler) (hp1 : Heap)
    (os : list HandlerOp) :
  messages hp !! msg = Some m →
  XRootDMsgHandler_ctor this msg respHandler url sidMgr lFileHandler hp
  = Some (h, hp1) →
  let h' := foldl (apply_op ops) h os in
  let hp2 := XRootDMsgHandler_dtor h' hp1 in
  pHasSessionId h' = negb (GetSessionId m =? 0)
  ∧ (messages hp2 !! msg = None ↔ GetSessionId m = 0)
  ∧ (GetSessionId m ≠ 0 → messages hp2 = messages hp)
  ∧ (GetSessionId m = 0 → messages hp2 = delete msg (messages hp)).
Proof.
  intros Hm Hctor h' hp2.
  unfold XRootDMsgHandler_ctor in Hctor. rewrite Hm in Hctor.
  cbn [mbind option_bind] in Hctor. injection Hctor as <- <-.
  destruct (apply_ops_frame ops os
              (XRootDMsgHandler_members msg respHandler url sidMgr
                 lFileHandler (negb (GetSessionId m =? 0))
                 (fresh (dom (handlerRefs hp)))))
    as (Hreq & Hrsp & Hpart & Hsess & Href).
  fold h' in Hreq, Hrsp, Hpart, Hsess, Href. cbn in Hreq, Hrsp, Hpart, Hsess.
  assert (messages hp2
          = if negb (GetSessionId m =? 0) then messages hp
            else delete msg (messages hp)) as Hmsgs.
  { subst hp2. unfold XRootDMsgHandler_dtor.
    rewrite Hreq, Hrsp, Hpart, Hsess. cbn [foldl delete_Message].
    destruct (negb (GetSessionId m =? 0)).
    - by rewrite messages_Free_at.
    - cbn. by rewrite messages_Free_at. }
  split; [exact Hsess|]. rewrite Hmsgs.
  destruct (Z.eqb_spec (GetSessionId m) 0) as [E|E]; cbn [negb].
  - split; [by rewrite lookup_delete_eq|]. split; [done|done].
  - rewrite Hm. split; [split; [done|done]|]. split; [done|done].
Qed.

(** The request with session id 7 survives the destructor; the same request
    without a session id is freed by it. *)
Lemma destructor_frees_request_witness :
  messages (XRootDMsgHandler_dtor
              (foldl (apply_op example_urlOps) (example_handler 7)
                     [DoSetExpiration 1000; DoSetRedirectCounter 3])
              (example_heap 7)) !! 1%positive
  = Some (open_request 7)
  ∧ messages (XRootDMsgHandler_dtor
                (foldl (apply_op example_urlOps) (example_handler 0)
                       [DoSetExpiration 1000; DoSetRedirectCounter 3])
                (example_heap 0)) !! 1%positive
    = None.
Proof.
  split.
  - destruct (destructor_frees_request example_urlOps 1 1 (Some 9%positive)
                origin (Some 1%positive) None (heap_with_request 7)
                (open_request 7) (example_handler 7) (example_heap 7)
                [DoSetExpiration 1000; DoSetRedirectCounter 3])
      as (_ & _ & H & _).
    + vm_compute. reflexivity.
    + vm_compute. reflexivity.
    + rewrite H by discriminate. vm_compute. reflexivity.
  - apply (destructor_frees_request example_urlOps 1 1 (Some 9%positive)
             origin (Some 1%positive) None (heap_with_request 0)
             (open_request 0) (example_handler 0) (example_heap 0)
             [DoSetExpiration 1000; DoSetRedirectCounter 3]).
    + vm_compute. reflexivity.
    + vm_compute. reflexivity.
    + reflexivity.
Defined.

(* ===================================================================== *)
(** * Part III: further properties of the code                            *)
(* ===================================================================== *)

(** ** MergeCGI: keys, units, repetition *)

(** X1.  The merged map has exactly the keys of the two inputs: no key of
    [cgi1] is lost and none is invented, in either mode. *)
Theorem MergeCGI_dom (cgi1 cgi2 : gmap string string) (replace : bool) :
  dom (MessageUtils.MergeCGI cgi1 cgi2 replace) = dom cgi1 ∪ dom cgi2.
Proof.
  apply set_eq. intros k.
  rewrite elem_of_union, !elem_of_dom, MergeCGI_lookup.
  destruct (cgi2 !! k) as [v2|], (cgi1 !! k) as [v1|]; split;
    first [ by eauto | by intros [[? [=]]|[? [=]]] | by intros [? [=]] ].
Qed.

(** X2.  With [replace = true] the merge is the union of the two maps in
    which [cgi2] wins, so merging the same [cgi2] again changes nothing. *)
Theorem MergeCGI_replace_union (cgi1 cgi2 : gmap string string) :
  MessageUtils.MergeCGI cgi1 cgi2 true = cgi2 ∪ cgi1
  ∧ MessageUtils.MergeCGI (MessageUtils.MergeCGI cgi1 cgi2 true) cgi2 true
    = MessageUtils.MergeCGI cgi1 cgi2 true.
Proof.
  assert (∀ c1 : gmap string string,
            MessageUtils.MergeCGI c1 cgi2 true = cgi2 ∪ c1) as E.
  { intros c1. apply map_eq. intros k.
    rewrite MergeCGI_lookup, lookup_union.
    by destruct (cgi2 !! k), (c1 !! k). }
  split; [apply E|]. rewrite !E. apply map_eq. intros k.
  rewrite !lookup_union. by destruct (cgi2 !! k), (cgi1 !! k).
Qed.

(** X3.  Merging nothing leaves [cgi1] as it is, and merging into an empty
    map gives [cgi2], in either mode. *)
Theorem MergeCGI_empty (cgi : gmap string string) (replace : bool) :
  MessageUtils.MergeCGI cgi ∅ replace = cgi
  ∧ MessageUtils.MergeCGI ∅ cgi replace = cgi.
Proof.
  split; apply map_eq; intros k; rewrite MergeCGI_lookup, lookup_empty.
  - done.
  - destruct (cgi !! k); [|done]. by destruct replace.
Qed.

(** X4.  Without replacement the merge is not idempotent: with [cgi1] and
    [cgi2] two different objects, merging [cgi2] a second time appends its
    value a second time to a value of [cgi1] that was not empty. *)
Theorem MergeCGI_append_twice (st : gmap positive (gmap string string))
    (p1 p2 : positive) (cgi1 cgi2 : gmap string string) (k v1 v2 : string) :
  p1 ≠ p2 → st !! p1 = Some cgi1 → st !! p2 = Some cgi2 →
  cgi1 !! k = Some v1 → v1 ≠ ""%string → cgi2 !! k = Some v2 →
  MessageUtils.ParamsMap_find
    (MessageUtils.MergeCGI_at p1 p2 false
       (MessageUtils.MergeCGI_at p1 p2 false st)) p1 k
  = Some (v1 +:+ "," +:+ v2 +:+ "," +:+ v2)%string.
Proof.
  intros Hne Hp1 Hp2 H1 Hv1 H2.
  rewrite (MergeCGI_at_distinct st p1 p2 cgi1 cgi2) by done.
  rewrite (MergeCGI_at_distinct _ p1 p2
             (MessageUtils.MergeCGI cgi1 cgi2 false) cgi2);
    [|done|apply lookup_insert_eq|by rewrite lookup_insert_ne].
  rewrite (ParamsMap_find_eq _ p1 _ k (lookup_insert_eq _ _ _)).
  rewrite !MergeCGI_lookup, H2, H1. unfold merged_value.
  assert (is_empty_string v1 = false) as -> by (by destruct v1).
  rewrite string_app_nonempty by done.
  f_equal. by rewrite !string_app_assoc.
Qed.

(** The list of tried hosts after two merges of the same host. *)
Lemma MergeCGI_append_twice_witness :
  MessageUtils.ParamsMap_find
    (MessageUtils.MergeCGI_at 1 2 false
       (MessageUtils.MergeCGI_at 1 2 false
          {[ 1%positive := {[ "tried"%string := "a"%string ]};
             2%positive := {[ "tried"%string := "b"%string ]} ]}))
    1 "tried"
  = Some "a,b,b"%string.
Proof.
  apply (MergeCGI_append_twice
           {[ 1%positive := {[ "tried"%string := "a"%string ]};
              2%positive := {[ "tried"%string := "b"%string ]} ]}
           1 2 {[ "tried"%string := "a"%string ]}
           {[ "tried"%string := "b"%string ]} "tried"%string "a"%string
           "b"%string);
    [discriminate | reflexivity | reflexivity | reflexivity | discriminate
    | reflexivity].
Defined.

(** ** CreateXAttrVec: the layout of the vector, and the overload for names *)

Section CreateXAttrVec_layout_facts.
Import MessageUtils.

Lemma write_at_app (pre old post bs : list ascii) :
  List.length old = List.length bs →
  write_at (List.length pre) bs (pre ++ old ++ post) = pre ++ bs ++ post.
Proof.
  intros Hlen. unfold write_at.
  rewrite take_app_length, drop_app_add.
  rewrite (take_ge bs) by (rewrite !length_app; lia).
  by rewrite drop_app_length' by done.
Qed.

Lemma xattr_fill_cons codec name value attrs nvec vvec avec :
  xattr_fill codec ((name, value) :: attrs) nvec vvec avec
  = xattr_fill codec attrs
      (nvec + List.length (NVecInsert codec name))%nat
      (vvec + List.length (VVecInsert codec value))%nat
      (write_at vvec (VVecInsert codec value)
         (write_at nvec (NVecInsert codec name) avec)).
Proof. reflexivity. Qed.

(** The second loop on a buffer [A ++ X ++ B ++ Y] whose regions [X] and [Y]
    have the sizes of what is still to be written. *)
Lemma xattr_fill_layout codec attrs : ∀ A X B Y,
  List.length X
  = List.length (concat (map (λ a, NVecInsert codec a.1) attrs)) →
  List.length Y
  = List.length (concat (map (λ a, VVecInsert codec a.2) attrs)) →
  xattr_fill codec attrs (List.length A)
    (List.length A + List.length X + List.length B)%nat
    (A ++ X ++ B ++ Y)
  = A ++ concat (map (λ a, NVecInsert codec a.1) attrs)
      ++ B ++ concat (map (λ a, VVecInsert codec a.2) attrs).
Proof.
  induction attrs as [|[name value] attrs IH]; intros A X B Y HX HY.
  - destruct X; [|done]. by destruct Y.
  - cbn [map concat fst snd] in *. rewrite length_app in HX, HY.
    set (nb := NVecInsert codec name) in *.
    set (vb := VVecInsert codec value) in *.
    rewrite xattr_fill_cons. fold nb vb.
    pose proof (take_drop (List.length nb) X) as EX.
    pose proof (take_drop (List.length vb) Y) as EY.
    assert (List.length (take (List.length nb) X) = List.length nb) as HX1
      by (rewrite length_take; lia).
    assert (List.length (take (List.length vb) Y) = List.length vb) as HY1
      by (rewrite length_take; lia).
    assert (List.length (drop (List.length nb) X)
            = List.length (concat (map (λ a, NVecInsert codec a.1) attrs)))
      as HX2 by (rewrite length_drop; lia).
    assert (List.length (drop (List.length vb) Y)
            = List.length (concat (map (λ a, VVecInsert codec a.2) attrs)))
      as HY2 by (rewrite length_drop; lia).
    remember (take (List.length nb) X) as X1 eqn:E1.
    remember (drop (List.length nb) X) as X2 eqn:E2.
    remember (take (List.length vb) Y) as Y1 eqn:E3.
    remember (drop (List.length vb) Y) as Y2 eqn:E4.
    clear E1 E2 E3 E4 HX HY. subst X Y.
    rewrite <- (assoc_L (++) X1 X2), (write_at_app A X1) by done.
    replace (List.length A + List.length (X1 ++ X2) + List.length B)%nat
      with (List.length (A ++ nb ++ X2 ++ B))
      by (rewrite !length_app; lia).
    replace (A ++ nb ++ X2 ++ B ++ Y1 ++ Y2)
      with ((A ++ nb ++ X2 ++ B) ++ Y1 ++ Y2)
      by (by rewrite <- !(assoc_L (++))).
    rewrite write_at_app by done.
    replace ((A ++ nb ++ X2 ++ B) ++ vb ++ Y2)
      with ((A ++ nb) ++ X2 ++ (B ++ vb) ++ Y2)
      by (by rewrite <- !(assoc_L (++))).
    replace (List.length A + List.length nb)%nat
      with (List.length (A ++ nb)) by (by rewrite length_app).
    replace (List.length (A ++ nb ++ X2 ++ B) + List.length vb)%nat
      with (List.length (A ++ nb) + List.length X2
            + List.length (B ++ vb))%nat
      by (rewrite !length_app; lia).
    rewrite IH by done.
    by rewrite <- !(assoc_L (++)).
Qed.

Lemma sizes_total codec attrs :
  sizes_as_counted codec attrs →
  Z.of_nat (List.length (concat (map (λ a, NVecInsert codec a.1) attrs)))
  = total_nlen attrs
  ∧ Z.of_nat (List.length (concat (map (λ a, VVecInsert codec a.2) attrs)))
    = total_vlen attrs.
Proof.
  induction 1 as [|a attrs [Hn Hv] _ [IHn IHv]]; [done|].
  cbn [map concat]. rewrite !length_app, total_nlen_cons, total_vlen_cons.
  lia.
Qed.

End CreateXAttrVec_layout_facts.

(** X5.  When every name and value is written with the size the length
    computation counts for it, a call that returns OK on a non-empty input
    leaves in the output vector the encoded names, one after the other,
    followed by the encoded values, in the order of the input; nothing of
    what the vector held before is left. *)
Theorem CreateXAttrVec_layout (lim : xfaLimits) (codec : FattrCodec)
    (attrs : list (string * string)) (avec : list ascii) :
  sizes_as_counted codec attrs →
  total_nlen attrs + total_vlen attrs < 18446744073709551616 →
  attrs ≠ [] →
  fst (MessageUtils.CreateXAttrVec lim codec attrs avec) = Status_default →
  snd (MessageUtils.CreateXAttrVec lim codec attrs avec)
  = concat (map (λ a, NVecInsert codec a.1) attrs)
    ++ concat (map (λ a, VVecInsert codec a.2) attrs).
Proof.
  intros Hsizes Hfit Hne.
  rewrite CreateXAttrVec_nonempty, xattr_lengths_total by done.
  cbn [fst snd].
  destruct (_ <? _); [discriminate|].
  destruct (_ <? _); [discriminate|].
  destruct (_ <? _); [discriminate|]. intros _. cbn [snd].
  destruct (sizes_total codec attrs Hsizes) as [HN HV].
  pose proof (total_nlen_nonneg attrs). pose proof (total_vlen_nonneg attrs).
  rewrite wrap64_small by lia.
  set (buf := resize _ _ _).
  assert (List.length buf
          = Z.to_nat (total_nlen attrs + total_vlen attrs)) as Hbuf
    by apply length_resize.
  rewrite <- (take_drop (Z.to_nat (total_nlen attrs)) buf).
  pose proof (xattr_fill_layout codec attrs []
                (take (Z.to_nat (total_nlen attrs)) buf) []
                (drop (Z.to_nat (total_nlen attrs)) buf)) as E.
  cbn [app List.length] in E.
  rewrite length_take, Nat.add_0_r in E.
  replace (Init.Nat.min (Z.to_nat (total_nlen attrs)) (List.length buf))
    with (Z.to_nat (total_nlen attrs)) in E by lia.
  apply E.
  - lia.
  - rewrite length_drop. lia.
Qed.

(** Two attributes with the codec of the examples. *)
Lemma CreateXAttrVec_layout_witness :
  snd (MessageUtils.CreateXAttrVec protocol_limits example_codec
         [("a", "1"); ("bc", "")]%string [zero_char])
  = (NVecInsert example_codec "a"%string
     ++ NVecInsert example_codec "bc"%string)
    ++ (VVecInsert example_codec "1"%string
        ++ VVecInsert example_codec ""%string).
Proof.
  rewrite (CreateXAttrVec_layout protocol_limits example_codec
             [("a", "1"); ("bc", "")]%string [zero_char]).
  - reflexivity.
  - repeat constructor.
  - vm_compute. reflexivity.
  - discriminate.
  - reflexivity.
Defined.

Section CreateXAttrVec_names_facts.
Import MessageUtils.

Lemma total_names_length_cons a attrs :
  total_names_length (a :: attrs)
  = Z.of_nat (String.length a) + 3 + total_names_length attrs.
Proof. reflexivity. Qed.

Lemma total_names_length_nonneg attrs : 0 ≤ total_names_length attrs.
Proof.
  induction attrs as [|a attrs IH]; [done|].
  rewrite total_names_length_cons. lia.
Qed.

Lemma xattr_names_length_acc attrs : ∀ n,
  0 ≤ n → n + total_names_length attrs < 18446744073709551616 →
  foldl (λ nlen name,
           wrap64 (nlen + wrap64 (Z.of_nat (String.length name)
                                  + name_overhead)))
        n attrs
  = n + total_names_length attrs.
Proof.
  induction attrs as [|a attrs IH]; intros n Hn Hfit.
  - cbn. lia.
  - cbn [foldl]. rewrite total_names_length_cons in *.
    pose proof (total_names_length_nonneg attrs). unfold name_overhead.
    rewrite (wrap64_small (Z.of_nat (String.length a) + 3)) by lia.
    rewrite wrap64_small by lia. rewrite IH by lia. lia.
Qed.

Lemma xattr_names_fill_cons codec name attrs nptr nvec :
  xattr_names_fill codec (name :: attrs) nptr nvec
  = xattr_names_fill codec attrs (nptr + List.length (NVecInsert codec name))
      (write_at nptr (NVecInsert codec name) nvec).
Proof. reflexivity. Qed.

Lemma xattr_names_fill_layout codec attrs : ∀ A X,
  List.length X = List.length (concat (map (NVecInsert codec) attrs)) →
  xattr_names_fill codec attrs (List.length A) (A ++ X)
  = A ++ concat (map (NVecInsert codec) attrs).
Proof.
  induction attrs as [|name attrs IH]; intros A X HX.
  - by destruct X.
  - cbn [map concat] in *. rewrite length_app in HX.
    set (nb := NVecInsert codec name) in *.
    rewrite xattr_names_fill_cons. fold nb.
    pose proof (take_drop (List.length nb) X) as EX.
    assert (List.length (take (List.length nb) X) = List.length nb) as HX1
      by (rewrite length_take; lia).
    assert (List.length (drop (List.length nb) X)
            = List.length (concat (map (NVecInsert codec) attrs)))
      as HX2 by (rewrite length_drop; lia).
    remember (take (List.length nb) X) as X1 eqn:E1.
    remember (drop (List.length nb) X) as X2 eqn:E2.
    clear E1 E2 HX. subst X.
    rewrite (write_at_app A X1) by done.
    replace (List.length A + List.length nb)%nat
      with (List.length (A ++ nb)) by (by rewrite length_app).
    replace (A ++ nb ++ X2) with ((A ++ nb) ++ X2)
      by (by rewrite <- (assoc_L (++))).
    rewrite IH by done. by rewrite <- (assoc_L (++)).
Qed.

Lemma length_xattr_names_fill codec attrs : ∀ nptr nvec,
  List.length (xattr_names_fill codec attrs nptr nvec) = List.length nvec.
Proof.
  induction attrs as [|name attrs IH]; intros nptr nvec; [done|].
  rewrite xattr_names_fill_cons, IH. apply length_write_at.
Qed.

Lemma names_total codec attrs :
  names_as_counted codec attrs →
  Z.of_nat (List.length (concat (map (NVecInsert codec) attrs)))
  = total_names_length attrs.
Proof.
  induction 1 as [|a attrs Hn _ IH]; [done|].
  cbn [map concat]. rewrite length_app, total_names_length_cons. lia.
Qed.

End CreateXAttrVec_names_facts.

(** X6.  The overload of CreateXAttrVec for a vector of names, for limits
    that are not negative and names that fit in the address space: an empty
    input returns OK and leaves the output as it was; the call returns
    errInvalidArgs, again leaving the output as it was, exactly when there
    are more than kXR_faMaxVars names or the total name length (3 bytes of
    overhead per name) exceeds kXR_faMaxNlen; otherwise it returns OK with an
    output of exactly that length, which holds the encoded names one after
    the other when each is written with the size counted for it. *)
Theorem CreateXAttrVec_names_correct (lim : xfaLimits) (codec : FattrCodec)
    (attrs : list string) (nvec : list ascii) :
  0 ≤ kXR_faMaxVars lim → 0 ≤ kXR_faMaxNlen lim →
  total_names_length attrs < 18446744073709551616 →
  let st := fst (CreateXAttrVec_names lim codec attrs nvec) in
  let nvec' := snd (CreateXAttrVec_names lim codec attrs nvec) in
  (attrs = [] → st = Status_default ∧ nvec' = nvec)
  ∧ (st = errInvalidArgs_status
     ↔ kXR_faMaxVars lim < Z.of_nat (List.length attrs)
       ∨ kXR_faMaxNlen lim < total_names_length attrs)
  ∧ (st = errInvalidArgs_status → nvec' = nvec)
  ∧ (st ≠ errInvalidArgs_status →
     st = Status_default
     ∧ (attrs ≠ [] →
        Z.of_nat (List.length nvec') = total_names_length attrs
        ∧ (names_as_counted codec attrs →
           nvec' = concat (map (NVecInsert codec) attrs)))).
Proof.
  intros Hvars Hn Hfit st nvec'. subst st nvec'.
  destruct attrs as [|a attrs].
  - cbn. split; [done|]. split; [|split; done].
    split; [discriminate|]. intros [?|?]; lia.
  - assert (a :: attrs ≠ []) as Hne by done.
    remember (a :: attrs) as l eqn:Hl.
    pose proof (total_names_length_nonneg l).
    assert (CreateXAttrVec_names lim codec l nvec
            = if kXR_faMaxVars lim <? Z.of_nat (List.length l)
              then (errInvalidArgs_status, nvec)
              else if kXR_faMaxNlen lim <? total_names_length l
              then (errInvalidArgs_status, nvec)
              else (Status_default,
                    xattr_names_fill codec l O
                      (resize (Z.to_nat (total_names_length l)) zero_char
                              nvec))) as ->.
    { unfold CreateXAttrVec_names, xattr_names_length.
      rewrite xattr_names_length_acc by lia. rewrite Z.add_0_l.
      by rewrite Hl. }
    clear Hl.
    destruct (Z.ltb_spec (kXR_faMaxVars lim) (Z.of_nat (List.length l)));
      [cbn; split; [done|]; split; [split; auto|]; split; done|].
    destruct (Z.ltb_spec (kXR_faMaxNlen lim) (total_names_length l));
      [cbn; split; [done|]; split; [split; auto|]; split; done|].
    cbn [fst snd]. split; [done|]. split; [|split].
    + split; [discriminate|]. intros [?|?]; lia.
    + discriminate.
    + intros _. split; [done|]. intros _. split.
      * rewrite length_xattr_names_fill, length_resize. lia.
      * intros Hsizes. pose proof (names_total codec l Hsizes) as HN.
        apply (xattr_names_fill_layout codec l []).
        rewrite length_resize. lia.
Qed.

(** Two names within the limits: OK and nine bytes. *)
Lemma CreateXAttrVec_names_correct_witness :
  CreateXAttrVec_names protocol_limits example_codec ["a"; "bc"]%string
    [zero_char]
  = (Status_default,
     NVecInsert example_codec "a"%string
     ++ NVecInsert example_codec "bc"%string).
Proof.
  destruct (CreateXAttrVec_names_correct protocol_limits example_codec
              ["a"; "bc"]%string [zero_char])
    as (_ & _ & _ & H); [cbn; lia .. | ].
  destruct H as [Hst Hvec].
  - vm_compute. discriminate.
  - destruct (Hvec ltac:(discriminate)) as [_ Hlayout].
    apply injective_projections; [exact Hst|].
    rewrite Hlayout by repeat constructor. reflexivity.
Defined.

(** ** RewriteCGIAndPath: what it keeps and what it writes *)



Section RewriteCGIAndPath_facts.
Import MessageUtils.

Lemma length_list_ascii_of_string s :
  List.length (list_ascii_of_string s) = String.length s.
Proof. induction s as [|c s IH]; cbn; [done|]. by rewrite IH. Qed.

Lemma wrap32_small z : 0 ≤ z < 4294967296 → wrap32 z = z.
Proof. intros H. unfold wrap32. by apply Z.mod_small. Qed.

Lemma to_int32_small z : 0 ≤ z < 2147483648 → to_int32 z = z.
Proof.
  intros H. unfold to_int32. rewrite wrap32_small by lia.
  destruct (Z.ltb_spec z 2147483648); lia.
Qed.

Lemma write_at_all (bs buf : list ascii) :
  List.length buf = List.length bs → write_at 0 bs buf = bs.
Proof.
  intros H. pose proof (write_at_app [] buf [] bs H) as E.
  cbn [List.length app] in E. by rewrite !app_nil_r in E.
Qed.

(** The scan for the space that ends the source path of a [kXR_mv]. *)
Lemma skip_to_space_app (src rest : list ascii) : ∀ n,
  Forall (λ c, c ≠ space_char) src →
  (List.length src < n)%nat →
  skip_to_space n (src ++ space_char :: rest) = List.length src.
Proof.
  induction src as [|c src IH]; intros n Hsrc Hn.
  - destruct n; [lia|]. reflexivity.
  - destruct n; [cbn in Hn; lia|]. inversion Hsrc as [|? ? Hc Hsrc']; subst.
    cbn [skip_to_space app List.length].
    destruct (Ascii.eqb_spec c space_char) as [->|_]; [done|].
    rewrite IH; [done|done|]. cbn in Hn. lia.
Qed.

End RewriteCGIAndPath_facts.

(** X8.  For a request that carries one path (chmod, mkdir, open, rm, rmdir,
    stat, truncate) and whose [dlen] is the number of bytes after the header,
    RewriteCGIAndPath replaces those bytes by the rewritten path with its
    parameters and sets [dlen] to its length, so [dlen] again counts the
    bytes after the header. *)
Theorem RewriteCGIAndPath_path (env : Env) (ids : RequestIds) (msg : Message)
    (newCgi : gmap string string) (replace : bool) (newPath : string) :
  MessageUtils.rewrites_path ids (requestid (header msg)) = true →
  requestid (header msg) ≠ kXR_mv ids →
  dlen (header msg) = Z.of_nat (List.length (data msg)) →
  dlen (header msg) < 2147483648 →
  Z.of_nat (String.length
              (rewritten_path env (data msg) newCgi replace newPath))
  < 2147483648 →
  let msg' := MessageUtils.RewriteCGIAndPath env ids msg newCgi replace
                newPath in
  data msg'
  = list_ascii_of_string
      (rewritten_path env (data msg) newCgi replace newPath)
  ∧ dlen (header msg') = Z.of_nat (List.length (data msg')).
Proof.
  intros Hpath Hmv Hdlen Hsmall Hp msg'. subst msg'.
  unfold MessageUtils.RewriteCGIAndPath. rewrite Hpath.
  unfold MessageUtils.path_offset.
  destruct (Z.eqb_spec (requestid (header msg)) (kXR_mv ids)); [done|].
  cbn [header data]. rewrite Z.sub_0_r.
  rewrite (wrap64_small (dlen (header msg))) by lia.
  rewrite Hdlen, Nat2Z.id, drop_0, (take_ge (data msg)) by lia.
  fold (rewritten_path env (data msg) newCgi replace newPath).
  set (p := rewritten_path env (data msg) newCgi replace newPath) in *.
  rewrite Z.sub_diag, Z.add_0_l.
  rewrite (wrap32_small (Z.of_nat (String.length p))) by lia.
  rewrite wrap32_small by lia.
  replace (24 + Z.of_nat (String.length p) - 24)
    with (Z.of_nat (String.length p)) by lia.
  rewrite Nat2Z.id, to_int32_small by lia.
  rewrite write_at_all
    by (by rewrite length_resize, length_list_ascii_of_string).
  by rewrite length_list_ascii_of_string.
Qed.

(** [kXR_open /a] with a new path [/bcd]. *)
Lemma RewriteCGIAndPath_path_witness :
  data (MessageUtils.RewriteCGIAndPath (example_env Status_default)
          protocol_ids (open_request 0) ∅ true "/bcd"%string)
  = list_ascii_of_string
      (rewritten_path (example_env Status_default) (data (open_request 0))
         ∅ true "/bcd"%string).
Proof.
  apply (RewriteCGIAndPath_path (example_env Status_default) protocol_ids
           (open_request 0) ∅ true "/bcd"%string); vm_compute; congruence.
Defined.

(** X9.  For a [kXR_mv] request "source destination" whose [dlen] is the
    number of bytes after the header, RewriteCGIAndPath keeps the source path
    and the space after it, replaces the destination by the rewritten
    destination with its parameters, and sets [dlen] to the new number of
    bytes after the header. *)
Theorem RewriteCGIAndPath_mv (env : Env) (ids : RequestIds) (msg : Message)
    (src dst : list ascii) (newCgi : gmap string string) (replace : bool)
    (newPath : string) :
  requestid (header msg) = kXR_mv ids →
  data msg = src ++ space_char :: dst →
  Forall (λ c, c ≠ space_char) src →
  dlen (header msg) = Z.of_nat (List.length (data msg)) →
  dlen (header msg) < 2147483648 →
  Z.of_nat (List.length src) + 1
  + Z.of_nat (String.length (rewritten_path env dst newCgi replace newPath))
  < 2147483648 →
  let msg' := MessageUtils.RewriteCGIAndPath env ids msg newCgi replace
                newPath in
  data msg'
  = src ++ space_char
      :: list_ascii_of_string
           (rewritten_path env dst newCgi replace newPath)
  ∧ dlen (header msg') = Z.of_nat (List.length (data msg')).
Proof.
  intros Hmv Hdata Hsrc Hdlen Hsmall Hp msg'. subst msg'.
  destruct msg as [[sidv rid bdy dl] dat desc sess].
  cbn [header data requestid dlen] in *. subst rid dat dl.
  rewrite length_app in Hsmall. cbn [List.length] in Hsmall.
  unfold MessageUtils.RewriteCGIAndPath. cbn [header data requestid dlen].
  assert (MessageUtils.rewrites_path ids (kXR_mv ids) = true) as ->.
  { unfold MessageUtils.rewrites_path. rewrite (Z.eqb_refl (kXR_mv ids)).
    by rewrite !orb_true_r. }
  unfold MessageUtils.path_offset. cbn [requestid dlen].
  rewrite Z.eqb_refl, Nat2Z.id.
  rewrite skip_to_space_app by (done || (rewrite length_app; cbn; lia)).
  set (p := rewritten_path env dst newCgi replace newPath) in *.
  assert (drop (S (List.length src)) (src ++ space_char :: dst) = dst)
    as Hdrop.
  { replace (src ++ space_char :: dst) with ((src ++ [space_char]) ++ dst)
      by (by rewrite <- (assoc_L (++))).
    apply drop_app_length'. rewrite length_app. cbn. lia. }
  rewrite Hdrop.
  replace (Z.of_nat (List.length (src ++ space_char :: dst))
           - Z.of_nat (S (List.length src)))
    with (Z.of_nat (List.length dst))
    by (rewrite length_app; cbn [List.length]; lia).
  rewrite (wrap64_small (Z.of_nat (List.length dst))) by lia.
  rewrite Nat2Z.id, take_ge by lia.
  fold (rewritten_path env dst newCgi replace newPath). fold p.
  replace (Z.of_nat (List.length (src ++ space_char :: dst))
           - Z.of_nat (List.length dst) + Z.of_nat (String.length p))
    with (Z.of_nat (S (List.length src) + String.length p))
    by (rewrite length_app; cbn [List.length]; lia).
  rewrite (wrap32_small (Z.of_nat _)) by lia.
  rewrite wrap32_small by lia.
  replace (24 + Z.of_nat (S (List.length src) + String.length p) - 24)
    with (Z.of_nat (S (List.length src) + String.length p)) by lia.
  rewrite Nat2Z.id, to_int32_small by lia.
  set (buf := resize _ _ _).
  assert (∃ old, buf = (src ++ [space_char]) ++ old ++ []
                 ∧ List.length old = String.length p) as (old & -> & Hold).
  { exists (drop (S (List.length src)) buf). split.
    - rewrite app_nil_r. rewrite <- (take_drop (S (List.length src)) buf) at 1.
      f_equal. subst buf. rewrite take_resize_le by lia.
      rewrite resize_le by (rewrite length_app; cbn; lia).
      replace (src ++ space_char :: dst) with ((src ++ [space_char]) ++ dst)
        by (by rewrite <- (assoc_L (++))).
      apply take_app_length'. rewrite length_app. cbn. lia.
    - subst buf. rewrite length_drop, length_resize. lia. }
  rewrite <- (assoc_L (++) src [space_char]) at 1. cbn [app].
  rewrite skip_to_space_app by (done || (rewrite length_app; cbn; lia)).
  replace (S (List.length src)) with (List.length (src ++ [space_char]))
    by (rewrite length_app; cbn; lia).
  rewrite write_at_app by (by rewrite length_list_ascii_of_string).
  rewrite app_nil_r, <- (assoc_L (++)). cbn [app]. split; [done|].
  cbn [dlen header data].
  rewrite length_write_at, !length_app, Hold. cbn [List.length]. lia.
Qed.

(** [kXR_mv /a /b] with new parameters for the destination. *)
Lemma RewriteCGIAndPath_mv_witness :
  data (MessageUtils.RewriteCGIAndPath (example_env Status_default)
          protocol_ids mv_request ∅ true "/c"%string)
  = list_ascii_of_string "/a /c".
Proof.
  destruct (RewriteCGIAndPath_mv (example_env Status_default) protocol_ids
              mv_request (list_ascii_of_string "/a")
              (list_ascii_of_string "/b") ∅ true "/c"%string) as [H _].
  - reflexivity.
  - reflexivity.
  - repeat constructor; discriminate.
  - reflexivity.
  - reflexivity.
  - vm_compute. reflexivity.
  - rewrite H. vm_compute. reflexivity.
Defined.

(** ** ProcessSendParams *)

(** X10.  When the configured request timeout and redirect limit are between
    1 and 65535 and the clock is positive, ProcessSendParams leaves no field
    unset: timeout and redirect limit are between 1 and 65535, every field
    the caller had set keeps its value, an expiration that was unset is the
    clock plus the timeout, and processing the result again, at any later
    time, changes nothing. *)
Theorem ProcessSendParams_fills (defaults : SendDefaults)
    (getInt : string → option Z) (now now' : Z) (sp : MessageSendParams) :
  0 < configured_timeout defaults getInt < 65536 →
  0 < configured_redirectLimit defaults getInt < 65536 →
  0 ≤ timeout sp < 65536 → 0 ≤ redirectLimit sp < 65536 →
  0 ≤ expires sp → 0 < now →
  let sp' := ProcessSendParams defaults getInt now sp in
  0 < timeout sp' < 65536
  ∧ 0 < redirectLimit sp' < 65536
  ∧ 0 < expires sp'
  ∧ (timeout sp ≠ 0 → timeout sp' = timeout sp)
  ∧ (redirectLimit sp ≠ 0 → redirectLimit sp' = redirectLimit sp)
  ∧ (expires sp ≠ 0 → expires sp' = expires sp)
  ∧ (expires sp = 0 → expires sp' = now + timeout sp')
  ∧ ProcessSendParams defaults getInt now' sp' = sp'.
Proof.
  intros Ht Hr Hts Hrs He Hnow sp'. subst sp'.
  unfold ProcessSendParams, configured_timeout, configured_redirectLimit in *.
  cbn [timeout expires redirectLimit sp_loadBalancer followRedirects stateful
       chunkList].
  rewrite (wrap16_small (Env_GetInt getInt "RequestTimeout" _)) by lia.
  rewrite (wrap16_small (Env_GetInt getInt "RedirectLimit" _)) by lia.
  set (t := Env_GetInt getInt "RequestTimeout" _) in *.
  set (r := Env_GetInt getInt "RedirectLimit" _) in *.
  destruct (Z.eqb_spec (timeout sp) 0) as [Et|Et];
    destruct (Z.eqb_spec (redirectLimit sp) 0) as [Er|Er];
    destruct (Z.eqb_spec (expires sp) 0) as [Ee|Ee];
    repeat match goal with
           | |- context [?a =? 0] =>
               destruct (Z.eqb_spec a 0); [lia|]
           end;
    repeat split; try lia; try done.
Qed.

(** Nothing set by the caller, a request timeout of 300 in the environment,
    the default redirect limit, at time 1000. *)
Lemma ProcessSendParams_fills_witness :
  ProcessSendParams client_defaults example_getInt 1000 unset_params
  = {| timeout := 300; expires := 1300; sp_loadBalancer := HostInfo_default;
       followRedirects := true; stateful := true; chunkList := None;
       redirectLimit := 16 |}
  ∧ ProcessSendParams client_defaults example_getInt 2000
      (ProcessSendParams client_defaults example_getInt 1000 unset_params)
    = ProcessSendParams client_defaults example_getInt 1000 unset_params.
Proof.
  split; [reflexivity|].
  apply (ProcessSendParams_fills client_defaults example_getInt 1000 2000
           unset_params); cbn; lia.
Defined.

(** ** MsgHandlerRef under arbitrary schedules *)

(** X11.  Along every schedule of [Self], [Free], [Invalidate] and
    [operator->] calls, in any order, during which at least one and at most
    65535 references are held, the cell is never deleted and no call reaches
    a deleted cell; its count is the count at the start plus the number of
    [Self] calls minus the number of [Free] calls; the pointer it holds is
    the one at the start or null, and null when the schedule has an
    [Invalidate]. *)
Theorem MsgHandlerRef_held (ops : list MsgHandlerRef.op) :
  ∀ (c : MsgHandlerRef.cell) (d : nat) (obs : list ptr) (f : nat),
    1 ≤ MsgHandlerRef.count c ≤ 65535 →
    stays_held (MsgHandlerRef.count c) ops →
    let l := MsgHandlerRef.run
               {| MsgHandlerRef.cellst := MsgHandlerRef.Live c;
                  MsgHandlerRef.deletes := d; MsgHandlerRef.observed := obs;
                  MsgHandlerRef.faults := f |} ops in
    ∃ c', MsgHandlerRef.cellst l = MsgHandlerRef.Live c'
          ∧ MsgHandlerRef.count c'
            = MsgHandlerRef.count c + Z.of_nat (selfs ops)
              - Z.of_nat (MsgHandlerRef.frees ops)
          ∧ 1 ≤ MsgHandlerRef.count c' ≤ 65535
          ∧ (MsgHandlerRef.ref c' = MsgHandlerRef.ref c
             ∨ MsgHandlerRef.ref c' = None)
          ∧ (MsgHandlerRef.OpInvalidate ∈ ops → MsgHandlerRef.ref c' = None)
          ∧ MsgHandlerRef.deletes l = d
          ∧ MsgHandlerRef.faults l = f.
Proof.
  induction ops as [|o ops IH]; intros c d obs f Hc Hs l.
  - exists c. subst l. cbn. repeat split; try lia; [by left|].
    intros Hin. by apply elem_of_nil in Hin.
  - subst l. unfold MsgHandlerRef.run. cbn [fold_left].
    fold (MsgHandlerRef.run
            (MsgHandlerRef.step
               {| MsgHandlerRef.cellst := MsgHandlerRef.Live c;
                  MsgHandlerRef.deletes := d; MsgHandlerRef.observed := obs;
                  MsgHandlerRef.faults := f |} o) ops).
    destruct o; cbn [stays_held] in Hs.
    + destruct Hs as [Hb Hs].
      unfold MsgHandlerRef.step. cbn [MsgHandlerRef.cellst
        MsgHandlerRef.deletes MsgHandlerRef.observed MsgHandlerRef.faults].
      assert (Ec : MsgHandlerRef.count (MsgHandlerRef.Self c)
                   = MsgHandlerRef.count c + 1).
      { unfold MsgHandlerRef.Self. cbn. apply wrap16_small. lia. }
      destruct (IH (MsgHandlerRef.Self c) d obs f) as
        (c' & E1 & E2 & E3 & E4 & E5 & E6 & E7);
        [lia | by rewrite Ec |].
      exists c'. rewrite E1, E2, Ec. cbn [selfs MsgHandlerRef.frees].
      repeat split; try lia; try done.
      intros Hin. apply elem_of_cons in Hin as [Hin|Hin];
        [discriminate | by apply E5].
    + unfold MsgHandlerRef.step. cbn [MsgHandlerRef.cellst
        MsgHandlerRef.deletes MsgHandlerRef.observed MsgHandlerRef.faults].
      destruct (IH (MsgHandlerRef.Invalidate c) d obs f) as
        (c' & E1 & E2 & E3 & E4 & E5 & E6 & E7); [done | done |].
      exists c'. rewrite E1, E2. cbn [selfs MsgHandlerRef.frees].
      cbn in E4. repeat split; try lia; try done.
      * right. by destruct E4.
      * intros _. by destruct E4.
    + destruct Hs as [Hb Hs].
      unfold MsgHandlerRef.step. cbn [MsgHandlerRef.cellst
        MsgHandlerRef.deletes MsgHandlerRef.observed MsgHandlerRef.faults].
      assert (EF : MsgHandlerRef.Free c
                   = Some {| MsgHandlerRef.ref := MsgHandlerRef.ref c;
                             MsgHandlerRef.count := MsgHandlerRef.count c - 1
                          |}).
      { unfold MsgHandlerRef.Free. cbn.
        rewrite wrap16_small by lia.
        destruct (Z.eqb_spec (MsgHandlerRef.count c - 1) 0); [lia|done]. }
      rewrite EF.
      destruct (IH {| MsgHandlerRef.ref := MsgHandlerRef.ref c;
                      MsgHandlerRef.count := MsgHandlerRef.count c - 1 |}
                  d obs f) as (c' & E1 & E2 & E3 & E4 & E5 & E6 & E7);
        [cbn; lia | done |].
      exists c'. rewrite E1, E2. cbn [selfs MsgHandlerRef.frees
        MsgHandlerRef.count MsgHandlerRef.ref] in *.
      repeat split; try lia; try done.
      intros Hin. apply elem_of_cons in Hin as [Hin|Hin];
        [discriminate | by apply E5].
    + unfold MsgHandlerRef.step. cbn [MsgHandlerRef.cellst
        MsgHandlerRef.deletes MsgHandlerRef.observed MsgHandlerRef.faults].
      destruct (IH c d (MsgHandlerRef.arrow c :: obs) f) as
        (c' & E1 & E2 & E3 & E4 & E5 & E6 & E7); [done | done |].
      exists c'. rewrite E1, E2. cbn [selfs MsgHandlerRef.frees].
      repeat split; try lia; try done.
      intros Hin. apply elem_of_cons in Hin as [Hin|Hin];
        [discriminate | by apply E5].
Qed.

(** Two more holders join and leave a new cell in turn while the handler
    invalidates it. *)
Lemma MsgHandlerRef_held_witness :
  ∃ c', MsgHandlerRef.cellst
          (MsgHandlerRef.run (MsgHandlerRef.born (Some 5%positive))
             [MsgHandlerRef.OpSelf; MsgHandlerRef.OpArrow;
              MsgHandlerRef.OpFree; MsgHandlerRef.OpSelf;
              MsgHandlerRef.OpInvalidate; MsgHandlerRef.OpFree])
        = MsgHandlerRef.Live c'
        ∧ MsgHandlerRef.count c' = 1
        ∧ MsgHandlerRef.ref c' = None.
Proof.
  destruct (MsgHandlerRef_held
              [MsgHandlerRef.OpSelf; MsgHandlerRef.OpArrow;
               MsgHandlerRef.OpFree; MsgHandlerRef.OpSelf;
               MsgHandlerRef.OpInvalidate; MsgHandlerRef.OpFree]
              (MsgHandlerRef.make (Some 5%positive)) 0 [] 0)
    as (c' & E1 & E2 & _ & _ & E5 & _).
  - cbn. lia.
  - cbn. lia.
  - exists c'. split; [exact E1|]. split; [exact E2|].
    apply E5. set_solver.
Defined.



(** ** Construction and destruction on the heap *)

Section Heap_facts.

Lemma dtor_frame h hp :
  hostLists (XRootDMsgHandler_dtor h hp) = hostLists hp
  ∧ msgHandlers (XRootDMsgHandler_dtor h hp) = msgHandlers hp
  ∧ sidManagers (XRootDMsgHandler_dtor h hp) = sidManagers hp
  ∧ handlerRefs (XRootDMsgHandler_dtor h hp)
    = handlerRefs (MsgHandlerRef_Free_at (pRef h) hp).
Proof.
  unfold XRootDMsgHandler_dtor.
  assert (F : ∀ ps hp0,
            hostLists (foldl (λ acc p, delete_Message (Some p) acc) hp0 ps)
            = hostLists hp0
            ∧ msgHandlers (foldl (λ acc p, delete_Message (Some p) acc) hp0 ps)
              = msgHandlers hp0
            ∧ sidManagers (foldl (λ acc p, delete_Message (Some p) acc) hp0 ps)
              = sidManagers hp0
            ∧ handlerRefs (foldl (λ acc p, delete_Message (Some p) acc) hp0 ps)
              = handlerRefs hp0).
  { induction ps as [|p ps IH]; intros hp0; [done|]. cbn [foldl].
    destruct (IH (delete_Message (Some p) hp0)) as (-> & -> & -> & ->).
    done. }
  assert (D : ∀ q hp0,
            hostLists (delete_Message q hp0) = hostLists hp0
            ∧ msgHandlers (delete_Message q hp0) = msgHandlers hp0
            ∧ sidManagers (delete_Message q hp0) = sidManagers hp0
            ∧ handlerRefs (delete_Message q hp0) = handlerRefs hp0).
  { intros [q|] hp0; done. }
  assert (R : hostLists (MsgHandlerRef_Free_at (pRef h) hp) = hostLists hp
              ∧ msgHandlers (MsgHandlerRef_Free_at (pRef h) hp)
                = msgHandlers hp
              ∧ sidManagers (MsgHandlerRef_Free_at (pRef h) hp)
                = sidManagers hp).
  { unfold MsgHandlerRef_Free_at.
    destruct (handlerRefs hp !! pRef h) as [c|]; [|done].
    by destruct (MsgHandlerRef.Free c). }
  destruct R as (R1 & R2 & R3).
  match goal with
  | |- context [foldl _ ?x _] => destruct (F (pPartialResps h) x)
                                   as (-> & -> & -> & ->)
  end.
  match goal with
  | |- context [delete_Message (pResponse h) ?x] =>
      destruct (D (pResponse h) x) as (-> & -> & -> & ->)
  end.
  destruct (pHasSessionId h); [done|].
  by destruct (D (Some (pRequest h)) (MsgHandlerRef_Free_at (pRef h) hp))
    as (-> & -> & -> & ->).
Qed.

Lemma messages_fold_delete ps : ∀ hp a,
  messages (foldl (λ acc p, delete_Message (Some p) acc) hp ps) !! a
  = if decide (a ∈ ps) then None else messages hp !! a.
Proof.
  induction ps as [|p ps IH]; intros hp a.
  - cbn. destruct (decide (a ∈ [])) as [Hin|_]; [|done].
    by apply elem_of_nil in Hin.
  - cbn [foldl]. rewrite IH. cbn.
    destruct (decide (a ∈ ps)) as [Hin|Hin].
    + rewrite decide_True; [done|]. by apply elem_of_cons; right.
    + destruct (decide (a = p)) as [->|Hne].
      * rewrite lookup_delete_eq, decide_True; [done|].
        by apply elem_of_cons; left.
      * rewrite lookup_delete_ne by done. rewrite decide_False; [done|].
        intros [?|?]%elem_of_cons; done.
Qed.

Lemma messages_dtor h hp a :
  messages (XRootDMsgHandler_dtor h hp) !! a
  = if decide (a ∈ dtor_deletes h) then None else messages hp !! a.
Proof.
  unfold XRootDMsgHandler_dtor, dtor_deletes.
  rewrite messages_fold_delete.
  destruct (decide (a ∈ pPartialResps h)) as [Hp|Hp].
  { rewrite decide_True; [done|]. clear -Hp. set_solver. }
  assert (E2 : ∀ hp0, messages (delete_Message (pResponse h) hp0) !! a
                      = if decide (a ∈ option_list (pResponse h)) then None
                        else messages hp0 !! a).
  { intros hp0. destruct (pResponse h) as [r|]; cbn.
    - destruct (decide (a = r)) as [->|Hne].
      + rewrite lookup_delete_eq, decide_True; [done|]. by left.
      + rewrite lookup_delete_ne by done. rewrite decide_False; [done|].
        intros [?|Hin]%elem_of_cons; [done|]. by apply elem_of_nil in Hin.
    - rewrite decide_False; [done|]. intros Hin. by apply elem_of_nil in Hin. }
  rewrite E2.
  destruct (decide (a ∈ option_list (pResponse h))) as [Hr|Hr].
  { rewrite decide_True; [done|]. clear -Hr. set_solver. }
  destruct (pHasSessionId h).
  - rewrite messages_Free_at. rewrite decide_False; [done|].
    intros Hin. apply elem_of_app in Hin as [Hin|Hin];
      [by apply elem_of_nil in Hin|].
    apply elem_of_app in Hin as [?|?]; done.
  - cbn. rewrite messages_Free_at.
    destruct (decide (a = pRequest h)) as [->|Hne].
    + rewrite lookup_delete_eq, decide_True; [done|]. set_solver.
    + rewrite lookup_delete_ne by done. rewrite decide_False; [done|].
      intros Hin. apply elem_of_cons in Hin as [?|Hin]; [done|].
      apply elem_of_app in Hin as [?|?]; done.
Qed.

End Heap_facts.

(** X13.  [new XRootDMsgHandler] on a live request puts the handler and its
    counted reference at addresses that were free, links the two (the
    reference holds the handler's address with count 1, the handler holds the
    reference's address), starts the handler without host list, chunk status,
    load balancer or redirect budget, and leaves every other object of the
    heap as it was. *)
Theorem new_XRootDMsgHandler_links (msg : positive) (respHandler : ptr)
    (url : URL) (sidMgr lFileHandler : ptr) (hp : Heap) (m : Message) :
  messages hp !! msg = Some m →
  ∃ this h hp',
    new_XRootDMsgHandler msg respHandler url sidMgr lFileHandler hp
    = Some (this, hp')
    ∧ msgHandlers hp !! this = None
    ∧ handlerRefs hp !! pRef h = None
    ∧ msgHandlers hp' !! this = Some h
    ∧ handlerRefs hp' !! pRef h = Some (MsgHandlerRef.make (Some this))
    ∧ (pRequest h = msg ∧ pResponseHandler h = respHandler
       ∧ pSidMgr h = sidMgr ∧ pUrl h = url
       ∧ pHasSessionId h = negb (GetSessionId m =? 0))
    ∧ (pHosts h = None ∧ pResponse h = None ∧ pPartialResps h = []
       ∧ pChunkStatus h = [] ∧ pHasLoadBalancer h = false
       ∧ pRedirectCounter h = 0 ∧ pExpiration h = 0)
    ∧ (∀ a, a ≠ this → msgHandlers hp' !! a = msgHandlers hp !! a)
    ∧ (∀ a, a ≠ pRef h → handlerRefs hp' !! a = handlerRefs hp !! a)
    ∧ messages hp' = messages hp
    ∧ hostLists hp' = hostLists hp
    ∧ sidManagers hp' = sidManagers hp.
Proof.
  intros Hm. destruct hp as [M L R H S].
  cbn [messages] in Hm.
  exists (fresh (dom H)),
    (XRootDMsgHandler_members msg respHandler url sidMgr lFileHandler
       (negb (GetSessionId m =? 0)) (fresh (dom R))).
  eexists. split.
  { by apply new_XRootDMsgHandler_eq. }
  cbn [messages hostLists handlerRefs msgHandlers sidManagers pRef
       XRootDMsgHandler_members].
  split; [apply fresh_lookup_None|].
  split; [apply fresh_lookup_None|].
  split; [apply lookup_insert_eq|].
  split; [apply lookup_insert_eq|].
  split; [done|]. split; [done|].
  split; [intros a Ha; by apply lookup_insert_ne|].
  split; [intros a Ha; by apply lookup_insert_ne|].
  done.
Qed.

Lemma new_XRootDMsgHandler_links_witness :
  ∃ this h hp',
    new_XRootDMsgHandler 1 (Some 9%positive) origin (Some 1%positive) None
      (heap_with_request 7)
    = Some (this, hp')
    ∧ msgHandlers hp' !! this = Some h
    ∧ handlerRefs hp' !! pRef h = Some (MsgHandlerRef.make (Some this)).
Proof.
  destruct (new_XRootDMsgHandler_links 1 (Some 9%positive) origin
              (Some 1%positive) None (heap_with_request 7) (open_request 7)
              eq_refl)
    as (this & h & hp' & E & _ & _ & E1 & E2 & _).
  by exists this, h, hp'.
Defined.

(** X14.  Deleting a handler right after it was constructed gives back the
    heap of before the construction, except that the request is freed when
    it carries no session id: handlers, counted references, host lists and
    SID managers are exactly as before. *)
Theorem new_then_delete (msg : positive) (respHandler : ptr) (url : URL)
    (sidMgr lFileHandler : ptr) (hp : Heap) (m : Message) (this : positive)
    (hp' : Heap) :
  messages hp !! msg = Some m →
  new_XRootDMsgHandler msg respHandler url sidMgr lFileHandler hp
  = Some (this, hp') →
  delete_XRootDMsgHandler this hp'
  = if GetSessionId m =? 0 then delete_Message (Some msg) hp else hp.
Proof.
  intros Hm Hnew. destruct hp as [M L R H S]. cbn [messages] in Hm.
  rewrite (new_XRootDMsgHandler_eq _ _ _ _ _ m) in Hnew by done.
  injection Hnew as <- <-.
  unfold delete_XRootDMsgHandler.
  cbn [messages hostLists handlerRefs msgHandlers sidManagers].
  rewrite lookup_insert_eq.
  unfold XRootDMsgHandler_dtor, MsgHandlerRef_Free_at.
  cbn [pRef pHasSessionId pResponse pPartialResps pRequest
       XRootDMsgHandler_members foldl delete_Message
       messages hostLists handlerRefs msgHandlers sidManagers].
  rewrite lookup_insert_eq.
  change (MsgHandlerRef.Free (MsgHandlerRef.make (Some (fresh (dom H)))))
    with (@None MsgHandlerRef.cell).
  unfold set_handlerRefs, set_msgHandlers, set_messages.
  destruct (GetSessionId m =? 0); cbn [negb messages hostLists handlerRefs
    msgHandlers sidManagers];
    rewrite !delete_insert_id by apply fresh_lookup_None; reflexivity.
Qed.

Lemma new_then_delete_witness :
  delete_XRootDMsgHandler 1
    {| messages := {[ 1%positive := open_request 7 ]};
       hostLists := ∅;
       handlerRefs := {[ 1%positive := MsgHandlerRef.make (Some 1%positive) ]};
       msgHandlers := {[ 1%positive := example_handler 7 ]};
       sidManagers := {[ 1%positive := {| allocatedSIDs := {[ 5 ]} |} ]} |}
  = heap_with_request 7.
Proof.
  apply (new_then_delete 1 (Some 9%positive) origin (Some 1%positive) None
           (heap_with_request 7) (open_request 7) 1).
  - reflexivity.
  - vm_compute. reflexivity.
Defined.

(** X15.  Deleting a handler removes the handler and nothing else of its
    kind; it frees no host list, so the list the handler points to stays on
    the heap, and it changes no SID manager, so the stream id of the request
    stays allocated. *)
Theorem delete_XRootDMsgHandler_keeps (p : positive) (hp : Heap)
    (h : XRootDMsgHandler) :
  msgHandlers hp !! p = Some h →
  let hp' := delete_XRootDMsgHandler p hp in
  msgHandlers hp' = delete p (msgHandlers hp)
  ∧ hostLists hp' = hostLists hp
  ∧ sidManagers hp' = sidManagers hp
  ∧ (∀ l, pHosts h = Some l → hostLists hp' !! l = hostLists hp !! l).
Proof.
  intros Hh hp'. subst hp'. unfold delete_XRootDMsgHandler. rewrite Hh.
  destruct (dtor_frame h hp) as (E1 & E2 & E3 & _).
  cbn [set_msgHandlers msgHandlers hostLists sidManagers].
  rewrite E1, E2, E3. by repeat split.
Qed.

Lemma delete_XRootDMsgHandler_keeps_witness :
  hostLists (delete_XRootDMsgHandler 1 busy_heap) !! 4%positive
  = Some [HostInfo_of origin false]
  ∧ msgHandlers (delete_XRootDMsgHandler 1 busy_heap) = ∅.
Proof.
  destruct (delete_XRootDMsgHandler_keeps 1 busy_heap busy_handler eq_refl)
    as (E1 & E2 & _ & _).
  split.
  - rewrite E2. reflexivity.
  - rewrite E1. vm_compute. reflexivity.
Defined.

(** X16.  Deleting a handler deletes exactly the messages the handler owns:
    the response, every partial response, and the request unless it carries
    a session id.  Every other message of the heap stays as it was. *)
Theorem delete_XRootDMsgHandler_messages (p : positive) (hp : Heap)
    (h : XRootDMsgHandler) (a : positive) :
  msgHandlers hp !! p = Some h →
  messages (delete_XRootDMsgHandler p hp) !! a
  = if decide (a ∈ dtor_deletes h) then None else messages hp !! a.
Proof.
  intros Hh. unfold delete_XRootDMsgHandler. rewrite Hh.
  cbn [set_msgHandlers messages]. apply messages_dtor.
Qed.

Lemma delete_XRootDMsgHandler_messages_witness :
  messages (delete_XRootDMsgHandler 1 busy_heap) !! 3%positive = None
  ∧ messages (delete_XRootDMsgHandler 1 busy_heap) !! 6%positive
    = Some (open_request 0)
  ∧ messages (delete_XRootDMsgHandler 1 busy_heap) !! 1%positive
    = Some (open_request 7).
Proof.
  split; [|split].
  - rewrite (delete_XRootDMsgHandler_messages 1 busy_heap busy_handler 3
               eq_refl). reflexivity.
  - rewrite (delete_XRootDMsgHandler_messages 1 busy_heap busy_handler 6
               eq_refl). reflexivity.
  - rewrite (delete_XRootDMsgHandler_messages 1 busy_heap busy_handler 1
               eq_refl). reflexivity.
Defined.

(** X17.  The destructor releases the handler's own reference and does not
    invalidate the cell.  When the handler held the only reference the cell
    is deleted with it; otherwise the count goes down by one and the pointer
    in the cell stays: a holder that kept its reference still finds the cell
    valid and reads the address of the deleted handler through it, unless
    [Invalidate] was called before.  No other cell is touched. *)
Theorem delete_XRootDMsgHandler_cell (p : positive) (hp : Heap)
    (h : XRootDMsgHandler) (c : MsgHandlerRef.cell) :
  msgHandlers hp !! p = Some h →
  handlerRefs hp !! pRef h = Some c →
  1 ≤ MsgHandlerRef.count c ≤ 65535 →
  let hp' := delete_XRootDMsgHandler p hp in
  (MsgHandlerRef.count c = 1 →
   handlerRefs hp' = delete (pRef h) (handlerRefs hp))
  ∧ (MsgHandlerRef.count c ≠ 1 →
     handlerRefs hp'
     = <[pRef h := {| MsgHandlerRef.ref := MsgHandlerRef.ref c;
                      MsgHandlerRef.count := MsgHandlerRef.count c - 1 |}]>
         (handlerRefs hp))
  ∧ (∀ a, a ≠ pRef h → handlerRefs hp' !! a = handlerRefs hp !! a)
  ∧ (MsgHandlerRef.count c ≠ 1 → MsgHandlerRef.ref c = Some p →
     ∃ c', handlerRefs hp' !! pRef h = Some c'
           ∧ MsgHandlerRef.to_bool c' = true
           ∧ MsgHandlerRef.arrow c' = Some p
           ∧ msgHandlers hp' !! p = None).
Proof.
  intros Hh Hc Hcount hp'. subst hp'.
  unfold delete_XRootDMsgHandler. rewrite Hh.
  cbn [set_msgHandlers handlerRefs msgHandlers].
  destruct (dtor_frame h hp) as (_ & E2 & _ & E4). rewrite E4, E2.
  unfold MsgHandlerRef_Free_at. rewrite Hc.
  unfold MsgHandlerRef.Free. cbn [MsgHandlerRef.count].
  rewrite wrap16_small by lia.
  destruct (Z.eqb_spec (MsgHandlerRef.count c - 1) 0) as [E|E];
    cbn [set_handlerRefs handlerRefs].
  - split; [done|]. split; [lia|].
    split; [intros a Ha; by apply lookup_delete_ne|]. lia.
  - split; [lia|]. split; [done|].
    split; [intros a Ha; by apply lookup_insert_ne|].
    intros _ Href. eexists. split; [apply lookup_insert_eq|].
    unfold MsgHandlerRef.to_bool, MsgHandlerRef.arrow.
    cbn [MsgHandlerRef.ref]. rewrite Href.
    split; [done|]. split; [done|]. apply lookup_delete_eq.
Qed.

(** The example handler with a second holder of its cell. *)
Lemma delete_XRootDMsgHandler_cell_witness :
  ∃ c', handlerRefs
          (delete_XRootDMsgHandler 1
             (set_handlerRefs
                {[ 1%positive :=
                     MsgHandlerRef.Self (MsgHandlerRef.make (Some 1%positive))
                ]} busy_heap)) !! 1%positive = Some c'
        ∧ MsgHandlerRef.to_bool c' = true
        ∧ MsgHandlerRef.arrow c' = Some 1%positive
        ∧ msgHandlers
            (delete_XRootDMsgHandler 1
               (set_handlerRefs
                  {[ 1%positive :=
                       MsgHandlerRef.Self
                         (MsgHandlerRef.make (Some 1%positive)) ]}
                  busy_heap)) !! 1%positive = None.
Proof.
  apply (delete_XRootDMsgHandler_cell 1
           (set_handlerRefs
              {[ 1%positive :=
                   MsgHandlerRef.Self (MsgHandlerRef.make (Some 1%positive))
              ]} busy_heap)
           busy_handler
           (MsgHandlerRef.Self (MsgHandlerRef.make (Some 1%positive)))).
  - reflexivity.
  - reflexivity.
  - vm_compute. split; discriminate.
  - vm_compute. discriminate.
  - reflexivity.
Defined.

(** X18.  [SetHostList] frees the list the handler held and makes the
    handler hold the new one; every other field of the handler, every other
    handler and every other host list stay as they were.  The old list is
    freed also when it is the list that is passed in: after
    [SetHostList( pHosts )] the handler points to a freed list. *)
Theorem SetHostList_replaces (p : positive) (hostList : ptr) (hp : Heap)
    (h : XRootDMsgHandler) :
  msgHandlers hp !! p = Some h →
  let hp' := SetHostList_at p hostList hp in
  msgHandlers hp' !! p = Some (set_pHosts hostList h)
  ∧ pHosts (set_pHosts hostList h) = hostList
  ∧ (∀ o, pHosts h = Some o → hostLists hp' !! o = None)
  ∧ (∀ a, pHosts h ≠ Some a → hostLists hp' !! a = hostLists hp !! a)
  ∧ (∀ q, q ≠ p → msgHandlers hp' !! q = msgHandlers hp !! q)
  ∧ messages hp' = messages hp
  ∧ handlerRefs hp' = handlerRefs hp
  ∧ sidManagers hp' = sidManagers hp.
Proof.
  intros Hh hp'. subst hp'. unfold SetHostList_at. rewrite Hh.
  unfold call_on.
  assert (E : msgHandlers (delete_HostList (pHosts h) hp) = msgHandlers hp
              ∧ messages (delete_HostList (pHosts h) hp) = messages hp
              ∧ handlerRefs (delete_HostList (pHosts h) hp) = handlerRefs hp
              ∧ sidManagers (delete_HostList (pHosts h) hp) = sidManagers hp).
  { by destruct (pHosts h). }
  destruct E as (E1 & E2 & E3 & E4).
  cbn [set_msgHandlers messages hostLists handlerRefs msgHandlers
       sidManagers].
  rewrite E1, E2, E3, E4.
  split. { rewrite lookup_alter_eq, Hh. done. }
  split; [done|].
  split. { intros o ->. cbn. apply lookup_delete_eq. }
  split. { intros a Ha. destruct (pHosts h) as [o|]; [|done]. cbn.
           apply lookup_delete_ne. congruence. }
  split. { intros q Hq. by apply lookup_alter_ne. }
  done.
Qed.

(** The handler holds list 4 and is given list 4 again. *)
Lemma SetHostList_replaces_witness :
  (pHosts <$> msgHandlers (SetHostList_at 1 (Some 4%positive) busy_heap)
                !! 1%positive) = Some (Some 4%positive)
  ∧ hostLists (SetHostList_at 1 (Some 4%positive) busy_heap) !! 4%positive
    = None.
Proof.
  destruct (SetHostList_replaces 1 (Some 4%positive) busy_heap busy_handler
              eq_refl) as (E1 & _ & E3 & _).
  split.
  - rewrite E1. reflexivity.
  - apply E3. reflexivity.
Defined.

(** ** SendMessage: every way out *)

Section SendMessage_outcomes.
Import MessageUtils.

(** The ways out of SendMessage. *)
Lemma SendMessage_cases env url msg handler sendParams lFileHandler w st w' :
  SendMessage env url msg handler sendParams lFileHandler w = Some (st, w') →
  (GetPostMaster env = None
   ∧ st = {| status := stError; code := errUninitialized |} ∧ w' = w)
  ∨ ∃ postMaster st0 sidMgr,
      GetPostMaster env = Some postMaster
      ∧ QueryTransport postMaster url = (st0, sidMgr)
      ∧ ((IsOK st0 = false ∧ st = st0
          ∧ w' = log_call (CallQueryTransport url) w)
         ∨ (IsOK st0 = true
            ∧ ∃ mgr req,
                sidManagers (heap w) !! sidMgr = Some mgr
                ∧ messages (heap w) !! msg = Some req
                ∧ ((pickSID env (allocatedSIDs mgr) = None
                    ∧ st = {| status := stError; code := errNoMoreFreeSIDs |}
                    ∧ w' = log_call
                             (CallAllocateSID sidMgr (streamid (header req)))
                             (log_call (CallQueryTransport url) w))
                   ∨ ∃ sid,
                       pickSID env (allocatedSIDs mgr) = Some sid
                       ∧ let mgr' := {| allocatedSIDs :=
                                          {[ sid ]} ∪ allocatedSIDs mgr |} in
                         let m1 := MarshallRequest env (set_streamid sid req)
                         in
                         let hp_s := heap_at_send env url msg handler
                                       sendParams lFileHandler sidMgr mgr' m1
                                       (heap w) in
                         let mh := fresh (dom (msgHandlers (heap w))) in
                         let st1 := Send postMaster url msg mh
                                      (stateful sendParams)
                                      (expires sendParams) hp_s in
                         let sent := CallSend url msg mh hp_s
                                     :: CallMarshallRequest msg
                                     :: CallAllocateSID sidMgr sid
                                     :: CallQueryTransport url :: calls w in
                         (IsOK st1 = true ∧ st = Status_default
                          ∧ w' = {| heap := hp_s; calls := sent |})
                         ∨ (IsOK st1 = false ∧ st = st1
                            ∧ w' = {| heap := heap_after_failed_send env msg
                                               sidMgr mgr' m1 (heap w);
                                      calls :=
                                        CallReleaseSID sidMgr
                                          (streamid
                                             (header
                                                (UnMarshallRequest env m1)))
                                        :: CallUnMarshallRequest msg :: sent
                                   |})))).
Proof.
  intros E.
  destruct (GetPostMaster env) as [postMaster|] eqn:Hpm;
    [|unfold SendMessage in E; rewrite Hpm in E; left;
      by injection E as <- <-].
  right. destruct (QueryTransport postMaster url) as [st0 sidMgr] eqn:Hq.
  exists postMaster, st0, sidMgr. split; [done|]. split; [done|].
  destruct (IsOK st0) eqn:Hok;
    [|unfold SendMessage in E; rewrite Hpm, Hq, Hok in E; cbn [negb] in E;
      left; by injection E as <- <-].
  right. split; [done|].
  destruct (sidManagers (heap w) !! sidMgr) as [mgr|] eqn:Hmgr;
    [|unfold SendMessage in E; rewrite Hpm, Hq, Hok in E;
      cbn [negb log_call heap] in E; by rewrite Hmgr in E].
  destruct (messages (heap w) !! msg) as [req|] eqn:Hreq;
    [|unfold SendMessage in E; rewrite Hpm, Hq, Hok in E;
      cbn [negb log_call heap] in E; by rewrite Hmgr, Hreq in E].
  exists mgr, req. split; [done|]. split; [done|].
  destruct (pickSID env (allocatedSIDs mgr)) as [sid|] eqn:Hpick;
    [|unfold SendMessage in E; rewrite Hpm, Hq, Hok in E;
      cbn [negb log_call heap] in E; rewrite Hmgr, Hreq in E;
      cbn [mbind option_bind] in E; unfold SIDManager_AllocateSID in E;
      rewrite Hpick in E; cbn [IsOK status negb] in E;
      left; by injection E as <- <-].
  right. exists sid. split; [done|].
  rewrite (SendMessage_eq env postMaster url msg handler sendParams
             lFileHandler w st0 sidMgr mgr req sid) in E by done.
  cbn zeta in E |- *.
  destruct (IsOK (Send _ _ _ _ _ _ _)) eqn:Hsend in E |- *.
  - left. by injection E as <- <-.
  - right. by injection E as <- <-.
Qed.

End SendMessage_outcomes.

(** X19.  Whenever SendMessage returns a status that is not OK, whichever
    step failed, it leaves no handler, no counted reference and no host list
    behind: the three stores are as they were before the call, and every
    message other than the request is untouched. *)
Theorem SendMessage_failure_no_leak (env : Env) (url : URL) (msg : positive)
    (handler : ptr) (sendParams : MessageSendParams) (lFileHandler : ptr)
    (w : World) (st : Status) (w' : World) :
  MessageUtils.SendMessage env url msg handler sendParams lFileHandler w
  = Some (st, w') →
  IsOK st = false →
  msgHandlers (heap w') = msgHandlers (heap w)
  ∧ handlerRefs (heap w') = handlerRefs (heap w)
  ∧ hostLists (heap w') = hostLists (heap w)
  ∧ (∀ a, a ≠ msg → messages (heap w') !! a = messages (heap w) !! a).
Proof.
  intros E Hst.
  destruct (SendMessage_cases _ _ _ _ _ _ _ _ _ E)
    as [(_ & _ & ->)
       |(pm & st0 & sidMgr & _ & _ &
         [(_ & _ & ->)
         |(_ & mgr & req & _ & _ &
           [(_ & _ & ->)|(sid & _ & [(Hs & -> & _)|(_ & _ & ->)])])])];
    try done.
  cbn [heap heap_after_failed_send messages hostLists handlerRefs
       msgHandlers].
  repeat split. intros a Ha.
  destruct (negb _); [by apply lookup_insert_ne | by apply lookup_delete_ne].
Qed.

(** No stream id is free: the call fails before a handler is built. *)
Lemma SendMessage_failure_no_leak_witness :
  ∃ w',
    MessageUtils.SendMessage exhausted_env origin 1 (Some 9%positive)
      example_params None (example_world 7)
    = Some ({| status := stError; code := errNoMoreFreeSIDs |}, w')
    ∧ msgHandlers (heap w') = msgHandlers (heap (example_world 7))
    ∧ handlerRefs (heap w') = handlerRefs (heap (example_world 7))
    ∧ hostLists (heap w') = hostLists (heap (example_world 7)).
Proof.
  eexists. split; [vm_compute; reflexivity|].
  destruct (SendMessage_failure_no_leak exhausted_env origin 1
              (Some 9%positive) example_params None (example_world 7)
              {| status := stError; code := errNoMoreFreeSIDs |}
              (log_call (CallAllocateSID 1 0)
                 (log_call (CallQueryTransport origin) (example_world 7))))
    as (E1 & E2 & E3 & _).
  - vm_compute. reflexivity.
  - reflexivity.
  - by repeat split.
Defined.

(** X20.  The early ways out of SendMessage.  Without a PostMaster it
    returns [errUninitialized] and has done nothing.  When the transport
    query fails it returns the status of the query, has made that one call
    and has not touched the heap: no stream id was allocated and the request
    was not marshalled.  And the only OK status it ever returns is the
    default status, whatever OK status [PostMaster::Send] gave. *)
Theorem SendMessage_early_exits (env : Env) (url : URL) (msg : positive)
    (handler : ptr) (sendParams : MessageSendParams) (lFileHandler : ptr)
    (w : World) (st : Status) (w' : World) :
  MessageUtils.SendMessage env url msg handler sendParams lFileHandler w
  = Some (st, w') →
  (GetPostMaster env = None →
   st = {| status := stError; code := errUninitialized |} ∧ w' = w)
  ∧ (∀ postMaster st0 sidMgr,
       GetPostMaster env = Some postMaster →
       QueryTransport postMaster url = (st0, sidMgr) →
       IsOK st0 = false →
       st = st0 ∧ heap w' = heap w
       ∧ calls w' = CallQueryTransport url :: calls w)
  ∧ (IsOK st = true → st = Status_default)
  ∧ (IsOK st = true → ∃ postMaster, GetPostMaster env = Some postMaster).
Proof.
  intros E.
  destruct (SendMessage_cases _ _ _ _ _ _ _ _ _ E)
    as [(Hpm & -> & ->)
       |(pm & st0 & sidMgr & Hpm & Hq &
         [(Hok & -> & ->)
         |(Hok & mgr & req & _ & _ &
           [(_ & -> & ->)|(sid & _ & [(Hs & -> & ->)|(Hs & -> & ->)])])])].
  - split; [done|]. split; [intros ? ? ? Hpm'; congruence|]. done.
  - split; [congruence|]. split.
    + intros pm' st0' sidMgr' Hpm' Hq' _.
      assert (pm' = pm) as -> by congruence.
      rewrite Hq in Hq'. by injection Hq' as <- <-.
    + split; [congruence|]. intros _. by exists pm.
  - split; [congruence|]. split.
    + intros pm' st0' sidMgr' Hpm' Hq' Hok'.
      assert (pm' = pm) as -> by congruence. congruence.
    + done.
  - split; [congruence|]. split.
    + intros pm' st0' sidMgr' Hpm' Hq' Hok'.
      assert (pm' = pm) as -> by congruence. congruence.
    + split; [done|]. intros _. by exists pm.
  - split; [congruence|]. split.
    + intros pm' st0' sidMgr' Hpm' Hq' Hok'.
      assert (pm' = pm) as -> by congruence. congruence.
    + split; [congruence|]. intros _. by exists pm.
Qed.

Lemma SendMessage_early_exits_witness :
  MessageUtils.SendMessage uninitialized_env origin 1 (Some 9%positive)
    example_params None (example_world 7)
  = Some ({| status := stError; code := errUninitialized |}, example_world 7).
Proof.
  destruct (MessageUtils.SendMessage uninitialized_env origin 1
              (Some 9%positive) example_params None (example_world 7))
    as [[st w']|] eqn:E; [|by vm_compute in E].
  destruct (SendMessage_early_exits uninitialized_env origin 1
              (Some 9%positive) example_params None (example_world 7) st w' E)
    as (E1 & _).
  destruct (E1 eq_refl) as [-> ->]. reflexivity.
Defined.

(** X21.  When SendMessage succeeds, the handler it handed to
    [PostMaster::Send] sits at an address that was free, is the last thing
    sent, and is configured from the send parameters: expiration, redirect
    limit (in 16 bits), statefulness, chunk list with one fresh status per
    chunk, redirects answered rather than followed exactly when
    [followRedirects] is off, and the load balancer exactly when its URL is
    valid.  It answers to the caller's response handler, remembers the SID
    manager of the transport, does not follow metalinks, and its counted
    reference holds its address with count 1. *)
Theorem SendMessage_success_configures (env : Env) (url : URL)
    (msg : positive) (handler : ptr) (sendParams : MessageSendParams)
    (lFileHandler : ptr) (w : World) (st : Status) (w' : World) :
  MessageUtils.SendMessage env url msg handler sendParams lFileHandler w
  = Some (st, w') →
  IsOK st = true →
  ∃ mh h postMaster sidMgr,
    msgHandlers (heap w) !! mh = None
    ∧ msgHandlers (heap w') !! mh = Some h
    ∧ head (calls w') = Some (CallSend url msg mh (heap w'))
    ∧ GetPostMaster env = Some postMaster
    ∧ (QueryTransport postMaster url).2 = sidMgr
    ∧ pSidMgr h = Some sidMgr
    ∧ pRequest h = msg ∧ pUrl h = url
    ∧ pResponseHandler h = handler ∧ pLFileHandler h = lFileHandler
    ∧ pExpiration h = expires sendParams
    ∧ pRedirectCounter h = redirectLimit sendParams mod 65536
    ∧ pStateful h = stateful sendParams
    ∧ pRedirectAsAnswer h = negb (followRedirects sendParams)
    ∧ pChunkList h = chunkList sendParams
    ∧ pChunkStatus h
      = replicate (from_option List.length 0%nat (chunkList sendParams))
          ChunkStatus_default
    ∧ pHasLoadBalancer h
      = IsValid (urlOps env) (hi_url (sp_loadBalancer sendParams))
    ∧ (pHasLoadBalancer h = true →
       pLoadBalancer h = sp_loadBalancer sendParams)
    ∧ pFollowMetalink h = false
    ∧ pMsgInFly h = false
    ∧ handlerRefs (heap w) !! pRef h = None
    ∧ handlerRefs (heap w') !! pRef h = Some (MsgHandlerRef.make (Some mh)).
Proof.
  intros E Hst.
  destruct (SendMessage_cases _ _ _ _ _ _ _ _ _ E)
    as [(_ & -> & _)
       |(pm & st0 & sidMgr & Hpm & Hq &
         [(Hok & -> & _)
         |(_ & mgr & req & _ & _ &
           [(_ & -> & _)|(sid & _ & [(Hs & _ & ->)|(Hs & -> & _)])])])];
    try done; try congruence.
  eexists _, _, pm, sidMgr.
  cbn [heap calls heap_at_send messages hostLists handlerRefs msgHandlers
       sidManagers head].
  split; [apply fresh_lookup_None|].
  split; [apply lookup_insert_eq|].
  split; [reflexivity|]. split; [done|]. split; [by rewrite Hq|].
  unfold handler_at_send, SetLoadBalancer, SetChunkList, SetExpiration,
    SetRedirectAsAnswer, SetRedirectCounter, SetStateful, wrap16.
  destruct (IsValid (urlOps env) (hi_url (sp_loadBalancer sendParams)));
    destruct (chunkList sendParams) as [cl|];
    cbn -[Z.modulo fresh];
    repeat (split; [first [reflexivity | done | apply resize_nil]|]);
    try (split; [apply fresh_lookup_None | apply lookup_insert_eq]).
Qed.

(** A read of one chunk through a load balancer, redirects not followed. *)
Lemma SendMessage_success_configures_witness :
  ∃ w' h,
    MessageUtils.SendMessage (example_env Status_default) origin 1
      (Some 9%positive) full_params None (example_world 7)
    = Some (Status_default, w')
    ∧ msgHandlers (heap w') !! 1%positive = Some h
    ∧ pRedirectCounter h = 16
    ∧ pChunkStatus h = [ChunkStatus_default]
    ∧ pHasLoadBalancer h = true.
Proof.
  destruct (MessageUtils.SendMessage (example_env Status_default) origin 1
              (Some 9%positive) full_params None (example_world 7))
    as [[st w']|] eqn:E; [|by vm_compute in E].
  assert (Hst : st = Status_default).
  { vm_compute in E. by injection E as <- _. }
  subst st.
  destruct (SendMessage_success_configures (example_env Status_default)
              origin 1 (Some 9%positive) full_params None (example_world 7)
              Status_default w' E eq_refl)
    as (mh & h & pm & sidMgr & Hfree & Hh & _ & _ & _ & _ & _ & _ & _ & _ & _
        & Hc & _ & _ & _ & Hcs & Hlb & _).
  assert (mh = 1%positive) as ->.
  { vm_compute in E. injection E as <-. vm_compute in Hh.
    clear -Hh Hfree.
    destruct mh as [mh|mh|]; [| |reflexivity]; vm_compute in Hh;
      discriminate. }
  exists w', h. split; [reflexivity|]. split; [exact Hh|].
  split; [exact Hc|]. split; [exact Hcs|exact Hlb].
Defined.

(** X22.  When SendMessage succeeds it has added exactly one handler, one
    counted reference and one host list, each at an address that was free,
    and has kept every object that was there: the other handlers,
    references, lists, messages and SID managers are untouched.  The request
    it leaves at [msg] is the caller's request with the allocated stream id
    written in and then marshalled, and it made four calls, in this order:
    the transport query, the allocation of the stream id, the marshalling,
    and the send. *)
Theorem SendMessage_success_frame (env : Env) (url : URL) (msg : positive)
    (handler : ptr) (sendParams : MessageSendParams) (lFileHandler : ptr)
    (w : World) (st : Status) (w' : World) :
  MessageUtils.SendMessage env url msg handler sendParams lFileHandler w
  = Some (st, w') →
  IsOK st = true →
  ∃ mh r list sidMgr sid req,
    ((mh ∉ dom (msgHandlers (heap w)))
     ∧ dom (msgHandlers (heap w')) = {[ mh ]} ∪ dom (msgHandlers (heap w))
     ∧ ∀ a, a ≠ mh → msgHandlers (heap w') !! a = msgHandlers (heap w) !! a)
    ∧ ((r ∉ dom (handlerRefs (heap w)))
       ∧ dom (handlerRefs (heap w')) = {[ r ]} ∪ dom (handlerRefs (heap w))
       ∧ ∀ a, a ≠ r → handlerRefs (heap w') !! a = handlerRefs (heap w) !! a)
    ∧ ((list ∉ dom (hostLists (heap w)))
       ∧ dom (hostLists (heap w')) = {[ list ]} ∪ dom (hostLists (heap w))
       ∧ ∀ a, a ≠ list → hostLists (heap w') !! a = hostLists (heap w) !! a)
    ∧ messages (heap w) !! msg = Some req
    ∧ messages (heap w') !! msg
      = Some (MarshallRequest env (set_streamid sid req))
    ∧ (∀ a, a ≠ msg → messages (heap w') !! a = messages (heap w) !! a)
    ∧ (∀ a, a ≠ sidMgr →
         sidManagers (heap w') !! a = sidManagers (heap w) !! a)
    ∧ calls w'
      = CallSend url msg mh (heap w') :: CallMarshallRequest msg
        :: CallAllocateSID sidMgr sid :: CallQueryTransport url :: calls w.
Proof.
  intros E Hst.
  destruct (SendMessage_cases _ _ _ _ _ _ _ _ _ E)
    as [(_ & -> & _)
       |(pm & st0 & sidMgr & Hpm & Hq &
         [(Hok & -> & _)
         |(_ & mgr & req & _ & Hreq &
           [(_ & -> & _)|(sid & _ & [(Hs & _ & ->)|(Hs & -> & _)])])])];
    try done; try congruence.
  exists (fresh (dom (msgHandlers (heap w)))),
    (fresh (dom (handlerRefs (heap w)))),
    (fresh (dom (hostLists (heap w)))), sidMgr, sid, req.
  cbn [heap calls heap_at_send messages hostLists handlerRefs msgHandlers
       sidManagers].
  split; [|split; [|split]];
    try (split; [apply is_fresh|];
         split; [apply dom_insert_L|];
         intros a Ha; by apply lookup_insert_ne).
  split; [done|]. split; [apply lookup_insert_eq|].
  split; [intros a Ha; by apply lookup_insert_ne|].
  split; [intros a Ha; by apply lookup_insert_ne|]. reflexivity.
Qed.

(** The example request is sent on a heap that already holds a handler. *)
Lemma SendMessage_success_frame_witness :
  ∃ w',
    MessageUtils.SendMessage (example_env Status_default) origin 1
      (Some 9%positive) example_params None
      {| heap := example_heap 7; calls := [] |}
    = Some (Status_default, w')
    ∧ length (calls w') = 4%nat
    ∧ handlerRefs (heap w') !! 1%positive
      = Some (MsgHandlerRef.make (Some 1%positive)).
Proof.
  destruct (MessageUtils.SendMessage (example_env Status_default) origin 1
              (Some 9%positive) example_params None
              {| heap := example_heap 7; calls := [] |})
    as [[st w']|] eqn:E; [|by vm_compute in E].
  assert (Hst : st = Status_default).
  { vm_compute in E. by injection E as <- _. }
  subst st.
  destruct (SendMessage_success_frame (example_env Status_default) origin 1
              (Some 9%positive) example_params None
              {| heap := example_heap 7; calls := [] |} Status_default w' E
              eq_refl)
    as (mh & r & list & sidMgr & sid & req & _ & (Hr & _ & Hrefs) & _ & _ & _
        & _ & _ & Hcalls).
  exists w'. split; [reflexivity|]. split; [by rewrite Hcalls|].
  rewrite Hrefs; [reflexivity|].
  intros Heq. subst r. apply Hr. vm_compute. reflexivity.
Defined.

(** ** RedirectMessage *)

Section RedirectMessage_facts.
Import MessageUtils.

Lemma handler_at_redirect_fields env url msg handler sendParams lFileHandler
    b r list :
  let h := handler_at_redirect env url msg handler sendParams lFileHandler
             b r list in
  pRequest h = msg ∧ pResponse h = None ∧ pPartialResps h = []
  ∧ pHasSessionId h = b ∧ pRef h = r ∧ pHosts h = Some list.
Proof.
  unfold handler_at_redirect, SetLoadBalancer, SetChunkList.
  repeat match goal with
         | |- context [if ?b then _ else _] => destruct b
         | |- context [match ?o with Some _ => _ | None => _ end] =>
             destruct o
         end; cbn; repeat split; reflexivity.
Qed.

Lemma RedirectMessage_setup_eq env url msg handler sendParams lFileHandler
    m M L R H S :
  M !! msg = Some m →
  RedirectMessage_setup env url msg handler sendParams lFileHandler
    {| messages := M; hostLists := L; handlerRefs := R; msgHandlers := H;
       sidManagers := S |}
  = Some (fresh (dom H), fresh (dom L),
          {| messages := M;
             hostLists := <[fresh (dom L) := [HostInfo_of url true]]> L;
             handlerRefs :=
               <[fresh (dom R) := MsgHandlerRef.make (Some (fresh (dom H)))]>
                 R;
             msgHandlers :=
               <[fresh (dom H) :=
                   handler_at_redirect env url msg handler sendParams
                     lFileHandler (negb (GetSessionId m =? 0))
                     (fresh (dom R)) (fresh (dom L))]> H;
             sidManagers := S |}).
Proof.
  intros Hm. unfold RedirectMessage_setup.
  rewrite (new_XRootDMsgHandler_eq _ _ _ _ _ m) by exact Hm.
  set (h0 := XRootDMsgHandler_members _ _ _ _ _ _ _).
  set (mh := fresh (dom H)). set (r := fresh (dom R)).
  cbn [mbind option_bind].
  rewrite !call_on_insert.
  unfold handler_at_redirect. fold h0.
  match goal with
  | |- context [<[mh := ?h]> H] => set (h1 := h)
  end.
  assert (pHosts h1 = None) as Hh1.
  { subst h1 h0. unfold SetLoadBalancer, SetChunkList.
    repeat match goal with
           | |- context [if ?b then _ else _] => destruct b
           | |- context [match ?o with Some _ => _ | None => _ end] =>
               destruct o
           end; reflexivity. }
  unfold SetHostList_at, set_hostLists.
  cbn [messages hostLists handlerRefs msgHandlers sidManagers].
  rewrite lookup_insert_eq, Hh1, alter_insert_eq. cbn [delete_HostList].
  rewrite call_on_insert. reflexivity.
Qed.

(** RedirectMessage once the URL is registered and the PostMaster exists:
    both outcomes of the redirect, in closed form. *)
Lemma RedirectMessage_eq env rd url msg handler sendParams lFileHandler hp
    postMaster req :
  IsOK (Registry_Register rd url) = true →
  GetPostMaster env = Some postMaster →
  messages hp !! msg = Some req →
  let m1 := MarshallRequest env req in
  let hp_r := heap_at_redirect env url msg handler sendParams lFileHandler m1
                hp in
  let mh := fresh (dom (msgHandlers hp)) in
  let st := PostMaster_Redirect rd url msg mh hp_r in
  RedirectMessage env rd url msg handler sendParams lFileHandler hp
  = if IsOK st
    then Some (Status_default, set_loadBalancer (HostInfo_of url true)
                                 sendParams, hp_r)
    else Some (st, set_loadBalancer (HostInfo_of url true) sendParams,
               {| messages :=
                    if negb (GetSessionId m1 =? 0)
                    then <[msg := UnMarshallRequest env m1]> (messages hp)
                    else delete msg (messages hp);
                  hostLists := hostLists hp; handlerRefs := handlerRefs hp;
                  msgHandlers := msgHandlers hp;
                  sidManagers := sidManagers hp |}).
Proof.
  intros Hreg Hpm Hreq m1 hp_r mh st.
  destruct hp as [M L R H S]. unfold heap_at_redirect in hp_r.
  cbn [messages hostLists handlerRefs msgHandlers sidManagers] in *.
  unfold RedirectMessage. rewrite Hreg, Hpm.
  cbn [negb messages hostLists handlerRefs msgHandlers sidManagers].
  rewrite Hreq. cbn [mbind option_bind].
  assert (EM : alter (MarshallRequest env) msg M = <[msg := m1]> M).
  { apply map_eq. intros a. destruct (decide (a = msg)) as [->|Hne].
    - by rewrite lookup_alter_eq, lookup_insert_eq, Hreq.
    - by rewrite lookup_alter_ne, lookup_insert_ne. }
  rewrite EM.
  change (set_messages (<[msg := m1]> M)
            {| messages := M; hostLists := L; handlerRefs := R;
               msgHandlers := H; sidManagers := S |})
    with {| messages := <[msg := m1]> M; hostLists := L; handlerRefs := R;
            msgHandlers := H; sidManagers := S |}.
  rewrite (RedirectMessage_setup_eq _ _ _ _ _ _ m1)
    by apply lookup_insert_eq.
  cbn [mbind option_bind].
  change {| messages := <[msg:=m1]> M;
            hostLists := <[fresh (dom L):=[HostInfo_of url true]]> L;
            handlerRefs :=
              <[fresh (dom R):=MsgHandlerRef.make (Some (fresh (dom H)))]> R;
            msgHandlers :=
              <[fresh (dom H):=
                  handler_at_redirect env url msg handler sendParams
                    lFileHandler (negb (GetSessionId m1 =? 0))
                    (fresh (dom R)) (fresh (dom L))]> H;
            sidManagers := S |} with hp_r.
  change (fresh (dom H)) with mh. fold st.
  destruct (IsOK st); cbn [negb]; [reflexivity|].
  f_equal. f_equal.
  subst hp_r.
  pose proof (handler_at_redirect_fields env url msg handler sendParams
                lFileHandler (negb (GetSessionId m1 =? 0))
                (fresh (dom R)) (fresh (dom L)))
    as (Hf1 & Hf2 & Hf3 & Hf4 & Hf5 & _).
  cbn zeta in Hf1, Hf2, Hf3, Hf4, Hf5.
  set (h := handler_at_redirect _ _ _ _ _ _ _ _ _) in *.
  unfold set_messages.
  cbn [messages hostLists handlerRefs msgHandlers sidManagers].
  rewrite alter_insert_eq.
  unfold delete_XRootDMsgHandler.
  cbn [messages hostLists handlerRefs msgHandlers sidManagers].
  subst mh. rewrite lookup_insert_eq.
  unfold XRootDMsgHandler_dtor, MsgHandlerRef_Free_at.
  rewrite Hf1, Hf2, Hf3, Hf4, Hf5.
  cbn [messages hostLists handlerRefs msgHandlers sidManagers].
  rewrite lookup_insert_eq.
  change (MsgHandlerRef.Free (MsgHandlerRef.make (Some (fresh (dom H)))))
    with (@None MsgHandlerRef.cell).
  unfold set_handlerRefs, set_msgHandlers, delete_HostList, set_hostLists.
  destruct (negb (GetSessionId m1 =? 0));
    cbn [foldl delete_Message set_messages messages hostLists
         handlerRefs msgHandlers sidManagers];
    rewrite (delete_insert_id L), (delete_insert_id R), (delete_insert_id H)
      by apply fresh_lookup_None;
    rewrite ?delete_insert_eq; reflexivity.
Qed.

(** The ways out of RedirectMessage. *)
Lemma RedirectMessage_cases env rd url msg handler sendParams lFileHandler hp
    st sp' hp' :
  RedirectMessage env rd url msg handler sendParams lFileHandler hp
  = Some (st, sp', hp') →
  (IsOK (Registry_Register rd url) = false
   ∧ st = Registry_Register rd url ∧ sp' = sendParams ∧ hp' = hp)
  ∨ (IsOK (Registry_Register rd url) = true ∧ GetPostMaster env = None
     ∧ st = {| status := stError; code := errUninitialized |}
     ∧ sp' = sendParams ∧ hp' = hp)
  ∨ (IsOK (Registry_Register rd url) = true
     ∧ ∃ postMaster req,
         GetPostMaster env = Some postMaster
         ∧ messages hp !! msg = Some req
         ∧ sp' = set_loadBalancer (HostInfo_of url true) sendParams
         ∧ let m1 := MarshallRequest env req in
           let hp_r := heap_at_redirect env url msg handler sendParams
                         lFileHandler m1 hp in
           let st1 := PostMaster_Redirect rd url msg
                        (fresh (dom (msgHandlers hp))) hp_r in
           (IsOK st1 = true ∧ st = Status_default ∧ hp' = hp_r)
           ∨ (IsOK st1 = false ∧ st = st1
              ∧ hp' = {| messages :=
                           if negb (GetSessionId m1 =? 0)
                           then <[msg := UnMarshallRequest env m1]>
                                  (messages hp)
                           else delete msg (messages hp);
                         hostLists := hostLists hp;
                         handlerRefs := handlerRefs hp;
                         msgHandlers := msgHandlers hp;
                         sidManagers := sidManagers hp |})).
Proof.
  intros E.
  destruct (IsOK (Registry_Register rd url)) eqn:Hreg;
    [|left; unfold RedirectMessage in E; rewrite Hreg in E; cbn [negb] in E;
      by injection E as <- <- <-].
  right.
  destruct (GetPostMaster env) as [postMaster|] eqn:Hpm;
    [|left; unfold RedirectMessage in E; rewrite Hreg, Hpm in E;
      cbn [negb] in E; by injection E as <- <- <-].
  right. split; [done|].
  destruct (messages hp !! msg) as [req|] eqn:Hreq;
    [|unfold RedirectMessage in E; rewrite Hreg, Hpm in E;
      cbn [negb] in E; by rewrite Hreq in E].
  exists postMaster, req. split; [done|]. split; [done|].
  rewrite (RedirectMessage_eq env rd url msg handler sendParams lFileHandler
             hp postMaster req) in E by done.
  cbn zeta in E |- *.
  destruct (IsOK (PostMaster_Redirect _ _ _ _ _)) eqn:Hs in E |- *.
  - injection E as <- <- <-. split; [done|]. by left.
  - injection E as <- <- <-. split; [done|]. by right.
Qed.

End RedirectMessage_facts.

(** X23.  Whenever RedirectMessage returns a status that is not OK it leaves
    no handler, no counted reference and no host list behind, and no SID
    manager or other message is touched.  When the registration of the URL
    fails, or there is no PostMaster, nothing has happened at all: heap and
    send parameters are as they were.  When [PostMaster::Redirect] fails,
    the send parameters nevertheless keep [url] as their load balancer, and
    nothing else of them has changed. *)
Theorem RedirectMessage_failure (env : Env) (rd : Redirector) (url : URL)
    (msg : positive) (handler : ptr) (sendParams : MessageSendParams)
    (lFileHandler : ptr) (hp : Heap) (st : Status)
    (sp' : MessageSendParams) (hp' : Heap) :
  RedirectMessage env rd url msg handler sendParams lFileHandler hp
  = Some (st, sp', hp') →
  IsOK st = false →
  (msgHandlers hp' = msgHandlers hp ∧ handlerRefs hp' = handlerRefs hp
   ∧ hostLists hp' = hostLists hp ∧ sidManagers hp' = sidManagers hp
   ∧ ∀ a, a ≠ msg → messages hp' !! a = messages hp !! a)
  ∧ (IsOK (Registry_Register rd url) = false →
     st = Registry_Register rd url ∧ sp' = sendParams ∧ hp' = hp)
  ∧ (GetPostMaster env = None → sp' = sendParams ∧ hp' = hp)
  ∧ (IsOK (Registry_Register rd url) = true → GetPostMaster env ≠ None →
     sp' = set_loadBalancer (HostInfo_of url true) sendParams).
Proof.
  intros E Hst.
  destruct (RedirectMessage_cases _ _ _ _ _ _ _ _ _ _ _ E)
    as [(Hreg & -> & -> & ->)
       |[(Hreg & Hpm & -> & -> & ->)
        |(Hreg & pm & req & Hpm & Hreq & -> &
          [(_ & -> & _)|(Hs & -> & ->)])]]; try done.
  - split; [done|]. split; [done|]. split; [done|]. congruence.
  - split; [done|]. split; [congruence|]. split; [done|]. congruence.
  - cbn [messages hostLists handlerRefs msgHandlers sidManagers].
    split.
    + repeat (split; [reflexivity|]). intros a Ha.
      destruct (negb _);
        [by apply lookup_insert_ne | by apply lookup_delete_ne].
    + split; [congruence|]. split; [congruence|]. done.
Qed.

(** The redirect of the example request fails with a socket error. *)
Lemma RedirectMessage_failure_witness :
  ∃ hp',
    RedirectMessage (example_env Status_default)
      (example_redirector socket_error) origin 1 (Some 9%positive)
      example_params None (heap_with_request 7)
    = Some (socket_error,
            set_loadBalancer (HostInfo_of origin true) example_params, hp')
    ∧ msgHandlers hp' = ∅ ∧ handlerRefs hp' = ∅ ∧ hostLists hp' = ∅.
Proof.
  destruct (RedirectMessage (example_env Status_default)
              (example_redirector socket_error) origin 1 (Some 9%positive)
              example_params None (heap_with_request 7))
    as [[[st sp'] hp']|] eqn:E; [|by vm_compute in E].
  assert (Hst : st = socket_error).
  { vm_compute in E. by injection E as <- _ _. }
  subst st.
  destruct (RedirectMessage_failure (example_env Status_default)
              (example_redirector socket_error) origin 1 (Some 9%positive)
              example_params None (heap_with_request 7) socket_error sp' hp'
              E eq_refl)
    as ((E1 & E2 & E3 & _) & _ & _ & E4).
  exists hp'. rewrite (E4 eq_refl); [|discriminate].
  split; [reflexivity|]. by rewrite E1, E2, E3.
Defined.

(** X24.  When RedirectMessage succeeds it returns the default status, the
    send parameters carry [url] as load balancer, and the request at [msg]
    is marshalled.  The handler it handed to [PostMaster::Redirect] is at an
    address that was free; it has no SID manager, follows metalinks, is not
    stateful whatever the send parameters say, takes expiration, redirect
    limit, chunk list and redirect policy from the send parameters, and has
    [url] as its load balancer when [url] is valid; its host list is the
    single entry [url], flagged as load balancer, and its counted reference
    holds its address with count 1. *)
Theorem RedirectMessage_success (env : Env) (rd : Redirector) (url : URL)
    (msg : positive) (handler : ptr) (sendParams : MessageSendParams)
    (lFileHandler : ptr) (hp : Heap) (st : Status)
    (sp' : MessageSendParams) (hp' : Heap) :
  RedirectMessage env rd url msg handler sendParams lFileHandler hp
  = Some (st, sp', hp') →
  IsOK st = true →
  st = Status_default
  ∧ sp' = set_loadBalancer (HostInfo_of url true) sendParams
  ∧ (∃ req, messages hp !! msg = Some req
            ∧ messages hp' !! msg = Some (MarshallRequest env req))
  ∧ sidManagers hp' = sidManagers hp
  ∧ ∃ mh h list,
      msgHandlers hp !! mh = None
      ∧ msgHandlers hp' !! mh = Some h
      ∧ pSidMgr h = None
      ∧ pFollowMetalink h = true
      ∧ pStateful h = false
      ∧ pRequest h = msg ∧ pUrl h = url ∧ pResponseHandler h = handler
      ∧ pExpiration h = expires sendParams
      ∧ pRedirectCounter h = redirectLimit sendParams mod 65536
      ∧ pRedirectAsAnswer h = negb (followRedirects sendParams)
      ∧ pChunkList h = chunkList sendParams
      ∧ pHasLoadBalancer h = IsValid (urlOps env) url
      ∧ (pHasLoadBalancer h = true → pLoadBalancer h = HostInfo_of url true)
      ∧ pHosts h = Some list
      ∧ hostLists hp !! list = None
      ∧ hostLists hp' !! list = Some [HostInfo_of url true]
      ∧ handlerRefs hp !! pRef h = None
      ∧ handlerRefs hp' !! pRef h = Some (MsgHandlerRef.make (Some mh)).
Proof.
  intros E Hst.
  destruct (RedirectMessage_cases _ _ _ _ _ _ _ _ _ _ _ E)
    as [(Hreg & -> & _)
       |[(_ & _ & -> & _)
        |(Hreg & pm & req & Hpm & Hreq & -> &
          [(_ & -> & ->)|(Hs & -> & _)])]]; try congruence; try done.
  split; [done|]. split; [done|].
  cbn [heap_at_redirect messages hostLists handlerRefs msgHandlers
       sidManagers].
  split; [exists req; split; [done|apply lookup_insert_eq]|].
  split; [done|].
  eexists _, _, (fresh (dom (hostLists hp))).
  split; [apply fresh_lookup_None|].
  split; [apply lookup_insert_eq|].
  unfold handler_at_redirect, SetLoadBalancer, SetChunkList, SetExpiration,
    SetRedirectAsAnswer, SetRedirectCounter, SetFollowMetalink, wrap16.
  cbn [hi_url HostInfo_of].
  destruct (IsValid (urlOps env) url);
    destruct (chunkList sendParams) as [cl|];
    cbn -[Z.modulo fresh];
    repeat (split; [first [reflexivity | done]|]);
    (split; [apply fresh_lookup_None|]);
    (split; [apply lookup_insert_eq|]);
    (split; [apply fresh_lookup_None | apply lookup_insert_eq]).
Qed.

(** The example request is redirected to a virtual redirector. *)
Lemma RedirectMessage_success_witness :
  ∃ sp' hp' h,
    RedirectMessage (example_env Status_default)
      (example_redirector Status_default) origin 1 (Some 9%positive)
      example_params None (heap_with_request 7)
    = Some (Status_default, sp', hp')
    ∧ sp_loadBalancer sp' = HostInfo_of origin true
    ∧ msgHandlers hp' !! 1%positive = Some h
    ∧ pFollowMetalink h = true ∧ pSidMgr h = None.
Proof.
  destruct (RedirectMessage (example_env Status_default)
              (example_redirector Status_default) origin 1 (Some 9%positive)
              example_params None (heap_with_request 7))
    as [[[st sp'] hp']|] eqn:E; [|by vm_compute in E].
  assert (Hst : st = Status_default).
  { vm_compute in E. by injection E as <- _ _. }
  subst st.
  destruct (RedirectMessage_success (example_env Status_default)
              (example_redirector Status_default) origin 1 (Some 9%positive)
              example_params None (heap_with_request 7) Status_default sp' hp'
              E eq_refl)
    as (_ & Hsp & _ & _ & mh & h & list & Hfree & Hh & Hsid & Hml & _).
  assert (mh = 1%positive) as ->.
  { vm_compute in E. injection E as _ <-. vm_compute in Hh.
    clear -Hh.
    destruct mh as [mh|mh|]; [| |reflexivity]; vm_compute in Hh;
      discriminate. }
  exists sp', hp', h. split; [reflexivity|].
  split; [by rewrite Hsp|]. by repeat split.
Defined.

(** ** RedirectEntry::ToString *)

Lemma prefix_append (p s : string) : String.prefix p (p +:+ s) = true.
Proof.
  induction p as [|a p IH].
  - by destruct s.
  - change (String a p +:+ s)%string with (String a (p +:+ s)).
    cbn [String.prefix]. destruct (Ascii.ascii_dec a a); [exact IH|done].
Qed.

(** X25.  The three lines of the redirect trace-back cannot be confused:
    the line starts with "Failed at: " exactly when the previous attempt
    was not OK, with "Retrying: " exactly when it was OK and source and
    target have the same location, and with "Redirected from: " exactly
    when it was OK and the locations differ. *)
Theorem RedirectEntry_ToString_kinds (GetLocation : URL → string)
    (e : RedirectEntry) (prevok : bool) :
  let line := RedirectEntry_ToString GetLocation e prevok in
  let same := String.eqb (GetLocation (to e)) (GetLocation (from e)) in
  String.prefix "Failed at: " line = negb prevok
  ∧ String.prefix "Retrying: " line = prevok && same
  ∧ String.prefix "Redirected from: " line = prevok && negb same.
Proof.
  intros line same. subst line same. unfold RedirectEntry_ToString.
  cbn zeta.
  destruct prevok;
    [destruct (String.eqb (GetLocation (to e)) (GetLocation (from e)))|];
    cbn [negb andb]; repeat split;
    first [apply prefix_append | reflexivity].
Qed.

(** ** ProcessSendParams, then SendMessage *)


